(** * server-name-picker: hostname and address availability services

    A shallow embedding of the three message/HTTP back ends of the
    repository:

    - the ProxMox service ([POST /proxmox/check-hostname] and its own
      consumer of the [hostname-requests] topic),
    - the IPAM service ([authenticateIpam], [POST /ipam/check-ip],
      [POST /ipam/next-available] and its own consumer of [ip-requests]),
    - the stand-alone kafka-consumer ([processHostnameRequest],
      [processIpRequest]), which relays the same topics to the two
      services over HTTP,

    and, for the further properties at the end, of the routes of the
    API gateway in front of the three [POST] endpoints and of the cached
    list endpoints of the two services ([GET /ipam/subnets],
    [/ipam/subnet/:id], [/ipam/addresses], [GET /proxmox/nodes],
    [/proxmox/vms], [/proxmox/hosts]).

    Conventions of the model.

    - A JavaScript string is a [string] of code units below 256
      (U+0000 to U+00FF); [toLowerCase] and the [i] flag fold the letters
      of that range, A-Z and U+00C0-U+00DE.  Strings with code units
      from 256 on are outside the model.
    - The numbers of the suggestion block and of JSON values are
      integers held in doubles ([Number]): exact below 2^53, rounded to
      the nearest double above, infinite from 2^1024 on, and written as
      Number-to-String writes them.  Instants and time spans of the
      caches are integers ([Z]); they agree with the doubles of the
      code below 2^53.
    - A value that travels as a JSON body (from the gateway or the
      kafka-consumer to a service, and back) is what [JSON.parse] reads
      of its [JSON.stringify] text ([wire]).
    - A thrown exception is the [Throw] result of the [Result] type; an
      [async] handler with mutable process state (token cache, default
      headers, upstream calls made, records produced) is a function in
      the state-and-exception monad [M].
    - Upstream systems (ProxMox, phpIPAM) are inputs: a reply, or a
      function from the request sent to the reply received.
    - Logging is left out, and [producer.send] always succeeds.
    - The node-cache of a service is the list of its entries, newest
      first, each with its expiry instant; an expired entry stays in the
      list and is passed over, which is what a reader sees as long as the
      clock does not go back. *)

From Stdlib Require Import String Ascii List Bool ZArith NArith Lia.
From Stdlib Require Import DecimalString DecimalPos.
Import ListNotations.
Open Scope string_scope.
Set Warnings "-register-all".

(** ** Exceptions and results *)

Inductive Exn : Type :=
| TypeError
| SyntaxError
| AxiosError (status : option Z).   (* [None]: no reply at all *)

Inductive Result (A : Type) : Type :=
| Ok (a : A)
| Throw (e : Exn).
Arguments Ok {A} a.
Arguments Throw {A} e.

Definition rbind {A B} (r : Result A) (k : A -> Result B) : Result B :=
  match r with
  | Ok a => k a
  | Throw e => Throw e
  end.

Declare Scope result_scope.
Delimit Scope result_scope with result.
Notation "x <- r ;; k" := (rbind r (fun x => k))
  (at level 61, r at next level, right associativity) : result_scope.

(** ** JavaScript numbers

    The numbers of the handlers are integers held in IEEE 754 doubles.
    [Finite z] is the double whose value is the integer [z] (only
    integers that a double can hold occur), the other two are the
    infinities; [NaN] is kept apart, as the [None] of [parseInt]. *)

Module Number.

Inductive number : Type :=
| Finite (z : Z)
| PosInfinity
| NegInfinity.

(** The double nearest to the natural number [a], a tie going to the
    even significand: up to 2^53 the number itself, then the 53 leading
    bits rounded. *)
Definition nearest (a : Z) : Z :=
  let e := (Z.log2 a - 52)%Z in
  if (e <=? 0)%Z then a
  else
    let q := Z.shiftr a e in
    let r := (a - Z.shiftl q e)%Z in
    let half := Z.shiftl 1 (e - 1) in
    let q' := if (r <? half)%Z then q
              else if (half <? r)%Z then (q + 1)%Z
              else if Z.even q then q else (q + 1)%Z in
    Z.shiftl q' e.

(** The Number value of the integer [z], as a numeric literal, JSON text
    or [parseInt] of its digits gives it: the nearest double, an infinity
    once that would be 2^1024. *)
Definition of_Z (z : Z) : number :=
  let m := nearest (Z.abs z) in
  if (Z.shiftl 1 1024 <=? m)%Z
  then if (z <? 0)%Z then NegInfinity else PosInfinity
  else Finite (Z.sgn z * m).

(** [x + i] for a small integer [i] *)
Definition add (x : number) (i : Z) : number :=
  match x with
  | Finite z => of_Z (z + i)
  | PosInfinity => PosInfinity
  | NegInfinity => NegInfinity
  end.

(** [x < y] *)
Definition ltb (x y : number) : bool :=
  match x, y with
  | Finite a, Finite b => (a <? b)%Z
  | Finite _, PosInfinity => true
  | NegInfinity, Finite _ => true
  | NegInfinity, PosInfinity => true
  | _, _ => false
  end.

Definition is_finite (x : number) : bool :=
  match x with
  | Finite _ => true
  | _ => false
  end.

Definition decimal (n : Z) : string := NilZero.string_of_int (Z.to_int n).

(** Number-to-String looks for the fewest digits [s] (there are [k] of
    them) and the exponent [n] such that [s * 10^(n-k)] is read back as
    the number [m]. *)
Definition reads_back (m k : Z) (c : Z * Z) : bool :=
  let (s, n) := c in
  (10 ^ (k - 1) <=? s)%Z && (s <? 10 ^ k)%Z && (k <=? n)%Z &&
  match of_Z (s * 10 ^ (n - k)) with
  | Finite x => (x =? m)%Z
  | _ => false
  end.

(** Of two candidates the one closer to [m], the even one on a tie. *)
Definition closer (m k : Z) (a b : Z * Z) : Z * Z :=
  let da := Z.abs (fst a * 10 ^ (snd a - k) - m) in
  let db := Z.abs (fst b * 10 ^ (snd b - k) - m) in
  if (da <? db)%Z then a
  else if (db <? da)%Z then b
  else if Z.even (fst a) then a else b.

Definition pick (m k : Z) (cs : list (Z * Z)) : option (Z * Z) :=
  fold_left
    (fun best c =>
       if reads_back m k c then
         Some (match best with
               | Some b => closer m k b c
               | None => c
               end)
       else best)
    cs None.

(** For [k] digits the candidates are the two neighbours of [m] with
    that many digits and the next power of ten; [d] is the number of
    digits of [m] itself. *)
Fixpoint shortest (m d : Z) (ks : list Z) : Z * Z * Z :=
  match ks with
  | [] => (m, d, d)
  | k :: more =>
      let s := (m / 10 ^ (d - k))%Z in
      match pick m k [(s, d); ((s + 1)%Z, d);
                      ((10 ^ (k - 1))%Z, (d + 1)%Z)] with
      | Some (s', n) => (s', n, k)
      | None => shortest m d more
      end
  end.

Fixpoint zeros (n : nat) : string :=
  match n with
  | O => ""
  | S n' => String "0" (zeros n')
  end.

(** The text of an integer double [m] from 2^53 on: its digits and
    zeros up to 21 places, the exponent form beyond. *)
Definition large (m : Z) : string :=
  let d := Z.of_nat (String.length (decimal m)) in
  let '(s, n, k) :=
    shortest m d [1; 2; 3; 4; 5; 6; 7; 8; 9; 10; 11; 12; 13; 14; 15; 16; 17]%Z in
  if (n <=? 21)%Z then decimal s ++ zeros (Z.to_nat (n - k))
  else
    match decimal s with
    | String c EmptyString => String c ("e+" ++ decimal (n - 1))
    | String c rest => String c ("." ++ rest ++ "e+" ++ decimal (n - 1))
    | EmptyString => ""
    end.

(** [`${x}`]: below 2^53 every integer is a double of its own and all
    its digits are written. *)
Definition to_string (x : number) : string :=
  match x with
  | Finite z =>
      if (Z.abs z <? 2 ^ 53)%Z then decimal z
      else (if (z <? 0)%Z then "-" else "") ++ large (Z.abs z)
  | PosInfinity => "Infinity"
  | NegInfinity => "-Infinity"
  end.

End Number.

(** ** JavaScript values and strings *)

Module Js.

(** A JSON value.  [JNum n] is the number written [n]: its value is the
    double [Number.of_Z n]. *)
Inductive json : Type :=
| JNull
| JBool (b : bool)
| JNum (n : Z)
| JStr (s : string)
| JArr (items : list json)
| JObj (fields : list (string * json)).

(** A value that may be [undefined] is an [option json]. *)
Definition value := option json.

Fixpoint lookup (k : string) (fields : list (string * json)) : value :=
  match fields with
  | [] => None
  | (k', v) :: rest => if String.eqb k k' then Some v else lookup k rest
  end.

(** [v.k]: reading a property of [null] throws, a primitive or an array
    has no property of the names used here. *)
Definition prop (v : json) (k : string) : Result value :=
  match v with
  | JNull => Throw TypeError
  | JObj fields => Ok (lookup k fields)
  | _ => Ok None
  end.

(** [u.k] where [u] may be [undefined]. *)
Definition vprop (u : value) (k : string) : Result value :=
  match u with
  | None => Throw TypeError
  | Some v => prop v k
  end.

(** An object literal handed to [JSON.stringify] or [res.json]: a field
    whose value is [undefined] is left out. *)
Fixpoint object (fields : list (string * value)) : list (string * json) :=
  match fields with
  | [] => []
  | (k, Some v) :: rest => (k, v) :: object rest
  | (_, None) :: rest => object rest
  end.

Definition truthy (u : value) : bool :=
  match u with
  | None => false
  | Some JNull => false
  | Some (JBool b) => b
  | Some (JNum n) => negb (Z.eqb n 0)
  | Some (JStr s) => negb (String.eqb s "")
  | Some (JArr _) => true
  | Some (JObj _) => true
  end.

(** [a || b] *)
Definition or_else (a b : value) : value := if truthy a then a else b.

(** [process.env.X || 'default'] *)
Definition env_or (x : option string) (default : string) : string :=
  match x with
  | Some s => if String.eqb s "" then default else s
  | None => default
  end.

(** The lower-case and the upper-case form of a code unit below 256:
    the letters A-Z and, beyond ASCII, U+00C0-U+00DE without the
    multiplication sign are the upper-case ones; U+00DF, U+00B5 and
    U+00FF have no upper-case form below 256 and compare equal to
    themselves only. *)
Definition lower_ascii (c : ascii) : ascii :=
  let n := N_of_ascii c in
  if ((65 <=? n)%N && (n <=? 90)%N)
     || ((192 <=? n)%N && (n <=? 222)%N && negb (n =? 215)%N)
  then ascii_of_N (n + 32) else c.

Definition upper_ascii (c : ascii) : ascii :=
  let n := N_of_ascii c in
  if ((97 <=? n)%N && (n <=? 122)%N)
     || ((224 <=? n)%N && (n <=? 254)%N && negb (n =? 247)%N)
  then ascii_of_N (n - 32) else c.

Fixpoint toLowerCase (s : string) : string :=
  match s with
  | EmptyString => EmptyString
  | String c rest => String (lower_ascii c) (toLowerCase rest)
  end.

(** [u.toLowerCase()]: only a string has the method. *)
Definition call_toLowerCase (u : value) : Result string :=
  match u with
  | Some (JStr s) => Ok (toLowerCase s)
  | _ => Throw TypeError
  end.

(** [s.startsWith(p)] *)
Fixpoint startsWith (s p : string) {struct p} : bool :=
  match p, s with
  | EmptyString, _ => true
  | String a p', String b s' => Ascii.eqb a b && startsWith s' p'
  | String _ _, EmptyString => false
  end.

(** [s.split(sep)] for a one-character separator. *)
Fixpoint split (sep : ascii) (s : string) : list string :=
  match s with
  | EmptyString => [EmptyString]
  | String c rest =>
      if Ascii.eqb c sep then EmptyString :: split sep rest
      else match split sep rest with
           | [] => [String c EmptyString]
           | piece :: pieces => String c piece :: pieces
           end
  end.

Definition is_digit (c : ascii) : bool :=
  let n := N_of_ascii c in (48 <=? n)%N && (n <=? 57)%N.

Fixpoint all_digits (s : string) : bool :=
  match s with
  | EmptyString => true
  | String c rest => is_digit c && all_digits rest
  end.

(** The decimal numeral of an integer. *)
Definition decimalZ (n : Z) : string := NilZero.string_of_int (Z.to_int n).

(** [`${v}`] *)
Fixpoint toString (v : json) : string :=
  match v with
  | JNull => "null"
  | JBool true => "true"
  | JBool false => "false"
  | JNum n => Number.to_string (Number.of_Z n)
  | JStr s => s
  | JArr items =>
      String.concat ","
        (map (fun e => match e with JNull => "" | _ => toString e end) items)
  | JObj _ => "[object Object]"
  end.

Definition template (u : value) : string :=
  match u with
  | None => "undefined"
  | Some v => toString v
  end.

(** [JSON.parse(JSON.stringify(v))], what is left of a value that
    travels as a JSON body: a number that is not finite becomes
    [null]. *)
Fixpoint wire (v : json) : json :=
  match v with
  | JNum n => if Number.is_finite (Number.of_Z n) then JNum n else JNull
  | JArr items => JArr (map wire items)
  | JObj fields => JObj (map (fun kv => (fst kv, wire (snd kv))) fields)
  | _ => v
  end.

Definition wire_fields (fields : list (string * json)) : list (string * json) :=
  map (fun kv => (fst kv, wire (snd kv))) fields.

Definition wire_value (u : value) : value := option_map wire u.

(** [v.length] *)
Definition length_of (v : json) : option nat :=
  match v with
  | JStr s => Some (String.length s)
  | JArr items => Some (List.length items)
  | _ => None
  end.

End Js.
Import Js.

(** ** HTTP: replies of a server, the axios client, express responses *)

Module Http.

(** What a server does with one request. *)
Inductive Reply : Type :=
| NoReply
| Status (code : Z) (data : json).

(** [validateStatus: (status) => status >= 200 && status < 300], which
    is also the default of axios. *)
Definition validateStatus (status : Z) : bool :=
  (200 <=? status)%Z && (status <? 300)%Z.

(** An axios call resolves with [response.data] or rejects. *)
Definition axios (r : Reply) : Result json :=
  match r with
  | NoReply => Throw (AxiosError None)
  | Status code data =>
      if validateStatus code then Ok data else Throw (AxiosError (Some code))
  end.

(** [res.status(code).json(body)] *)
Record Response : Type := mkResponse {
  status : Z;
  body : list (string * json)
}.

Definition error_response (code : Z) (error message : string) : Response :=
  mkResponse code
    (object [("error", Some (JStr error)); ("message", Some (JStr message))]).

Definition field (r : Response) (k : string) : value := lookup k (body r).

(** The reply a client of this express server receives: the status and
    the body as JSON text read back. *)
Definition reply_of (r : Response) : Reply :=
  Status (status r) (JObj (wire_fields (body r))).

(** [verifyToken]: [req.headers.authorization?.split(' ')[1]] must be
    truthy. *)
Definition bearer (authorization : option string) : option string :=
  match authorization with
  | None => None
  | Some h => nth_error (split " " h) 1
  end.

Definition unauthorized : Response :=
  error_response 401 "Unauthorized" "Authentication token is required".

Definition verifyToken {A} (authorization : option string)
           (reject : Response -> A) (next : A) : A :=
  match bearer authorization with
  | Some (String _ _) => next
  | _ => reject unauthorized
  end.

End Http.
Import Http.

(** ** Regular expressions: [new RegExp(`^${prefix}(\\d+)$`, 'i')]

    The pattern is built from the caller's prefix without escaping.  The
    model executes the ECMAScript backtracking semantics for the patterns
    whose prefix part is a sequence of ordinary characters and [.], each
    optionally followed by one greedy quantifier [*], [+] or [?].  For any
    other prefix (escapes, groups, classes, alternation, braces, lazy
    quantifiers, or a pattern that does not compile) the result of
    [name.match(...)] is supplied by an [Engine], on which nothing is
    assumed. *)

Module Regex.

Inductive atom : Type :=
| AChar (c : ascii)
| ADot
| ADigit.

Inductive quant : Type := One | Opt | Star | Plus.

Definition item : Type := atom * quant.

(** Canonicalize of the [i] flag: comparison of upper-cased code units. *)
Definition canonicalize (c : ascii) : ascii := upper_ascii c.

Definition is_line_terminator (c : ascii) : bool :=
  Ascii.eqb c "010" || Ascii.eqb c "013".

Definition atom_matches (a : atom) (c : ascii) : bool :=
  match a with
  | AChar x => Ascii.eqb (canonicalize x) (canonicalize c)
  | ADot => negb (is_line_terminator c)
  | ADigit => is_digit c
  end.

(** Greedy repetition followed by the continuation [k]: take one more
    character first, give it back when the rest fails. *)
Fixpoint star {T} (a : atom) (k : string -> option T) (s : string) : option T :=
  match s with
  | String c rest =>
      if atom_matches a c then
        match star a k rest with
        | Some r => Some r
        | None => k s
        end
      else k s
  | EmptyString => k s
  end.

Fixpoint match_items {T} (items : list item) (k : string -> option T)
         (s : string) : option T :=
  match items with
  | [] => k s
  | (a, q) :: more =>
      let next := match_items more k in
      match q, s with
      | One, String c rest => if atom_matches a c then next rest else None
      | One, EmptyString => None
      | Opt, String c rest =>
          if atom_matches a c then
            match next rest with
            | Some r => Some r
            | None => next s
            end
          else next s
      | Opt, EmptyString => next s
      | Star, _ => star a next s
      | Plus, String c rest => if atom_matches a c then star a next rest else None
      | Plus, EmptyString => None
      end
  end.

(** [^ items (\d+) $] on [name], from index 0: the text of group 1 of the
    first match in backtracking order, if any. *)
Definition exec (items : list item) (name : string) : option string :=
  match_items items
    (fun group_start =>
       match_items [(ADigit, Plus)]
         (fun rest =>
            match rest with
            | EmptyString =>
                Some (substring 0 (String.length group_start - String.length rest)
                                group_start)
            | String _ _ => None
            end)
         group_start)
    name.

(** SyntaxCharacter of the pattern grammar. *)
Definition is_syntax_character (c : ascii) : bool :=
  existsb (Ascii.eqb c)
    ["^"; "$"; "\"; "."; "*"; "+"; "?"; "("; ")"; "["; "]"; "{"; "}"; "|"]%char.

Definition atom_of (c : ascii) : option atom :=
  if Ascii.eqb c "." then Some ADot
  else if is_syntax_character c then None
  else Some (AChar c).

Definition quant_of (c : ascii) : option quant :=
  if Ascii.eqb c "*" then Some Star
  else if Ascii.eqb c "+" then Some Plus
  else if Ascii.eqb c "?" then Some Opt
  else None.

(** The prefix as a sequence of quantified atoms, [None] outside the
    executed fragment. *)
Fixpoint parse (prefix : string) : option (list item) :=
  match prefix with
  | EmptyString => Some []
  | String c rest =>
      match atom_of c with
      | None => None
      | Some a =>
          match rest with
          | EmptyString => Some [(a, One)]
          | String q rest' =>
              match quant_of q with
              | Some q' => option_map (cons (a, q')) (parse rest')
              | None => option_map (cons (a, One)) (parse rest)
              end
          end
      end
  end.

(** [name.match(re)]: throws (the pattern does not compile), [null], or
    the match array, of which only element 1 is read (it may be
    [undefined]). *)
Definition MatchResult : Type := Result (option (option string)).

Definition Engine : Type := string -> string -> MatchResult.

Definition js_match (engine : Engine) (prefix name : string) : MatchResult :=
  match parse prefix with
  | Some items => Ok (option_map Some (exec items name))
  | None => engine prefix name
  end.

End Regex.

(** [parseInt(s)]: leading white space, a sign, [0x] for radix 16, then
    the longest run of digits; [None] is [NaN]. *)

Module ParseInt.

Definition is_space (c : ascii) : bool :=
  existsb (Ascii.eqb c)
    ["032"; "009"; "010"; "011"; "012"; "013"; "160"]%char.

Fixpoint trim_start (s : string) : string :=
  match s with
  | String c rest => if is_space c then trim_start rest else s
  | EmptyString => s
  end.

Definition digit_value (radix : Z) (c : ascii) : option Z :=
  let n := Z.of_N (N_of_ascii c) in
  let v := if (48 <=? n)%Z && (n <=? 57)%Z then Some (n - 48)%Z
           else if (97 <=? n)%Z && (n <=? 122)%Z then Some (n - 87)%Z
           else if (65 <=? n)%Z && (n <=? 90)%Z then Some (n - 55)%Z
           else None in
  match v with
  | Some d => if (d <? radix)%Z then Some d else None
  | None => None
  end.

(** Value of the longest prefix of digits; [None] when it is empty. *)
Fixpoint digits (radix : Z) (acc : option Z) (s : string) : option Z :=
  match s with
  | String c rest =>
      match digit_value radix c with
      | Some d =>
          digits radix
            (Some (match acc with Some a => a * radix + d | None => d end)%Z) rest
      | None => acc
      end
  | EmptyString => acc
  end.

Definition unsigned (s : string) : option Z :=
  match s with
  | String "0" (String x rest) =>
      if Ascii.eqb x "x" || Ascii.eqb x "X" then digits 16 None rest
      else digits 10 None s
  | _ => digits 10 None s
  end.

Definition parseInt (s : string) : option Z :=
  match trim_start s with
  | String "-" rest => option_map Z.opp (unsigned rest)
  | String "+" rest => unsigned rest
  | t => unsigned t
  end.

End ParseInt.

(** ** Kafka messages *)

Module Kafka.

(** An inbound message.  [value] is the outcome of
    [JSON.parse(message.value.toString())]: [None] when that throws. *)
Record Message : Type := mkMessage {
  key : option string;
  value : option json
}.

Definition JSON_parse (m : Message) : Result json :=
  match value m with
  | Some v => Ok v
  | None => Throw SyntaxError
  end.

(** One entry of [producer.send({topic, messages: [{key, value}]})]; the
    value is the object given to [JSON.stringify]. *)
Record ProducerRecord : Type := mkRecord {
  topic : string;
  record_key : option string;
  payload : list (string * json)
}.

End Kafka.
Import Kafka.

(** ** The ProxMox service *)

Module Proxmox.
Import Regex.
Local Open Scope result_scope.

(** A VM as the inventory lists it, and the reply of
    [GET /cluster/resources?type=vm] for a list of them. *)
Record Host : Type := mkHost {
  vmid : Z;
  name : string;
  node : string;
  vm_status : string
}.

Definition vm_of (h : Host) : json :=
  JObj [("vmid", JNum (vmid h)); ("name", JStr (name h));
        ("node", JStr (node h)); ("status", JStr (vm_status h))].

Definition inventory (hosts : list Host) : Reply :=
  Status 200 (JObj [("data", JArr (map vm_of hosts))]).

Definition as_array (u : Js.value) : Result (list json) :=
  match u with
  | Some (JArr items) => Ok items
  | _ => Throw TypeError
  end.

(** [vm.name.toLowerCase()] *)
Definition name_toLowerCase (vm : json) : Result string :=
  n <- prop vm "name" ;; call_toLowerCase n.

(** [vms.some(vm => vm.name.toLowerCase() === normalizedHostname)] *)
Fixpoint some_named (vms : list json) (normalizedHostname : string)
  : Result bool :=
  match vms with
  | [] => Ok false
  | vm :: rest =>
      l <- name_toLowerCase vm ;;
      if String.eqb l normalizedHostname then Ok true
      else some_named rest normalizedHostname
  end.

(** [vms.filter(vm => vm.name.toLowerCase().startsWith(prefixLower))] *)
Fixpoint filter_prefix (vms : list json) (prefixLower : string)
  : Result (list json) :=
  match vms with
  | [] => Ok []
  | vm :: rest =>
      l <- name_toLowerCase vm ;;
      kept <- filter_prefix rest prefixLower ;;
      Ok (if startsWith l prefixLower then vm :: kept else kept)
  end.

(** [.map(vm => vm.name)]; the names are strings, [filter] has called
    their [toLowerCase]. *)
Fixpoint names_of (vms : list json) : Result (list string) :=
  match vms with
  | [] => Ok []
  | vm :: rest =>
      n <- prop vm "name" ;;
      names <- names_of rest ;;
      match n with
      | Some (JStr s) => Ok (s :: names)
      | _ => Throw TypeError
      end
  end.

Definition existingPrefixNames (vms : list json) (prefixLower : string)
  : Result (list string) :=
  kept <- filter_prefix vms prefixLower ;; names_of kept.

(** One turn of the [forEach] that finds the highest number.  [num] is
    the double that [parseInt] returns for the digits it reads, [NaN]
    when it reads none. *)
Definition highest_step (engine : Engine) (prefix : string)
           (maxNumber : Number.number) (name : string) : Result Number.number :=
  m <- js_match engine prefix name ;;
  match m with
  | Some (Some group1) =>
      if negb (String.eqb group1 "") then
        match ParseInt.parseInt group1 with
        | Some z =>
            let num := Number.of_Z z in
            Ok (if Number.ltb maxNumber num then num else maxNumber)
        | None => Ok maxNumber
        end
      else Ok maxNumber
  | _ => Ok maxNumber
  end.

Fixpoint highest (engine : Engine) (prefix : string) (names : list string)
         (maxNumber : Number.number) : Result Number.number :=
  match names with
  | [] => Ok maxNumber
  | name :: rest =>
      maxNumber' <- highest_step engine prefix maxNumber name ;;
      highest engine prefix rest maxNumber'
  end.

(** [for (let i = 1; i <= 3; i++) suggestions.push(`${prefix}${maxNumber + i}`)] *)
Definition numbered (prefix : string) (maxNumber : Number.number)
  : list string :=
  map (fun i => prefix ++ Number.to_string (Number.add maxNumber i))
      [1; 2; 3]%Z.

(** The block guarded by [if (prefix)]. *)
Definition suggest (engine : Engine) (vms : list json) (prefix : Js.value)
  : Result (list string) :=
  if truthy prefix then
    prefixLower <- call_toLowerCase prefix ;;
    names <- existingPrefixNames vms prefixLower ;;
    maxNumber <- highest engine (template prefix) names (Number.Finite 0) ;;
    Ok (numbered (template prefix) maxNumber)
  else Ok [].

Definition taken_response (hostname : Js.value) : Response :=
  mkResponse 200
    (object [("available", Some (JBool false));
             ("message",
              Some (JStr ("Hostname '" ++ template hostname
                            ++ "' is already in use")))]).

Definition free_response (suggestions : list string) : Response :=
  mkResponse 200
    (object [("available", Some (JBool true));
             ("suggestions", Some (JArr (map JStr suggestions)))]).

(** The handler of [POST /proxmox/check-hostname], after [verifyToken]. *)
Definition check_hostname_try (engine : Engine) (upstream : Reply)
           (body : list (string * json)) : Result Response :=
  let hostname := lookup "hostname" body in
  let prefix := lookup "prefix" body in
  if negb (truthy hostname) then
    Ok (error_response 400 "Bad Request" "Hostname is required")
  else
    hostsResponse <- axios upstream ;;
    vms <- prop hostsResponse "data" ;;
    normalizedHostname <- call_toLowerCase hostname ;;
    items <- as_array vms ;;
    exists_ <- some_named items normalizedHostname ;;
    if exists_ then Ok (taken_response hostname)
    else
      suggestions <- suggest engine items prefix ;;
      Ok (free_response suggestions).

Definition check_hostname (engine : Engine) (upstream : Reply)
           (body : list (string * json)) : Response :=
  match check_hostname_try engine upstream body with
  | Ok r => r
  | Throw _ =>
      error_response 500 "Internal Server Error" "Failed to check hostname"
  end.

(** The route: [app.post('/proxmox/check-hostname', verifyToken, ...)]. *)
Definition route_check_hostname (engine : Engine) (upstream : Reply)
           (authorization : option string) (body : list (string * json))
  : Response :=
  verifyToken authorization (fun r => r) (check_hostname engine upstream body).

(** [eachMessage] of the service's own consumer of [hostname-requests]:
    the records sent to the producer.  [env_topic] is
    [process.env.KAFKA_TOPIC_HOSTNAME_RESPONSE], [now] the result of
    [new Date().toISOString()]. *)
Definition eachMessage_try (env_topic : option string) (now : string)
           (upstream : Reply) (message : Message) : Result (list ProducerRecord) :=
  request <- JSON_parse message ;;
  hostname <- prop request "hostname" ;;
  hostsResponse <- axios upstream ;;
  vms <- prop hostsResponse "data" ;;
  normalizedHostname <- call_toLowerCase hostname ;;
  items <- as_array vms ;;
  exists_ <- some_named items normalizedHostname ;;
  requestId <- prop request "requestId" ;;
  Ok [mkRecord (env_or env_topic "hostname-responses") (key message)
        (object [("requestId", requestId);
                 ("hostname", hostname);
                 ("available", Some (JBool (negb exists_)));
                 ("timestamp", Some (JStr now))])].

Definition eachMessage (env_topic : option string) (now : string)
           (upstream : Reply) (message : Message) : list ProducerRecord :=
  match eachMessage_try env_topic now upstream message with
  | Ok records => records
  | Throw _ => []
  end.

End Proxmox.

(** ** The IPAM service *)

Module Ipam.

(** A call to phpIPAM: the login [axios.post(url, {username, password})],
    or a [phpIpamApi.get] with the [token] header of the client's
    defaults at that moment. *)
Inductive Call : Type :=
| Post (url : string) (data : list (string * json))
| Get (url : string) (token : Js.value).

(** [process.env], the clock and phpIPAM itself. *)
Record Env : Type := mkEnv {
  PHPIPAM_API_URL : option string;
  PHPIPAM_API_TOKEN : option string;
  PHPIPAM_API_APP_ID : option string;
  PHPIPAM_API_USERNAME : option string;
  PHPIPAM_API_PASSWORD : option string;
  CACHE_TTL : option string;
  KAFKA_TOPIC_IP_RESPONSE : option string;
  clock : Z;                       (* [Date.now()], milliseconds *)
  timestamp : string;              (* [new Date().toISOString()] *)
  upstream : Call -> Reply
}.

(** The process state a handler reads and writes: the node-cache entries
    (value and expiry instant, 0 for none), the [token] default header
    of [phpIpamApi], the calls made to phpIPAM and the records handed to
    the producer, both oldest first. *)
Record State : Type := mkState {
  cache : list (string * (Js.value * Z));
  header_token : Js.value;
  calls : list Call;
  produced : list ProducerRecord
}.

Definition M (A : Type) : Type := State -> Result A * State.

Definition ret {A} (a : A) : M A := fun st => (Ok a, st).

Definition throw {A} (e : Exn) : M A := fun st => (Throw e, st).

Definition bind {A B} (m : M A) (k : A -> M B) : M B :=
  fun st =>
    match m st with
    | (Ok a, st') => k a st'
    | (Throw e, st') => (Throw e, st')
    end.

Definition lift {A} (r : Result A) : M A := fun st => (r, st).

(** [try { body } catch (error) { handler }] *)
Definition try_catch {A} (body : M A) (handler : Exn -> M A) : M A :=
  fun st =>
    match body st with
    | (Ok a, st') => (Ok a, st')
    | (Throw error, st') => handler error st'
    end.

Declare Scope ipam_scope.
Delimit Scope ipam_scope with ipam.
Notation "x <- m ;; k" := (bind m (fun x => k))
  (at level 61, m at next level, right associativity) : ipam_scope.
Notation "m ;;; k" := (bind m (fun _ => k))
  (at level 61, right associativity) : ipam_scope.
Local Open Scope ipam_scope.

(** [stdTTL: parseInt(process.env.CACHE_TTL) || 300] *)
Definition stdTTL (env : Env) : Z :=
  match CACHE_TTL env with
  | Some s =>
      match ParseInt.parseInt s with
      | Some n => if Z.eqb n 0 then 300%Z else n
      | None => 300%Z
      end
  | None => 300%Z
  end.

Fixpoint cache_find (k : string) (entries : list (string * (Js.value * Z)))
  : option (Js.value * Z) :=
  match entries with
  | [] => None
  | (k', e) :: rest => if String.eqb k k' then Some e else cache_find k rest
  end.

(** [cache.get(key)]: an expired entry is as good as none. *)
Definition cache_get (env : Env) (k : string) : M Js.value :=
  fun st =>
    match cache_find k (cache st) with
    | Some (v, expiry) =>
        if Z.eqb expiry 0 || (clock env <=? expiry)%Z then (Ok v, st)
        else (Ok None, st)
    | None => (Ok None, st)
    end.

(** [cache.set(key, value, ttl)], [ttl] in seconds. *)
Definition cache_set (env : Env) (k : string) (v : Js.value) (ttl : Z) : M unit :=
  fun st =>
    let expiry := if Z.eqb ttl 0 then 0%Z else (clock env + ttl * 1000)%Z in
    (Ok tt,
     mkState ((k, (v, expiry)) :: cache st) (header_token st) (calls st)
             (produced st)).

(** [phpIpamApi.defaults.headers.common['token'] = token] *)
Definition set_header (token : Js.value) : M unit :=
  fun st => (Ok tt, mkState (cache st) token (calls st) (produced st)).

(** One HTTP exchange with phpIPAM, recorded in [calls]. *)
Definition request (env : Env) (c : Call) : M json :=
  fun st =>
    (axios (upstream env c),
     mkState (cache st) (header_token st) (calls st ++ [c]) (produced st)).

Definition baseURL (env : Env) : string :=
  env_or (PHPIPAM_API_URL env) "https://ipam.example.com/api".

Definition appId (env : Env) : string :=
  env_or (PHPIPAM_API_APP_ID env) "server-name-picker".

(** [phpIpamApi.get(path)] *)
Definition phpIpamApi_get (env : Env) (path : string) : M json :=
  fun st => request env (Get (baseURL env ++ path) (header_token st)) st.

(** [producer.send({topic, messages: [{key, value}]})] *)
Definition producer_send (r : ProducerRecord) : M unit :=
  fun st =>
    (Ok tt,
     mkState (cache st) (header_token st) (calls st) (produced st ++ [r])).

Definition env_truthy (x : option string) : bool :=
  match x with
  | Some (String _ _) => true
  | _ => false
  end.

(** The login of [authenticateIpam]: [axios.post(`${url}/${appId}/user/`,
    {username, password})]. *)
Definition login (env : Env) : Call :=
  Post (baseURL env ++ "/" ++ appId env ++ "/user/")
    [("username", JStr (env_or (PHPIPAM_API_USERNAME env) "admin"));
     ("password", JStr (env_or (PHPIPAM_API_PASSWORD env) "password"))].

Definition authenticateIpam (env : Env) : M Js.value :=
  try_catch
    (token <- cache_get env "phpipam_token" ;;
     if truthy token then
       set_header token ;;; ret token
     else if env_truthy (PHPIPAM_API_TOKEN env) then
       let api_token := option_map JStr (PHPIPAM_API_TOKEN env) in
       set_header api_token ;;;
       cache_set env "phpipam_token" api_token (stdTTL env) ;;;
       ret api_token
     else
       response <- request env (login env) ;;
       data <- lift (prop response "data") ;;
       token <- lift (vprop data "token") ;;
       set_header token ;;;
       cache_set env "phpipam_token" token 21000 ;;;
       ret token)
    (fun error => throw error).

(** [response.data.data && response.data.data.length > 0] *)
Definition found (data : Js.value) : bool :=
  truthy data &&
  match data with
  | Some v =>
      match length_of v with
      | Some n => Nat.ltb 0 n
      | None => false
      end
  | None => false
  end.

(** The handler of [POST /ipam/check-ip], after [verifyToken]. *)
Definition check_ip (env : Env) (body : list (string * json)) : M Response :=
  let ip := lookup "ip" body in
  let subnetId := lookup "subnetId" body in
  try_catch
    (if negb (truthy subnetId) then
       ret (error_response 400 "Bad Request" "Subnet ID is required")
     else
       authenticateIpam env ;;;
       if truthy ip then
         response <- phpIpamApi_get env
           ("/" ++ appId env ++ "/addresses/search/" ++ template ip ++ "/") ;;
         data <- lift (prop response "data") ;;
         if found data then
           ret (mkResponse 200
                  (object [("available", Some (JBool false));
                           ("message",
                            Some (JStr ("IP address " ++ template ip
                                          ++ " is already in use")))]))
         else
           ret (mkResponse 200 (object [("available", Some (JBool true))]))
       else
         ret (error_response 400 "Bad Request" "IP address is required"))
    (fun _ =>
       ret (error_response 500 "Internal Server Error"
              "Failed to check IP address availability")).

(** The handler of [POST /ipam/next-available], after [verifyToken]. *)
Definition next_available (env : Env) (body : list (string * json))
  : M Response :=
  let subnetId := lookup "subnetId" body in
  try_catch
    (if negb (truthy subnetId) then
       ret (error_response 400 "Bad Request" "Subnet ID is required")
     else
       authenticateIpam env ;;;
       response <- phpIpamApi_get env
         ("/" ++ appId env ++ "/subnets/" ++ template subnetId
              ++ "/first_free/") ;;
       ip <- lift (prop response "data") ;;
       ret (mkResponse 200 (object [("ip", ip); ("subnetId", subnetId)])))
    (fun _ =>
       ret (error_response 500 "Internal Server Error"
              "Failed to get next available IP address")).

(** The two routes with their [verifyToken] middleware. *)
Definition route_check_ip (env : Env) (authorization : option string)
           (body : list (string * json)) : M Response :=
  verifyToken authorization ret (check_ip env body).

Definition route_next_available (env : Env) (authorization : option string)
           (body : list (string * json)) : M Response :=
  verifyToken authorization ret (next_available env body).

(** [eachMessage] of the service's own consumer of [ip-requests]. *)
Definition eachMessage (env : Env) (message : Message) : M unit :=
  try_catch
    (request <- lift (JSON_parse message) ;;
     subnetId <- lift (prop request "subnetId") ;;
     authenticateIpam env ;;;
     response <- phpIpamApi_get env
       ("/" ++ appId env ++ "/subnets/" ++ template subnetId
            ++ "/first_free/") ;;
     ip <- lift (prop response "data") ;;
     requestId <- lift (prop request "requestId") ;;
     producer_send
       (mkRecord (env_or (KAFKA_TOPIC_IP_RESPONSE env) "ip-responses")
          (key message)
          (object [("requestId", requestId);
                   ("subnetId", subnetId);
                   ("ip", ip);
                   ("timestamp", Some (JStr (timestamp env)))])))
    (fun _ => ret tt).

Definition initial : State := mkState [] None [] [].

End Ipam.

(** ** The kafka-consumer service

    It serves the same two request topics by calling the services over
    HTTP.  A service is the function from the [Authorization] header and
    the JSON body of a POST to the reply; the consumer sends no
    [Authorization] header. *)

Module KafkaConsumer.
Local Open Scope result_scope.

Definition Service : Type := option string -> list (string * json) -> Reply.

(** [axios.post(url, data)] with no request configuration; the data
    travels as JSON text. *)
Definition axios_post (service : Service) (data : list (string * json))
  : Result json :=
  axios (service None (wire_fields data)).

Definition processHostnameRequest_try (env_topic : option string)
           (now : string) (check_hostname : Service) (message : Message)
  : Result (list ProducerRecord) :=
  request <- JSON_parse message ;;
  hostname <- prop request "hostname" ;;
  if negb (truthy hostname) then Ok []
  else
    prefix <- prop request "prefix" ;;
    data <- axios_post check_hostname
              (object [("hostname", hostname); ("prefix", prefix)]) ;;
    requestId <- prop request "requestId" ;;
    available <- prop data "available" ;;
    suggestions <- prop data "suggestions" ;;
    Ok [mkRecord (env_or env_topic "hostname-responses") (key message)
          (object [("requestId", requestId);
                   ("hostname", hostname);
                   ("available", available);
                   ("suggestions", or_else suggestions (Some (JArr [])));
                   ("timestamp", Some (JStr now))])].

Definition processHostnameRequest (env_topic : option string) (now : string)
           (check_hostname : Service) (message : Message) : list ProducerRecord :=
  match processHostnameRequest_try env_topic now check_hostname message with
  | Ok records => records
  | Throw _ => []
  end.

Definition processIpRequest_try (env_topic : option string) (now : string)
           (check_ip next_available : Service) (message : Message)
  : Result (list ProducerRecord) :=
  request <- JSON_parse message ;;
  subnetId <- prop request "subnetId" ;;
  if negb (truthy subnetId) then Ok []
  else
    ip <- prop request "ip" ;;
    data <- (if truthy ip then
               axios_post check_ip (object [("ip", ip); ("subnetId", subnetId)])
             else
               axios_post next_available (object [("subnetId", subnetId)])) ;;
    requestId <- prop request "requestId" ;;
    response_ip <- prop data "ip" ;;
    available <- prop data "available" ;;
    Ok [mkRecord (env_or env_topic "ip-responses") (key message)
          (object [("requestId", requestId);
                   ("subnetId", subnetId);
                   ("ip", or_else ip response_ip);
                   ("available",
                    match available with
                    | Some a => Some a
                    | None => Some (JBool true)
                    end);
                   ("timestamp", Some (JStr now))])].

Definition processIpRequest (env_topic : option string) (now : string)
           (check_ip next_available : Service) (message : Message)
  : list ProducerRecord :=
  match processIpRequest_try env_topic now check_ip next_available message with
  | Ok records => records
  | Throw _ => []
  end.

(** The services of this repository as the consumer reaches them. *)
Definition proxmox_service (engine : Regex.Engine) (upstream : Reply) : Service :=
  fun authorization body =>
    reply_of (Proxmox.route_check_hostname engine upstream authorization body).

Definition ipam_check_ip_service (env : Ipam.Env) (st : Ipam.State) : Service :=
  fun authorization body =>
    match Ipam.route_check_ip env authorization body st with
    | (Ok r, _) => reply_of r
    | (Throw _, _) => NoReply
    end.

Definition ipam_next_available_service (env : Ipam.Env) (st : Ipam.State)
  : Service :=
  fun authorization body =>
    match Ipam.route_next_available env authorization body st with
    | (Ok r, _) => reply_of r
    | (Throw _, _) => NoReply
    end.

End KafkaConsumer.

(** ** The vocabulary of the specification *)

Module Spec.
Import Proxmox.

(** Some existing host's name equals [h], compared case-insensitively. *)
Definition taken (hosts : list Host) (h : string) : Prop :=
  exists host, In host hosts /\ toLowerCase (name host) = toLowerCase h.

(** The integer written by a string of decimal digits. *)
Fixpoint digits_value (acc : Z) (digits : string) : Z :=
  match digits with
  | EmptyString => acc
  | String c rest =>
      digits_value (acc * 10 + (Z.of_N (N_of_ascii c) - 48)) rest
  end.

(** [name] has the exact form [<prefix><digits>], the prefix compared
    case-insensitively, and its digits write [n]. *)
Definition has_form (prefix name : string) (n : Z) : Prop :=
  exists p digits,
    name = p ++ digits /\ toLowerCase p = toLowerCase prefix /\
    digits <> "" /\ all_digits digits = true /\ n = digits_value 0 digits.

(** [N] is the maximal trailing integer over the names of that form, 0
    when there is none. *)
Definition maximal_suffix (prefix : string) (names : list string) (N : Z)
  : Prop :=
  (forall name n, In name names -> has_form prefix name n -> (n <= N)%Z) /\
  (N = 0%Z \/ exists name, In name names /\ has_form prefix name N).

(** The same, computed: what is left of [name] after the prefix, ... *)
Fixpoint strip_prefix (prefix name : string) : option string :=
  match prefix, name with
  | EmptyString, _ => Some name
  | String a p, String b n =>
      if Ascii.eqb (lower_ascii a) (lower_ascii b) then strip_prefix p n
      else None
  | String _ _, EmptyString => None
  end.

(** ... its value when it is a non-empty run of digits, ... *)
Definition trailing_integer (prefix name : string) : option Z :=
  match strip_prefix prefix name with
  | Some digits =>
      if negb (String.eqb digits "") && all_digits digits
      then Some (digits_value 0 digits) else None
  | None => None
  end.

(** ... and the maximum over a list of names, starting from [start]. *)
Fixpoint max_trailing (prefix : string) (names : list string) (start : Z) : Z :=
  match names with
  | [] => start
  | name :: rest =>
      max_trailing prefix rest
        (match trailing_integer prefix name with
         | Some n => if (start <? n)%Z then n else start
         | None => start
         end)
  end.

(** The digits that end [name], as many as there are. *)
Fixpoint trailing_digits (name : string) : string :=
  match name with
  | EmptyString => EmptyString
  | String c rest => if all_digits name then name else trailing_digits rest
  end.

(** The number that ends [name], and the three numbers after it, are
    below 2^53, where every integer is a double of its own. *)
Definition safe_name (name : string) : bool :=
  (digits_value 0 (trailing_digits name) + 3 <? 2 ^ 53)%Z.

Definition safe_names (names : list string) : bool := forallb safe_name names.

(** The three candidates the specification asks for. *)
Definition candidates (prefix : string) (N : Z) : list string :=
  [prefix ++ decimalZ (N + 1); prefix ++ decimalZ (N + 2);
   prefix ++ decimalZ (N + 3)].

(** A prefix of ordinary characters and dots, without quantifier: the
    only regular-expression character it may hold is [.]. *)
Fixpoint dotted (prefix : string) : bool :=
  match prefix with
  | EmptyString => true
  | String c rest =>
      (Ascii.eqb c "." || negb (Regex.is_syntax_character c)) && dotted rest
  end.

(** The error kinds of the specification, and the kind an HTTP response
    of the services announces in its [error] field. *)
Inductive ErrorKind : Type :=
| BadRequest
| Unauthorized
| UpstreamUnavailable
| NoCapacity
| InternalError.

Definition kind_of (r : Response) : option ErrorKind :=
  match field r "error" with
  | Some (JStr "Bad Request") => Some BadRequest
  | Some (JStr "Unauthorized") => Some Unauthorized
  | Some (JStr "Internal Server Error") => Some InternalError
  | _ => None
  end.

(** A request message is malformed when its value is no JSON text, or a
    field its topic requires is missing: [{requestId, hostname, prefix?}]
    on [hostname-requests], [{requestId, subnetId, ip?}] on
    [ip-requests]. *)
Definition lacks (message : Message) (k : string) : Prop :=
  exists request, value message = Some request /\ prop request k = Ok None.

Definition malformed_hostname_request (message : Message) : Prop :=
  value message = None \/ lacks message "requestId" \/ lacks message "hostname".

Definition malformed_ip_request (message : Message) : Prop :=
  value message = None \/ lacks message "requestId" \/ lacks message "subnetId".


(** The trace a call would leave if a rejected [GET] were followed by one
    login and one retry of the same URL. *)
Definition retried_once (calls : list Ipam.Call) : Prop :=
  exists before url token login credentials token',
    calls = (before ++ [Ipam.Get url token; Ipam.Post login credentials;
                        Ipam.Get url token'])%list.

End Spec.

(** ** Auxiliary definitions of the proofs *)

Module Aux.

(** The items of a prefix read character by character. *)
Fixpoint literal_items (prefix : string) : list Regex.item :=
  match prefix with
  | EmptyString => []
  | String c rest =>
      ((if Ascii.eqb c "." then Regex.ADot else Regex.AChar c), Regex.One)
        :: literal_items rest
  end.

(** The continuation of the pattern after the prefix: [(\d+)$]. *)
Definition group_k (group_start : string) : string -> option string :=
  fun rest =>
    match rest with
    | EmptyString =>
        Some (substring 0 (String.length group_start - String.length rest)
                        group_start)
    | String _ _ => None
    end.

End Aux.

Module Trace.
Import Ipam.

(** What a handler run from the state [st] adds to the calls made and to
    the records produced. *)
Definition new_calls {A} (m : M A) (st : State) : list Call :=
  skipn (List.length (calls st)) (calls (snd (m st))).

Definition new_records {A} (m : M A) (st : State) : list ProducerRecord :=
  skipn (List.length (produced st)) (produced (snd (m st))).

(** The calls one handler may make: at most one login, then at most one
    [GET]. *)
Definition single_attempt (env : Env) (news : list Call) : Prop :=
  news = [] \/ news = [login env] \/
  exists url token, news = [Get url token] \/ news = [login env; Get url token].

Definition internal_error (message : string) : Response :=
  error_response 500 "Internal Server Error" message.

End Trace.

Module Run.
Import Ipam.

Definition first_free_url (env : Env) (subnetId : Js.value) : string :=
  baseURL env ++ "/" ++ appId env ++ "/subnets/" ++ template subnetId
          ++ "/first_free/".

Definition search_url (env : Env) (ip : Js.value) : string :=
  baseURL env ++ "/" ++ appId env ++ "/addresses/search/" ++ template ip ++ "/".

Definition with_call (st : State) (c : Call) : State :=
  mkState (cache st) (header_token st) (calls st ++ [c]) (produced st).

Definition with_record (st : State) (r : ProducerRecord) : State :=
  mkState (cache st) (header_token st) (calls st) (produced st ++ [r]).

(** The record the IPAM consumer sends for a request it could serve. *)
Definition ip_record (env : Env) (message : Message)
           (requestId subnetId ip : Js.value) : ProducerRecord :=
  mkRecord (env_or (KAFKA_TOPIC_IP_RESPONSE env) "ip-responses") (key message)
    (object [("requestId", requestId); ("subnetId", subnetId); ("ip", ip);
             ("timestamp", Some (JStr (timestamp env)))]).

(** [eachMessage] of the IPAM consumer, step by step. *)
Definition eachMessage_steps (env : Env) (message : Message) (st : State)
  : Result unit * State :=
  match value message with
  | None => (Ok tt, st)
  | Some request =>
      match prop request "subnetId" with
      | Throw _ => (Ok tt, st)
      | Ok subnetId =>
          match authenticateIpam env st with
          | (Throw _, st0) => (Ok tt, st0)
          | (Ok _, st0) =>
              let c := Get (first_free_url env subnetId) (header_token st0) in
              match axios (upstream env c) with
              | Throw _ => (Ok tt, with_call st0 c)
              | Ok response =>
                  match prop response "data" with
                  | Throw _ => (Ok tt, with_call st0 c)
                  | Ok ip =>
                      match prop request "requestId" with
                      | Throw _ => (Ok tt, with_call st0 c)
                      | Ok requestId =>
                          (Ok tt,
                           with_record (with_call st0 c)
                             (ip_record env message requestId subnetId ip))
                      end
                  end
              end
          end
      end
  end.

(** [check_ip] and [next_available], step by step, once the subnet is
    given. *)
Definition check_ip_steps (env : Env) (ip : Js.value) (st : State)
  : Result Response * State :=
  let failed :=
    Trace.internal_error "Failed to check IP address availability" in
  match authenticateIpam env st with
  | (Throw _, st0) => (Ok failed, st0)
  | (Ok _, st0) =>
      if truthy ip then
        let c := Get (search_url env ip) (header_token st0) in
        (Ok match axios (upstream env c) with
            | Throw _ => failed
            | Ok response =>
                match prop response "data" with
                | Throw _ => failed
                | Ok data =>
                    if found data then
                      mkResponse 200
                        (object [("available", Some (JBool false));
                                 ("message",
                                  Some (JStr ("IP address " ++ template ip
                                                ++ " is already in use")))])
                    else mkResponse 200 (object [("available", Some (JBool true))])
                end
            end,
         with_call st0 c)
      else (Ok (error_response 400 "Bad Request" "IP address is required"), st0)
  end.

Definition next_available_steps (env : Env) (subnetId : Js.value) (st : State)
  : Result Response * State :=
  let failed :=
    Trace.internal_error "Failed to get next available IP address" in
  match authenticateIpam env st with
  | (Throw _, st0) => (Ok failed, st0)
  | (Ok _, st0) =>
      let c := Get (first_free_url env subnetId) (header_token st0) in
      (Ok match axios (upstream env c) with
          | Throw _ => failed
          | Ok response =>
              match prop response "data" with
              | Throw _ => failed
              | Ok ip =>
                  mkResponse 200 (object [("ip", ip); ("subnetId", subnetId)])
              end
          end,
       with_call st0 c)
  end.

End Run.

(** ** Concrete inputs *)

Module HostExamples.
Import Proxmox.

Definition vm (n : string) : Host := mkHost 100 n "pve" "running".

(** An engine is needed as an argument even when no pattern leaves the
    executed fragment. *)
Definition no_engine : Regex.Engine := fun _ _ => Throw SyntaxError.

Definition check_body (hostname prefix : string) : list (string * json) :=
  [("hostname", JStr hostname); ("prefix", JStr prefix)].

Definition web1_to_web7 : list Host :=
  map vm ["web1"; "web2"; "web3"; "web4"; "web5"; "web6"; "web7"].

Definition r1_web5 : Message :=
  mkMessage (Some "client-7")
    (Some (JObj [("requestId", JStr "r1"); ("hostname", JStr "web5");
                 ("prefix", JStr "web")])).

(** The inventory of the specification's numbering example. *)
Definition web3_web7_webX : list Host := map vm ["web3"; "web7"; "webX"].

(** Hosts whose names hold the pattern characters of the prefix "srv.+". *)
Definition srv_hosts : list Host := map vm ["srv.+12"; "web1"; "srv.+3"].

(** A hostname request that has no [requestId], and one that has no
    [hostname]. *)
Definition anonymous_web9 : Message :=
  mkMessage (Some "client-7") (Some (JObj [("hostname", JStr "web9")])).

Definition nameless_r9 : Message :=
  mkMessage (Some "client-7") (Some (JObj [("requestId", JStr "r9")])).

End HostExamples.

Module IpamExamples.
Import Ipam.

(** phpIPAM answering every [GET] with the same data, and refusing the
    login. *)
Definition answering (data : json) : Call -> Reply :=
  fun c =>
    match c with
    | Get _ _ => Status 200 (JObj [("code", JNum 200); ("data", data)])
    | Post _ _ => Status 500 JNull
    end.

Definition env_with (api_token : option string) (upstream : Call -> Reply)
  : Env :=
  mkEnv None api_token None None None None None 1700000000000
        "2023-11-14T22:13:20.000Z" upstream.

Definition api : string := "https://ipam.example.com/api/server-name-picker".

(** phpIPAM with the address 10.0.0.7 allocated and 10.0.0.5 the first
    free address of subnet 10. *)
Definition phpipam : Call -> Reply :=
  fun c =>
    match c with
    | Get url _ =>
        if String.eqb url (api ++ "/addresses/search/10.0.0.7/") then
          Status 200
            (JObj [("code", JNum 200);
                   ("data", JArr [JObj [("ip", JStr "10.0.0.7");
                                        ("subnetId", JStr "10")]])])
        else if String.eqb url (api ++ "/subnets/10/first_free/") then
          Status 200 (JObj [("code", JNum 200); ("data", JStr "10.0.0.5")])
        else Status 404 (JObj [("code", JNum 404)])
    | Post _ _ => Status 500 JNull
    end.

(** phpIPAM reporting that the subnet has no free address, and phpIPAM
    out of reach. *)
Definition exhausted : Call -> Reply :=
  fun c =>
    match c with
    | Get _ _ =>
        Status 404 (JObj [("code", JNum 404); ("success", JBool false);
                          ("message", JStr "No free addresses found")])
    | Post _ _ => Status 500 JNull
    end.

Definition unreachable : Call -> Reply := fun _ => NoReply.

Definition subnet10 : list (string * json) := [("subnetId", JStr "10")].

Definition r1_10_0_0_7 : Message :=
  mkMessage (Some "client-7")
    (Some (JObj [("requestId", JStr "r1"); ("subnetId", JStr "10");
                 ("ip", JStr "10.0.0.7")])).

(** An IP request that has no [subnetId]. *)
Definition subnetless_r2 : Message :=
  mkMessage (Some "client-7") (Some (JObj [("requestId", JStr "r2")])).

(** The [available] field of the answer of [POST /ipam/check-ip] for the
    address 10.0.0.7 in subnet 10, from a fresh process. *)
Definition checked_available (env : Env) : Js.value :=
  match fst (check_ip env [("ip", JStr "10.0.0.7"); ("subnetId", JStr "10")]
                      initial) with
  | Ok r => field r "available"
  | Throw _ => None
  end.

(** phpIPAM after the cached token has expired on its side: a [GET] with
    the old token is answered 401, a login gives a fresh token, a [GET]
    with the fresh token is served. *)
Definition expiring : Call -> Reply :=
  fun c =>
    match c with
    | Post _ _ =>
        Status 200 (JObj [("data", JObj [("token", JStr "fresh")])])
    | Get _ (Some (JStr "fresh")) =>
        Status 200 (JObj [("code", JNum 200); ("data", JStr "10.0.0.5")])
    | Get _ _ =>
        Status 401 (JObj [("code", JNum 401); ("message", JStr "Unauthorized")])
    end.

(** A process whose cache still holds the old token. *)
Definition stale : State :=
  mkState [("phpipam_token", (Some (JStr "old"), 1700000600000%Z))] None [] [].

Definition first_free_10 : Call :=
  Get (api ++ "/subnets/10/first_free/") (Some (JStr "old")).

End IpamExamples.

(** ** The API gateway *)

Module Gateway.

(** [res.status(code).json(content)] where the content is any value,
    possibly [undefined]. *)
Record Answer : Type := mkAnswer {
  code : Z;
  content : Js.value
}.

Definition answer_of (r : Response) : Answer :=
  mkAnswer (status r) (Some (JObj (body r))).

(** What a client of a service reads of the response [r]: its status
    and its body as JSON text read back. *)
Definition seen_by_client (r : Response) : Answer :=
  mkAnswer (status r) (Some (JObj (wire_fields (body r)))).

(** A back-end service as the gateway reaches it: from the
    [Authorization] header and the JSON body, as its [express.json]
    reads it, to the reply. *)
Definition Service : Type := option string -> list (string * json) -> Reply.

(** The error-handling middleware of the gateway, reached by
    [next(error)]: [NODE_ENV] decides whether the message of the error is
    shown. *)
Definition error_middleware (NODE_ENV : option string) (err_message : string)
  : Answer :=
  answer_of
    (error_response 500 "Internal Server Error"
       (match NODE_ENV with
        | Some "production" => "An unexpected error occurred"
        | _ => err_message
        end)).

(** The end of every route: [res.status(200).json(response.data)], or in
    the [catch] the status and data of [error.response] when there is
    one, [next(error)] otherwise. *)
Definition relay (NODE_ENV : option string) (err_message : string) (r : Reply)
  : Answer :=
  match r with
  | Status c data =>
      if validateStatus c then mkAnswer 200 (Some data)
      else mkAnswer c (Some data)
  | NoReply => error_middleware NODE_ENV err_message
  end.

(** [`Bearer ${token}`] with [token = req.headers.authorization?.split(' ')[1]] *)
Definition forwarded_authorization (authorization : option string)
  : option string :=
  Some ("Bearer " ++ match bearer authorization with
                     | Some token => token
                     | None => "undefined"
                     end).

(** [router.post('/check-hostname', isAuthenticated, ...)]; the object
    given to [axios.post] reaches the service as JSON text. *)
Definition check_hostname (NODE_ENV : option string) (err_message : string)
           (service : Service) (authorization : option string)
           (body : list (string * json)) : Answer :=
  verifyToken authorization answer_of
    (let hostname := lookup "hostname" body in
     let prefix := lookup "prefix" body in
     if negb (truthy hostname) then
       answer_of (error_response 400 "Bad Request" "Hostname is required")
     else
       relay NODE_ENV err_message
         (service (forwarded_authorization authorization)
                  (wire_fields
                     (object [("hostname", hostname); ("prefix", prefix)])))).

(** [router.post('/check-ip', isAuthenticated, ...)] *)
Definition check_ip (NODE_ENV : option string) (err_message : string)
           (service : Service) (authorization : option string)
           (body : list (string * json)) : Answer :=
  verifyToken authorization answer_of
    (let ip := lookup "ip" body in
     let subnetId := lookup "subnetId" body in
     if negb (truthy subnetId) then
       answer_of (error_response 400 "Bad Request" "Subnet ID is required")
     else
       relay NODE_ENV err_message
         (service (forwarded_authorization authorization)
                  (wire_fields
                     (object [("ip", ip); ("subnetId", subnetId)])))).

(** [router.post('/next-available', isAuthenticated, ...)] *)
Definition next_available (NODE_ENV : option string) (err_message : string)
           (service : Service) (authorization : option string)
           (body : list (string * json)) : Answer :=
  verifyToken authorization answer_of
    (let subnetId := lookup "subnetId" body in
     if negb (truthy subnetId) then
       answer_of (error_response 400 "Bad Request" "Subnet ID is required")
     else
       relay NODE_ENV err_message
         (service (forwarded_authorization authorization)
                  (wire_fields (object [("subnetId", subnetId)])))).

End Gateway.

(** ** Strings without a space *)

Module Words.

Fixpoint no_space (s : string) : bool :=
  match s with
  | EmptyString => true
  | String c rest => negb (Ascii.eqb c " ") && no_space rest
  end.

End Words.


(** ** ipam-service: the cached list endpoints *)

Module IpamLists.
Import Ipam Gateway.
Local Open Scope ipam_scope.

(** The handler of [GET /ipam/subnets], after [verifyToken]. *)
Definition get_subnets (env : Env) : M Answer :=
  try_catch
    (cachedSubnets <- cache_get env "ipam_subnets" ;;
     if truthy cachedSubnets then ret (mkAnswer 200 cachedSubnets)
     else
       authenticateIpam env ;;;
       response <- phpIpamApi_get env ("/" ++ appId env ++ "/subnets/") ;;
       subnets <- lift (prop response "data") ;;
       cache_set env "ipam_subnets" subnets (stdTTL env) ;;;
       ret (mkAnswer 200 subnets))
    (fun _ =>
       ret (answer_of (error_response 500 "Internal Server Error"
                         "Failed to get subnets from IPAM"))).

(** The handler of [GET /ipam/addresses], after [verifyToken]. *)
Definition get_addresses (env : Env) : M Answer :=
  try_catch
    (cachedAddresses <- cache_get env "ipam_addresses" ;;
     if truthy cachedAddresses then ret (mkAnswer 200 cachedAddresses)
     else
       authenticateIpam env ;;;
       response <- phpIpamApi_get env ("/" ++ appId env ++ "/addresses/") ;;
       addresses <- lift (prop response "data") ;;
       cache_set env "ipam_addresses" addresses (stdTTL env) ;;;
       ret (mkAnswer 200 addresses))
    (fun _ =>
       ret (answer_of (error_response 500 "Internal Server Error"
                         "Failed to get addresses from IPAM"))).

(** The elements of an array under their indices, and the characters of
    a string: what [{...v}] copies from an array or a string. *)
Fixpoint indexed (i : nat) (items : list json) : list (string * json) :=
  match items with
  | [] => []
  | x :: rest => (decimalZ (Z.of_nat i), x) :: indexed (S i) rest
  end.

Fixpoint chars (s : string) : list json :=
  match s with
  | EmptyString => []
  | String c rest => JStr (String c EmptyString) :: chars rest
  end.

(** [{...u}]: the own enumerable properties of [u], none for
    [undefined], [null], a number or a boolean. *)
Definition spread (u : Js.value) : list (string * json) :=
  match u with
  | Some (JObj fields) => fields
  | Some (JArr items) => indexed 0 items
  | Some (JStr s) => indexed 0 (chars s)
  | _ => []
  end.

(** [{...o, k: v}]: an existing property keeps its place and takes the
    new value, a new one comes last. *)
Fixpoint assign (fields : list (string * json)) (k : string) (v : json)
  : list (string * json) :=
  match fields with
  | [] => [(k, v)]
  | (k', v') :: rest =>
      if String.eqb k k' then (k, v) :: rest
      else (k', v') :: assign rest k v
  end.

(** [{...subnet, addresses}] with [addresses = data || []] *)
Definition with_addresses (subnet data : Js.value) : json :=
  let addresses :=
    match data with
    | Some d => if truthy data then d else JArr []
    | None => JArr []
    end in
  JObj (assign (spread subnet) "addresses" addresses).

(** The handler of [GET /ipam/subnet/:id], after [verifyToken]; [id] is
    [req.params.id]. *)
Definition get_subnet (env : Env) (id : string) : M Answer :=
  try_catch
    (let cacheKey := "ipam_subnet_" ++ id in
     cachedSubnet <- cache_get env cacheKey ;;
     if truthy cachedSubnet then ret (mkAnswer 200 cachedSubnet)
     else
       authenticateIpam env ;;;
       response <- phpIpamApi_get env
         ("/" ++ appId env ++ "/subnets/" ++ id ++ "/") ;;
       subnet <- lift (prop response "data") ;;
       addressesResponse <- phpIpamApi_get env
         ("/" ++ appId env ++ "/subnets/" ++ id ++ "/addresses/") ;;
       data <- lift (prop addressesResponse "data") ;;
       let result := Some (with_addresses subnet data) in
       cache_set env cacheKey result (stdTTL env) ;;;
       ret (mkAnswer 200 result))
    (fun _ =>
       ret (answer_of (error_response 500 "Internal Server Error"
                         "Failed to get subnet information from IPAM"))).

End IpamLists.

(** ** proxmox-service: the cached list endpoints *)

Module ProxmoxLists.
Import Gateway.

(** [process.env.CACHE_TTL], the clock, and ProxMox itself: its reply to
    [proxmoxApi.get(path)]. *)
Record Env : Type := mkEnv {
  CACHE_TTL : option string;
  clock : Z;
  api : string -> Reply
}.

(** The node-cache entries of the service (value and expiry instant,
    0 for none) and the paths asked of ProxMox, oldest first. *)
Record State : Type := mkState {
  cache : list (string * (Js.value * Z));
  calls : list string
}.

Definition M (A : Type) : Type := State -> Result A * State.

Definition ret {A} (a : A) : M A := fun st => (Ok a, st).

Definition bind {A B} (m : M A) (k : A -> M B) : M B :=
  fun st =>
    match m st with
    | (Ok a, st') => k a st'
    | (Throw e, st') => (Throw e, st')
    end.

Definition lift {A} (r : Result A) : M A := fun st => (r, st).

(** [try { body } catch (error) { handler }] *)
Definition try_catch {A} (body : M A) (handler : Exn -> M A) : M A :=
  fun st =>
    match body st with
    | (Ok a, st') => (Ok a, st')
    | (Throw error, st') => handler error st'
    end.

Declare Scope proxmox_scope.
Delimit Scope proxmox_scope with proxmox.
Notation "x <- m ;; k" := (bind m (fun x => k))
  (at level 61, m at next level, right associativity) : proxmox_scope.
Notation "m ;;; k" := (bind m (fun _ => k))
  (at level 61, right associativity) : proxmox_scope.
Local Open Scope proxmox_scope.

(** [stdTTL: parseInt(process.env.CACHE_TTL) || 300] *)
Definition stdTTL (env : Env) : Z :=
  match CACHE_TTL env with
  | Some s =>
      match ParseInt.parseInt s with
      | Some n => if Z.eqb n 0 then 300%Z else n
      | None => 300%Z
      end
  | None => 300%Z
  end.

(** [cache.get(key)]: an expired entry is as good as none. *)
Definition cache_get (env : Env) (k : string) : M Js.value :=
  fun st =>
    match Ipam.cache_find k (cache st) with
    | Some (v, expiry) =>
        if Z.eqb expiry 0 || (clock env <=? expiry)%Z then (Ok v, st)
        else (Ok None, st)
    | None => (Ok None, st)
    end.

(** [cache.set(key, value)], kept for [stdTTL] seconds. *)
Definition cache_set (env : Env) (k : string) (v : Js.value) : M unit :=
  fun st =>
    let ttl := stdTTL env in
    let expiry := if Z.eqb ttl 0 then 0%Z else (clock env + ttl * 1000)%Z in
    (Ok tt, mkState ((k, (v, expiry)) :: cache st) (calls st)).

(** [proxmoxApi.get(path)] *)
Definition proxmoxApi_get (env : Env) (path : string) : M json :=
  fun st => (axios (api env path), mkState (cache st) (calls st ++ [path])).

(** The handler of [GET /proxmox/nodes], after [verifyToken]. *)
Definition get_nodes (env : Env) : M Answer :=
  try_catch
    (cachedNodes <- cache_get env "proxmox_nodes" ;;
     if truthy cachedNodes then ret (mkAnswer 200 cachedNodes)
     else
       response <- proxmoxApi_get env "/nodes" ;;
       nodes <- lift (prop response "data") ;;
       cache_set env "proxmox_nodes" nodes ;;;
       ret (mkAnswer 200 nodes))
    (fun _ =>
       ret (answer_of (error_response 500 "Internal Server Error"
                         "Failed to get ProxMox nodes"))).

(** What [for (const x of u)] and [f(...u)] run through: the elements of
    an array, the characters of a string; nothing else that JSON can
    hold is iterable. *)
Definition iterate (u : Js.value) : Result (list json) :=
  match u with
  | Some (JArr items) => Ok items
  | Some (JStr s) => Ok (IpamLists.chars s)
  | _ => Throw TypeError
  end.

(** The loop [for (const node of nodes)] with the array [vms] it fills. *)
Fixpoint for_nodes (env : Env) (nodes : list json) (vms : list json)
  : M (list json) :=
  match nodes with
  | [] => ret vms
  | node :: rest =>
      name <- lift (prop node "node") ;;
      vmsResponse <- proxmoxApi_get env
        ("/nodes/" ++ template name ++ "/qemu") ;;
      data <- lift (prop vmsResponse "data") ;;
      items <- lift (iterate data) ;;
      for_nodes env rest (vms ++ items)
  end.

(** The handler of [GET /proxmox/vms], after [verifyToken]. *)
Definition get_vms (env : Env) : M Answer :=
  try_catch
    (cachedVms <- cache_get env "proxmox_vms" ;;
     if truthy cachedVms then ret (mkAnswer 200 cachedVms)
     else
       nodesResponse <- proxmoxApi_get env "/nodes" ;;
       nodes <- lift (prop nodesResponse "data") ;;
       items <- lift (iterate nodes) ;;
       vms <- for_nodes env items [] ;;
       cache_set env "proxmox_vms" (Some (JArr vms)) ;;;
       ret (mkAnswer 200 (Some (JArr vms))))
    (fun _ =>
       ret (answer_of (error_response 500 "Internal Server Error"
                         "Failed to get VMs"))).

(** [vms.map(vm => ({id: vm.vmid, name: vm.name, node: vm.node,
    status: vm.status}))], as [res.json] writes it. *)
Fixpoint host_entries (vms : list json) : Result (list json) :=
  match vms with
  | [] => Ok []
  | vm :: rest =>
      (id <- prop vm "vmid" ;;
       name <- prop vm "name" ;;
       node <- prop vm "node" ;;
       status <- prop vm "status" ;;
       entries <- host_entries rest ;;
       Ok (JObj (object [("id", id); ("name", name); ("node", node);
                         ("status", status)]) :: entries))%result
  end.

(** The handler of [GET /proxmox/hosts], after [verifyToken]. *)
Definition get_hosts (env : Env) : M Answer :=
  try_catch
    (cachedHosts <- cache_get env "proxmox_hosts" ;;
     if truthy cachedHosts then ret (mkAnswer 200 cachedHosts)
     else
       vmsResponse <- proxmoxApi_get env "/cluster/resources?type=vm" ;;
       vms <- lift (prop vmsResponse "data") ;;
       items <- lift (Proxmox.as_array vms) ;;
       hosts <- lift (host_entries items) ;;
       cache_set env "proxmox_hosts" (Some (JArr hosts)) ;;;
       ret (mkAnswer 200 (Some (JArr hosts))))
    (fun _ =>
       ret (answer_of (error_response 500 "Internal Server Error"
                         "Failed to get hosts"))).

Definition initial : State := mkState [] [].

End ProxmoxLists.


(** ** What is expected of a cached endpoint *)

Module ListSpec.
Import Gateway.

(** A handler of ipam-service serves what it has fetched: a 200 answer
    obtained from phpIPAM, if truthy, is given again, with no call and
    no change of state, to a request that comes up to [stdTTL] seconds
    after it. *)
Definition ipam_served_from_cache (handler : Ipam.Env -> Ipam.M Answer)
  : Prop :=
  forall (env env' : Ipam.Env) (st st1 : Ipam.State) (c : Js.value),
    handler env st = (Ok (mkAnswer 200 c), st1) ->
    Ipam.calls st1 <> Ipam.calls st ->
    truthy c = true ->
    (Ipam.clock env' <= Ipam.clock env + Ipam.stdTTL env * 1000)%Z ->
    handler env' st1 = (Ok (mkAnswer 200 c), st1).

(** A handler of ipam-service stores no failure: after an answer other
    than 200, a request that does not come earlier calls phpIPAM
    again. *)
Definition ipam_asks_again_after_failure
           (handler : Ipam.Env -> Ipam.M Answer) : Prop :=
  forall (env env' : Ipam.Env) (st st1 : Ipam.State) (a : Answer),
    handler env st = (Ok a, st1) ->
    code a <> 200%Z ->
    (Ipam.clock env <= Ipam.clock env')%Z ->
    Ipam.calls (snd (handler env' st1)) <> Ipam.calls st1.

(** phpIPAM serves [GET path], whatever the token, with a body whose
    [data] is [data] (possibly [undefined]). *)
Definition ipam_answers (env : Ipam.Env) (path : string) (data : Js.value)
  : Prop :=
  forall token, exists response,
    axios (Ipam.upstream env (Ipam.Get (Ipam.baseURL env ++ path) token))
    = Ok response /\
    prop response "data" = Ok data.

(** The same for a handler of proxmox-service. *)
Definition proxmox_served_from_cache
           (handler : ProxmoxLists.Env -> ProxmoxLists.M Answer) : Prop :=
  forall (env env' : ProxmoxLists.Env) (st st1 : ProxmoxLists.State)
         (c : Js.value),
    handler env st = (Ok (mkAnswer 200 c), st1) ->
    ProxmoxLists.calls st1 <> ProxmoxLists.calls st ->
    truthy c = true ->
    (ProxmoxLists.clock env'
     <= ProxmoxLists.clock env + ProxmoxLists.stdTTL env * 1000)%Z ->
    handler env' st1 = (Ok (mkAnswer 200 c), st1).



(** A host of the list of [GET /proxmox/hosts] that has the name [n]. *)
Definition lists (entries : list json) (n : string) : Prop :=
  exists entry, In entry entries /\ prop entry "name" = Ok (Some (JStr n)).


End ListSpec.

(** ** Example processes for the cached endpoints *)

Module ListExamples.
Import Ipam.

(** A process that has just logged in to phpIPAM, and the environment an
    hour and six hours after that login. *)
Definition login_env : Env :=
  IpamExamples.env_with None IpamExamples.expiring.

Definition logged_in : State := snd (authenticateIpam login_env initial).

Definition an_hour_later : Env :=
  mkEnv None None None None None None None (1700000000000 + 3600000)
        "2023-11-14T23:13:20.000Z" IpamExamples.unreachable.

Definition six_hours_later : Env :=
  mkEnv None None None None None None None (1700000000000 + 21600000)
        "2023-11-15T04:13:20.000Z" IpamExamples.expiring.

(** phpIPAM with one subnet, reached with a configured API token; the
    same process a minute later, phpIPAM out of reach. *)
Definition one_subnet : json :=
  JArr [JObj [("id", JStr "10"); ("subnet", JStr "10.0.0.0");
              ("mask", JStr "24")]].

Definition listing_env : Env :=
  IpamExamples.env_with (Some "t0k3n") (IpamExamples.answering one_subnet).

Definition a_minute_later : Env :=
  mkEnv None (Some "t0k3n") None None None None None (1700000000000 + 60000)
        "2023-11-14T22:14:20.000Z" IpamExamples.unreachable.

Definition unreachable_env : Env :=
  IpamExamples.env_with (Some "t0k3n") IpamExamples.unreachable.

(** phpIPAM with the subnet 10, which has no address yet. *)
Definition subnet10 : list (string * json) :=
  [("id", JStr "10"); ("subnet", JStr "10.0.0.0"); ("mask", JStr "24")].

Definition empty_subnet : Call -> Reply :=
  fun c =>
    match c with
    | Get url _ =>
        if String.eqb url (IpamExamples.api ++ "/subnets/10/") then
          Status 200 (JObj [("code", JNum 200); ("data", JObj subnet10)])
        else if String.eqb url (IpamExamples.api ++ "/subnets/10/addresses/")
        then
          Status 200 (JObj [("code", JNum 200); ("success", JNum 0);
                            ("message", JStr "No addresses found")])
        else Status 404 (JObj [("code", JNum 404)])
    | Post _ _ => Status 500 JNull
    end.

Definition empty_subnet_env : Env :=
  IpamExamples.env_with (Some "t0k3n") empty_subnet.

(** The process after one [GET /ipam/subnets] that was served, and after
    one that failed. *)
Definition listed : State := snd (IpamLists.get_subnets listing_env initial).

Definition failed : State :=
  snd (IpamLists.get_subnets unreachable_env initial).

(** ProxMox with the nodes pve1 and pve2, one VM on the first and two
    on the second. *)
Definition pve1 : list (string * json) :=
  [("node", JStr "pve1"); ("status", JStr "online")].

Definition pve2 : list (string * json) :=
  [("node", JStr "pve2"); ("status", JStr "online")].

Definition vms_on (node : list (string * json)) : list json :=
  match lookup "node" node with
  | Some (JStr "pve1") => [JObj [("vmid", JNum 100); ("name", JStr "web3")]]
  | Some (JStr "pve2") =>
      [JObj [("vmid", JNum 101); ("name", JStr "web7")];
       JObj [("vmid", JNum 102); ("name", JStr "webX")]]
  | _ => []
  end.

Definition cluster : string -> Reply :=
  fun path =>
    if String.eqb path "/nodes" then
      Status 200 (JObj [("data", JArr [JObj pve1; JObj pve2])])
    else if String.eqb path "/nodes/pve1/qemu" then
      Status 200 (JObj [("data", JArr (vms_on pve1))])
    else if String.eqb path "/nodes/pve2/qemu" then
      Status 200 (JObj [("data", JArr (vms_on pve2))])
    else if String.eqb path "/cluster/resources?type=vm" then
      Proxmox.inventory HostExamples.web3_web7_webX
    else Status 404 JNull.


Definition proxmox_env (api : string -> Reply) : ProxmoxLists.Env :=
  ProxmoxLists.mkEnv None 1700000000000 api.

Definition proxmox_a_minute_later : ProxmoxLists.Env :=
  ProxmoxLists.mkEnv None (1700000000000 + 60000) (fun _ => NoReply).

(** The process after one [GET /proxmox/hosts] that was served, and the
    list it answered. *)
Definition hosts_listed : ProxmoxLists.State :=
  snd (ProxmoxLists.get_hosts (proxmox_env cluster) ProxmoxLists.initial).

Definition host_list : Js.value :=
  match fst (ProxmoxLists.get_hosts (proxmox_env cluster)
               ProxmoxLists.initial) with
  | Ok a => Gateway.content a
  | Throw _ => None
  end.

End ListExamples.


(** ** The common shape of the cached endpoints of ipam-service *)

Module Shape.
Import Ipam Gateway.
Local Open Scope ipam_scope.

(** Look in the cache, else authenticate, fetch, store and answer; any
    failure is answered 500 with [message]. *)
Definition cached (env : Env) (key : string) (fetch : M Js.value)
           (message : string) : M Answer :=
  try_catch
    (found <- cache_get env key ;;
     if truthy found then ret (mkAnswer 200 found)
     else
       authenticateIpam env ;;;
       result <- fetch ;;
       cache_set env key result (stdTTL env) ;;;
       ret (mkAnswer 200 result))
    (fun _ =>
       ret (answer_of (error_response 500 "Internal Server Error" message))).

(** [(await phpIpamApi.get(path)).data.data] *)
Definition fetch_data (env : Env) (path : string) : M Js.value :=
  response <- phpIpamApi_get env path ;;
  lift (prop response "data").

(** The two calls of [GET /ipam/subnet/:id] and the object built from
    them. *)
Definition fetch_subnet (env : Env) (id : string) : M Js.value :=
  subnet <- fetch_data env ("/" ++ appId env ++ "/subnets/" ++ id ++ "/") ;;
  data <- fetch_data env
    ("/" ++ appId env ++ "/subnets/" ++ id ++ "/addresses/") ;;
  ret (Some (IpamLists.with_addresses subnet data)).

End Shape.


(** ** Example services for the kafka-consumer *)

Module ServiceExamples.




(** ProxMox listing web3, a VM that has no name, and web7. *)
Definition nameless : json :=
  JObj [("vmid", JNum 105); ("node", JStr "pve"); ("status", JStr "stopped")].

Definition listed_vms : list json :=
  [Proxmox.vm_of (HostExamples.vm "web3"); nameless;
   Proxmox.vm_of (HostExamples.vm "web7")].

Definition with_a_nameless_vm : Reply :=
  Status 200 (JObj [("data", JArr listed_vms)]).

Definition nameless_cluster : ProxmoxLists.Env :=
  ProxmoxLists.mkEnv None 1700000000000
    (fun path =>
       if String.eqb path "/cluster/resources?type=vm" then with_a_nameless_vm
       else Status 404 JNull).

Definition r1_web7 : Message :=
  mkMessage (Some "client-7")
    (Some (JObj [("requestId", JStr "r1"); ("hostname", JStr "web7")])).

End ServiceExamples.


(** * Properties *)

Import Proxmox Spec.

(** ** Characters and strings *)

Lemma lower_upper_ascii (c : ascii) : lower_ascii (upper_ascii c) = lower_ascii c.
Proof. destruct c as [[] [] [] [] [] [] [] []]; reflexivity. Qed.

Lemma upper_lower_ascii (c : ascii) : upper_ascii (lower_ascii c) = upper_ascii c.
Proof. destruct c as [[] [] [] [] [] [] [] []]; reflexivity. Qed.

Lemma canonicalize_eqb (a b : ascii) :
  Ascii.eqb (Regex.canonicalize a) (Regex.canonicalize b)
  = Ascii.eqb (lower_ascii a) (lower_ascii b).
Proof.
  unfold Regex.canonicalize.
  destruct (Ascii.eqb_spec (upper_ascii a) (upper_ascii b)) as [E | E];
    destruct (Ascii.eqb_spec (lower_ascii a) (lower_ascii b)) as [F | F];
    try reflexivity; exfalso.
  - apply F. now rewrite <- (lower_upper_ascii a), E, lower_upper_ascii.
  - apply E. now rewrite <- (upper_lower_ascii a), F, upper_lower_ascii.
Qed.

Lemma toLowerCase_app (a b : string) :
  toLowerCase (a ++ b) = toLowerCase a ++ toLowerCase b.
Proof. induction a as [| c a IH]; simpl; [reflexivity | now rewrite IH]. Qed.

Lemma lookup_head (k : string) (v : json) (rest : list (string * json)) :
  lookup k ((k, v) :: rest) = Some v.
Proof. simpl. now rewrite String.eqb_refl. Qed.

(** ** The inventory as the handlers read it *)

Lemma name_toLowerCase_vm (h : Host) :
  name_toLowerCase (vm_of h) = Ok (toLowerCase (name h)).
Proof. reflexivity. Qed.

Lemma some_named_inventory (hosts : list Host) (l : string) :
  some_named (map vm_of hosts) l
  = Ok (existsb (fun h => String.eqb (toLowerCase (name h)) l) hosts).
Proof.
  induction hosts as [| h hosts IH]; [reflexivity |].
  cbn [map some_named existsb].
  rewrite name_toLowerCase_vm. cbn [rbind].
  destruct (String.eqb (toLowerCase (name h)) l); [reflexivity | exact IH].
Qed.

Lemma existsb_taken (hosts : list Host) (h : string) :
  existsb (fun host => String.eqb (toLowerCase (name host)) (toLowerCase h)) hosts
  = true <-> taken hosts h.
Proof.
  unfold taken. rewrite existsb_exists.
  split; intros [host [Hin Heq]]; exists host; split; trivial.
  - now apply String.eqb_eq.
  - now apply String.eqb_eq.
Qed.

(** ** Availability of a hostname *)

Lemma verifyToken_pass {A} (authorization : option string) (token : string)
      (reject : Response -> A) (next : A) :
  bearer authorization = Some token -> token <> "" ->
  verifyToken authorization reject next = next.
Proof.
  intros Hb Hne. unfold verifyToken. rewrite Hb.
  destruct token; [contradiction | reflexivity].
Qed.

Lemma truthy_string (s : string) : s <> "" -> truthy (Some (JStr s)) = true.
Proof.
  intros Hne. simpl. destruct (String.eqb_spec s ""); [contradiction | reflexivity].
Qed.

(** The handler on a well-formed inventory, for a hostname that is a
    non-empty string: the taken answer, or whatever the suggestion block
    gives. *)
Lemma check_hostname_inventory (engine : Regex.Engine) (hosts : list Host)
      (body : list (string * json)) (h : string) :
  lookup "hostname" body = Some (JStr h) -> h <> "" ->
  check_hostname engine (inventory hosts) body
  = if existsb (fun host => String.eqb (toLowerCase (name host)) (toLowerCase h))
               hosts
    then taken_response (Some (JStr h))
    else match suggest engine (map vm_of hosts) (lookup "prefix" body) with
         | Ok suggestions => free_response suggestions
         | Throw _ =>
             error_response 500 "Internal Server Error"
               "Failed to check hostname"
         end.
Proof.
  intros Hh Hne. unfold check_hostname, check_hostname_try.
  rewrite Hh, (truthy_string h Hne). cbn -[suggest some_named].
  rewrite some_named_inventory. cbn -[suggest].
  destruct (existsb _ hosts); [reflexivity |].
  cbn -[suggest].
  destruct (suggest engine (map vm_of hosts) (lookup "prefix" body));
    reflexivity.
Qed.

Lemma eachMessage_inventory (env_topic : option string) (now : string)
      (hosts : list Host) (k : option string) (request : json) (h : string) :
  prop request "hostname" = Ok (Some (JStr h)) ->
  exists requestId,
    prop request "requestId" = Ok requestId /\
    eachMessage env_topic now (inventory hosts) (mkMessage k (Some request))
    = [mkRecord (env_or env_topic "hostname-responses") k
         (object
            [("requestId", requestId);
             ("hostname", Some (JStr h));
             ("available",
              Some (JBool
                      (negb (existsb
                               (fun host =>
                                  String.eqb (toLowerCase (name host))
                                             (toLowerCase h)) hosts))));
             ("timestamp", Some (JStr now))])].
Proof.
  intros Hh.
  destruct request as [| | | | | fields]; try discriminate Hh.
  exists (lookup "requestId" fields). split; [reflexivity |].
  cbn [prop] in Hh. injection Hh as Hh.
  unfold eachMessage, eachMessage_try, JSON_parse.
  cbn -[some_named object env_or lookup]. rewrite Hh.
  cbn -[some_named object env_or lookup]. rewrite lookup_head.
  cbn -[some_named object env_or lookup].
  rewrite some_named_inventory. reflexivity.
Qed.

(** X20.  When every VM that ProxMox lists has a name (the inventory
    is [inventory hosts]), the answer to a check of the hostname [h]
    says [available: false] exactly when some host's name equals [h]
    case-insensitively: on [POST /proxmox/check-hostname] (where an
    empty hostname is refused as missing) and in the response the
    service publishes for a [hostname-requests] message. *)
Theorem hostname_unavailable_iff_taken
        (engine : Regex.Engine) (hosts : list Host) (h : string) :
  (forall authorization token body,
      bearer authorization = Some token -> token <> "" ->
      lookup "hostname" body = Some (JStr h) -> h <> "" ->
      field (route_check_hostname engine (inventory hosts) authorization body)
            "available" = Some (JBool false)
      <-> taken hosts h) /\
  (forall env_topic now k request,
      prop request "hostname" = Ok (Some (JStr h)) ->
      exists r,
        eachMessage env_topic now (inventory hosts) (mkMessage k (Some request))
        = [r] /\
        (lookup "available" (payload r) = Some (JBool false) <-> taken hosts h)).
Proof.
  split.
  - intros authorization token body Hb Htok Hh Hne.
    unfold route_check_hostname.
    rewrite (verifyToken_pass _ token) by assumption.
    rewrite (check_hostname_inventory engine hosts body h Hh Hne).
    rewrite <- existsb_taken.
    destruct (existsb _ hosts).
    + split; reflexivity.
    + destruct (suggest engine (map vm_of hosts) (lookup "prefix" body));
        split; intros H; discriminate H.
  - intros env_topic now k request Hh.
    destruct (eachMessage_inventory env_topic now hosts k request h Hh)
      as [requestId [_ He]].
    eexists. split; [exact He |].
    rewrite <- existsb_taken.
    cbn [payload]. destruct requestId as [rid |]; cbn [object lookup];
      destruct (existsb _ hosts); cbn; split; intros H;
      first [reflexivity | discriminate H].
Qed.

Lemma hostname_unavailable_iff_taken_witness :
  let hosts := [HostExamples.vm "web1"; HostExamples.vm "Web5"] in
  let body := [("hostname", JStr "WEB5")] in
  (bearer (Some "Bearer t0k3n") = Some "t0k3n" /\ "t0k3n" <> "" /\
   lookup "hostname" body = Some (JStr "WEB5") /\ "WEB5" <> "") /\
  (field (route_check_hostname HostExamples.no_engine (inventory hosts)
            (Some "Bearer t0k3n") body) "available" = Some (JBool false)
   <-> taken hosts "WEB5").
Proof.
  intros hosts body.
  assert (H1 : bearer (Some "Bearer t0k3n") = Some "t0k3n") by reflexivity.
  assert (H2 : "t0k3n" <> "") by discriminate.
  assert (H3 : lookup "hostname" body = Some (JStr "WEB5")) by reflexivity.
  assert (H4 : "WEB5" <> "") by discriminate.
  split; [repeat split; assumption |].
  exact (proj1 (hostname_unavailable_iff_taken HostExamples.no_engine hosts "WEB5")
               (Some "Bearer t0k3n") "t0k3n" body H1 H2 H3 H4).
Defined.

(** C1.  The claim fails on the code for an inventory in which a VM
    has no name, evaluated: ProxMox lists web3, a VM without a name and
    web7, so web7 is the name of an existing host; yet
    [POST /proxmox/check-hostname] answers the check of web7 with
    500 Internal Server Error and no [available] at all, and the
    service's consumer publishes nothing for the request.  The name
    web3, listed before the nameless VM, is still reported as in use,
    and [GET /proxmox/hosts] of the same service lists all three VMs
    from the same reply. *)
Theorem taken_name_behind_a_nameless_vm_is_not_reported :
  let upstream := ServiceExamples.with_a_nameless_vm in
  let response :=
    route_check_hostname HostExamples.no_engine upstream
      (Some "Bearer t0k3n") [("hostname", JStr "web7")] in
  In (vm_of (HostExamples.vm "web7")) ServiceExamples.listed_vms /\
  prop (vm_of (HostExamples.vm "web7")) "name" = Ok (Some (JStr "web7")) /\
  response
  = error_response 500 "Internal Server Error" "Failed to check hostname" /\
  field response "available" = None /\
  field response "available" <> Some (JBool false) /\
  eachMessage None "2023-11-14T22:13:20.000Z" upstream ServiceExamples.r1_web7
  = [] /\
  route_check_hostname HostExamples.no_engine upstream
    (Some "Bearer t0k3n") [("hostname", JStr "web3")]
  = taken_response (Some (JStr "web3")) /\
  fst (ProxmoxLists.get_hosts ServiceExamples.nameless_cluster
         ProxmoxLists.initial)
  = Ok (Gateway.mkAnswer 200
          (Some (JArr [JObj [("id", JNum 100); ("name", JStr "web3");
                             ("node", JStr "pve"); ("status", JStr "running")];
                       JObj [("id", JNum 105); ("node", JStr "pve");
                             ("status", JStr "stopped")];
                       JObj [("id", JNum 100); ("name", JStr "web7");
                             ("node", JStr "pve");
                             ("status", JStr "running")]]))).
Proof.
  intros upstream response.
  split; [right; right; left; reflexivity |].
  repeat (split; [first [reflexivity | discriminate] |]).
  reflexivity.
Qed.

(** ** The pattern on a prefix of ordinary characters and dots *)

Lemma quant_of_dotted (c : ascii) :
  (Ascii.eqb c "." || negb (Regex.is_syntax_character c)) = true ->
  Regex.quant_of c = None.
Proof.
  destruct c as [[] [] [] [] [] [] [] []]; intros H;
    first [reflexivity | discriminate H].
Qed.

Lemma atom_of_dotted (c : ascii) :
  (Ascii.eqb c "." || negb (Regex.is_syntax_character c)) = true ->
  Regex.atom_of c
  = Some (if Ascii.eqb c "." then Regex.ADot else Regex.AChar c).
Proof.
  unfold Regex.atom_of. destruct (Ascii.eqb c "."); [reflexivity |].
  simpl. destruct (Regex.is_syntax_character c); [discriminate | reflexivity].
Qed.

Lemma parse_dotted (prefix : string) :
  dotted prefix = true -> Regex.parse prefix = Some (Aux.literal_items prefix).
Proof.
  induction prefix as [| c rest IH]; [reflexivity |].
  cbn [dotted]. intros H. apply andb_prop in H as [Hc Hrest].
  cbn [Regex.parse Aux.literal_items]. rewrite (atom_of_dotted c Hc).
  destruct rest as [| q rest']; [reflexivity |].
  assert (Hq : Regex.quant_of q = None).
  { cbn [dotted] in Hrest. apply andb_prop in Hrest as [Hq _].
    now apply quant_of_dotted. }
  rewrite Hq, (IH Hrest). reflexivity.
Qed.

Lemma lower_dot (c : ascii) : lower_ascii c = "."%char -> c = "."%char.
Proof.
  destruct c as [[] [] [] [] [] [] [] []]; intros H;
    first [reflexivity | discriminate H].
Qed.

(** A name that begins with the prefix, case-insensitively, is consumed
    up to the end of the prefix, and only such a name is. *)
Lemma strip_prefix_startsWith (prefix name : string) :
  startsWith (toLowerCase name) (toLowerCase prefix) = true
  <-> exists rest, strip_prefix prefix name = Some rest.
Proof.
  revert name. induction prefix as [| a p IH]; intros name.
  - simpl. split; [eauto | reflexivity].
  - destruct name as [| b n]; cbn [toLowerCase startsWith strip_prefix].
    + split; [discriminate | intros [rest H]; discriminate H].
    + rewrite (Ascii.eqb_sym (lower_ascii a)).
      destruct (Ascii.eqb (lower_ascii b) (lower_ascii a)); cbn [andb].
      * apply IH.
      * split; [discriminate | intros [rest H]; discriminate H].
Qed.

Lemma match_literal_items {T} (prefix name rest : string)
      (k : string -> option T) :
  strip_prefix prefix name = Some rest ->
  Regex.match_items (Aux.literal_items prefix) k name = k rest.
Proof.
  revert name. induction prefix as [| a p IH]; intros name H.
  - simpl in H. injection H as ->. reflexivity.
  - destruct name as [| b n]; cbn [strip_prefix] in H; [discriminate |].
    destruct (Ascii.eqb_spec (lower_ascii a) (lower_ascii b)) as [E | E];
      [| discriminate].
    cbn [Aux.literal_items Regex.match_items].
    assert (Hm : Regex.atom_matches
                   (if Ascii.eqb a "." then Regex.ADot else Regex.AChar a) b
                 = true).
    { destruct (Ascii.eqb_spec a ".") as [-> | Hdot].
      - symmetry in E. apply lower_dot in E. subst b. reflexivity.
      - cbn [Regex.atom_matches]. rewrite canonicalize_eqb, E.
        apply Ascii.eqb_refl. }
    rewrite Hm. now apply IH.
Qed.

Lemma star_digits {T} (k : string -> option T) (v : T) (s : string) :
  k "" = Some v -> (forall c r, k (String c r) = None) ->
  Regex.star Regex.ADigit k s = if all_digits s then Some v else None.
Proof.
  intros Hend Hmore. induction s as [| c r IH]; [exact Hend |].
  cbn [Regex.star Regex.atom_matches all_digits].
  destruct (is_digit c); cbn [andb]; [| apply Hmore].
  rewrite IH. destruct (all_digits r); [reflexivity | apply Hmore].
Qed.

Lemma substring_all (s : string) : substring 0 (String.length s) s = s.
Proof. induction s as [| c r IH]; simpl; [reflexivity | now rewrite IH]. Qed.

Lemma match_group (digits : string) :
  Regex.match_items [(Regex.ADigit, Regex.Plus)] (Aux.group_k digits) digits
  = if negb (String.eqb digits "") && all_digits digits
    then Some digits else None.
Proof.
  assert (Hend : Aux.group_k digits "" = Some digits).
  { unfold Aux.group_k. cbn [String.length]. rewrite Nat.sub_0_r.
    now rewrite substring_all. }
  destruct digits as [| c r]; [reflexivity |].
  cbn [Regex.match_items Regex.atom_matches all_digits String.eqb negb andb].
  destruct (is_digit c); [| reflexivity].
  cbn [andb]. now apply star_digits.
Qed.

Lemma exec_literal (prefix name : string) :
  startsWith (toLowerCase name) (toLowerCase prefix) = true ->
  Regex.exec (Aux.literal_items prefix) name
  = match strip_prefix prefix name with
    | Some digits =>
        if negb (String.eqb digits "") && all_digits digits
        then Some digits else None
    | None => None
    end.
Proof.
  intros H. apply strip_prefix_startsWith in H as [rest H].
  unfold Regex.exec. rewrite H.
  rewrite (match_literal_items prefix name rest _ H).
  apply match_group.
Qed.

(** ** [parseInt] on a run of digits *)

Lemma digit_value_digit (c : ascii) :
  is_digit c = true ->
  ParseInt.digit_value 10 c = Some (Z.of_N (N_of_ascii c) - 48)%Z.
Proof.
  destruct c as [[] [] [] [] [] [] [] []]; intros H;
    first [reflexivity | discriminate H].
Qed.

Lemma digits_all (a : Z) (s : string) :
  all_digits s = true ->
  ParseInt.digits 10 (Some a) s = Some (digits_value a s).
Proof.
  revert a. induction s as [| c r IH]; intros a H; [reflexivity |].
  cbn [all_digits] in H. apply andb_prop in H as [Hc Hr].
  cbn [ParseInt.digits digits_value]. rewrite (digit_value_digit c Hc).
  now apply IH.
Qed.

Lemma digits_first (c : ascii) (r : string) :
  is_digit c = true -> all_digits r = true ->
  ParseInt.digits 10 None (String c r) = Some (digits_value 0 (String c r)).
Proof.
  intros Hc Hr. cbn [ParseInt.digits digits_value].
  rewrite (digit_value_digit c Hc). now apply digits_all.
Qed.

Lemma not_hex_marker (x : ascii) :
  is_digit x = true -> Ascii.eqb x "x" || Ascii.eqb x "X" = false.
Proof.
  destruct x as [[] [] [] [] [] [] [] []]; intros H;
    first [reflexivity | discriminate H].
Qed.

Lemma unsigned_digits (c : ascii) (r : string) :
  is_digit c = true -> all_digits r = true ->
  ParseInt.unsigned (String c r) = ParseInt.digits 10 None (String c r).
Proof.
  intros Hc Hr. destruct r as [| x rest].
  - destruct c as [[] [] [] [] [] [] [] []]; reflexivity.
  - cbn [all_digits] in Hr. apply andb_prop in Hr as [Hx _].
    pose proof (not_hex_marker x Hx) as Hm. unfold ParseInt.unsigned.
    destruct c as [[] [] [] [] [] [] [] []]; try reflexivity.
    now rewrite Hm.
Qed.

Lemma parseInt_digits (digits : string) :
  negb (String.eqb digits "") && all_digits digits = true ->
  ParseInt.parseInt digits = Some (digits_value 0 digits).
Proof.
  destruct digits as [| c r]; [discriminate |].
  cbn [String.eqb negb andb all_digits]. intros H.
  apply andb_prop in H as [Hc Hr].
  rewrite <- (digits_first c r Hc Hr), <- (unsigned_digits c r Hc Hr).
  unfold ParseInt.parseInt.
  destruct c as [[] [] [] [] [] [] [] []]; first [reflexivity | discriminate Hc].
Qed.

Lemma strip_prefix_app (prefix p digits : string) :
  toLowerCase p = toLowerCase prefix ->
  strip_prefix prefix (p ++ digits) = Some digits.
Proof.
  revert p. induction prefix as [| a q IH]; intros p H.
  - destruct p; [reflexivity | discriminate H].
  - destruct p as [| b p]; [discriminate H |].
    cbn [toLowerCase] in H. injection H as Hc Hrest.
    cbn [append strip_prefix]. rewrite Hc, Ascii.eqb_refl. now apply IH.
Qed.

Lemma strip_prefix_split (prefix name digits : string) :
  strip_prefix prefix name = Some digits ->
  exists p, name = p ++ digits /\ toLowerCase p = toLowerCase prefix.
Proof.
  revert name. induction prefix as [| a q IH]; intros name H.
  - simpl in H. injection H as ->. exists "". split; reflexivity.
  - destruct name as [| b n]; cbn [strip_prefix] in H; [discriminate |].
    destruct (Ascii.eqb_spec (lower_ascii a) (lower_ascii b)) as [E | E];
      [| discriminate].
    destruct (IH n H) as [p [Hn Hp]]. exists (String b p). split.
    + cbn [append]. now rewrite Hn.
    + cbn [toLowerCase]. now rewrite Hp, E.
Qed.

(** ** Numbers below 2^53 *)

Lemma of_Z_small (z : Z) :
  (0 <= z < 2 ^ 53)%Z -> Number.of_Z z = Number.Finite z.
Proof.
  intros Hz. unfold Number.of_Z, Number.nearest.
  rewrite Z.abs_eq by lia.
  assert (Hl : (Z.log2 z - 52 <= 0)%Z).
  { destruct (Z.eq_dec z 0) as [-> | Hnz]; [cbn; lia |].
    assert (Z.log2 z < 53)%Z by (apply Z.log2_lt_pow2; lia). lia. }
  destruct (Z.leb_spec (Z.log2 z - 52) 0) as [_ | Hgt]; [| lia].
  assert (Hbig : (2 ^ 53 < Z.shiftl 1 1024)%Z) by (vm_compute; reflexivity).
  destruct (Z.leb_spec (Z.shiftl 1 1024) z) as [Hle | _]; [lia |].
  f_equal. destruct (Z.eq_dec z 0) as [-> | Hnz]; [reflexivity |].
  rewrite Z.sgn_pos by lia. lia.
Qed.

Lemma to_string_small (z : Z) :
  (0 <= z < 2 ^ 53)%Z -> Number.to_string (Number.Finite z) = decimalZ z.
Proof.
  intros Hz. unfold Number.to_string. rewrite Z.abs_eq by lia.
  destruct (Z.ltb_spec z (2 ^ 53)) as [_ | Hge]; [reflexivity | lia].
Qed.

Lemma numbered_small (prefix : string) (N : Z) :
  (0 <= N)%Z -> (N + 3 < 2 ^ 53)%Z ->
  numbered prefix (Number.Finite N) = candidates prefix N.
Proof.
  intros H0 H3. unfold numbered, candidates. cbn [map Number.add].
  rewrite !of_Z_small, !to_string_small by lia. reflexivity.
Qed.

Lemma digit_code (c : ascii) :
  is_digit c = true -> (0 <= Z.of_N (N_of_ascii c) - 48 <= 9)%Z.
Proof.
  destruct c as [[] [] [] [] [] [] [] []]; intros H;
    first [discriminate H | cbn; lia].
Qed.

Lemma digits_value_mono (d : string) (a b : Z) :
  all_digits d = true -> (0 <= a <= b)%Z ->
  (0 <= digits_value a d <= digits_value b d)%Z.
Proof.
  revert a b. induction d as [| c r IH]; intros a b Hd Hab; [exact Hab |].
  cbn [all_digits] in Hd. apply andb_prop in Hd as [Hc Hr].
  cbn [digits_value]. pose proof (digit_code c Hc). apply (IH _ _ Hr). lia.
Qed.

Lemma digits_value_app (q d : string) (a : Z) :
  digits_value a (q ++ d) = digits_value (digits_value a q) d.
Proof.
  revert a. induction q as [| c q IH]; intros a; [reflexivity |].
  cbn [append digits_value]. apply IH.
Qed.

Lemma all_digits_app (q d : string) :
  all_digits (q ++ d) = all_digits q && all_digits d.
Proof.
  induction q as [| c q IH]; [reflexivity |].
  cbn [append all_digits]. now rewrite IH, andb_assoc.
Qed.

(** A run of digits that ends a name is the end of its trailing
    digits. *)
Lemma trailing_digits_split (p d : string) :
  all_digits d = true ->
  exists q, trailing_digits (p ++ d) = q ++ d /\ all_digits q = true.
Proof.
  intros Hd. induction p as [| c p [q [IH Hq]]].
  - exists "". split; [| reflexivity]. cbn [append].
    destruct d as [| c r]; [reflexivity |]. cbn [trailing_digits].
    now rewrite Hd.
  - cbn [append trailing_digits].
    destruct (all_digits (String c (p ++ d))) eqn:E.
    + exists (String c p). split; [reflexivity |].
      change (String c (p ++ d)) with (String c p ++ d) in E.
      rewrite all_digits_app in E. now apply andb_prop in E as [E _].
    + exists q. now split.
Qed.

Lemma safe_suffix (p d : string) :
  safe_name (p ++ d) = true -> all_digits d = true ->
  (0 <= digits_value 0 d)%Z /\ (digits_value 0 d + 3 < 2 ^ 53)%Z.
Proof.
  unfold safe_name. intros Hs Hd.
  destruct (trailing_digits_split p d Hd) as [q [Hq Hqd]].
  rewrite Hq, digits_value_app in Hs. apply Z.ltb_lt in Hs.
  pose proof (digits_value_mono q 0 0 Hqd ltac:(lia)) as Hq0.
  pose proof (digits_value_mono d 0 (digits_value 0 q) Hd ltac:(lia)).
  lia.
Qed.

Lemma safe_names_In (names : list string) (name : string) :
  safe_names names = true -> In name names -> safe_name name = true.
Proof.
  unfold safe_names. intros H Hin. now apply (proj1 (forallb_forall _ _) H).
Qed.

Lemma safe_names_filter (f : string -> bool) (names : list string) :
  safe_names names = true -> safe_names (filter f names) = true.
Proof.
  unfold safe_names. intros H. apply forallb_forall. intros n Hin.
  apply filter_In in Hin as [Hin _].
  now apply (proj1 (forallb_forall _ _) H).
Qed.

Lemma safe_names_cons (name : string) (rest : list string) :
  safe_names (name :: rest) = true ->
  safe_name name = true /\ safe_names rest = true.
Proof. unfold safe_names. cbn [forallb]. apply andb_prop. Qed.

(** ** The highest number and the specification's maximum *)

Lemma highest_step_literal (engine : Regex.Engine) (prefix name : string)
      (maxNumber : Z) :
  dotted prefix = true ->
  startsWith (toLowerCase name) (toLowerCase prefix) = true ->
  safe_name name = true ->
  highest_step engine prefix (Number.Finite maxNumber) name
  = Ok (Number.Finite
          (match trailing_integer prefix name with
           | Some n => if (maxNumber <? n)%Z then n else maxNumber
           | None => maxNumber
           end)).
Proof.
  intros Hd Hs Hsafe. unfold highest_step, Regex.js_match, trailing_integer.
  rewrite (parse_dotted prefix Hd), (exec_literal prefix name Hs).
  destruct (strip_prefix prefix name) as [digits |] eqn:E; [| reflexivity].
  destruct (negb (String.eqb digits "") && all_digits digits) eqn:Hform;
    [| reflexivity].
  cbn [option_map rbind]. rewrite (parseInt_digits digits Hform).
  apply andb_prop in Hform as [Hne Hall]. rewrite Hne.
  destruct (strip_prefix_split prefix name digits E) as [p [Hn _]].
  rewrite Hn in Hsafe.
  destruct (safe_suffix p digits Hsafe Hall) as [H0 H3].
  rewrite of_Z_small by lia. cbn [Number.ltb].
  now destruct (maxNumber <? digits_value 0 digits)%Z.
Qed.

Lemma highest_literal (engine : Regex.Engine) (prefix : string)
      (names : list string) (start : Z) :
  dotted prefix = true ->
  Forall (fun name => startsWith (toLowerCase name) (toLowerCase prefix) = true)
         names ->
  safe_names names = true ->
  highest engine prefix names (Number.Finite start)
  = Ok (Number.Finite (max_trailing prefix names start)).
Proof.
  intros Hd Hall. revert start.
  induction Hall as [| name rest Hname _ IH]; intros start Hsafe;
    [reflexivity |].
  apply safe_names_cons in Hsafe as [Hs Hrest].
  cbn [highest max_trailing].
  rewrite (highest_step_literal engine prefix name start Hd Hname Hs).
  cbn [rbind]. now apply IH.
Qed.

Lemma trailing_integer_outside (prefix name : string) :
  startsWith (toLowerCase name) (toLowerCase prefix) = false ->
  trailing_integer prefix name = None.
Proof.
  intros H. unfold trailing_integer.
  destruct (strip_prefix prefix name) as [rest |] eqn:E; [| reflexivity].
  assert (Ht : startsWith (toLowerCase name) (toLowerCase prefix) = true).
  { apply strip_prefix_startsWith. eauto. }
  rewrite Ht in H. discriminate H.
Qed.

Lemma max_trailing_filter (prefix : string) (names : list string) (start : Z) :
  max_trailing prefix
    (filter (fun name => startsWith (toLowerCase name) (toLowerCase prefix))
            names) start
  = max_trailing prefix names start.
Proof.
  revert start. induction names as [| name rest IH]; intros start;
    [reflexivity |].
  cbn [filter max_trailing].
  destruct (startsWith (toLowerCase name) (toLowerCase prefix)) eqn:E.
  - cbn [max_trailing]. apply IH.
  - rewrite (trailing_integer_outside prefix name E). apply IH.
Qed.

Lemma filter_prefix_inventory (hosts : list Host) (prefixLower : string) :
  filter_prefix (map vm_of hosts) prefixLower
  = Ok (map vm_of
          (filter (fun h => startsWith (toLowerCase (name h)) prefixLower)
                  hosts)).
Proof.
  induction hosts as [| h hosts IH]; [reflexivity |].
  cbn [map filter_prefix filter]. rewrite name_toLowerCase_vm, IH.
  cbn [rbind]. destruct (startsWith (toLowerCase (name h)) prefixLower);
    reflexivity.
Qed.

Lemma names_of_inventory (hosts : list Host) :
  names_of (map vm_of hosts) = Ok (map name hosts).
Proof.
  induction hosts as [| h hosts IH]; [reflexivity |].
  cbn [map names_of]. rewrite IH. reflexivity.
Qed.

Lemma existingPrefixNames_inventory (hosts : list Host) (prefixLower : string) :
  existingPrefixNames (map vm_of hosts) prefixLower
  = Ok (filter (fun n => startsWith (toLowerCase n) prefixLower)
               (map name hosts)).
Proof.
  unfold existingPrefixNames. rewrite filter_prefix_inventory. cbn [rbind].
  rewrite names_of_inventory. f_equal.
  induction hosts as [| h hosts IH]; [reflexivity |].
  cbn [map filter]. destruct (startsWith (toLowerCase (name h)) prefixLower);
    cbn [map]; now rewrite IH.
Qed.

(** Every name the pattern is applied to has passed the [startsWith]
    filter, whatever the prefix. *)
Lemma scanned_names_start_with_prefix (hosts : list Host)
      (prefix : string) (names : list string) (n : string) :
  existingPrefixNames (map vm_of hosts) (toLowerCase prefix) = Ok names ->
  In n names ->
  startsWith (toLowerCase n) (toLowerCase prefix) = true /\
  exists host, In host hosts /\ name host = n.
Proof.
  rewrite existingPrefixNames_inventory. intros H Hin.
  injection H as <-. apply filter_In in Hin as [Hin Hs].
  split; [exact Hs |]. apply in_map_iff in Hin as [host [Hn Hh]]. eauto.
Qed.

Lemma has_form_trailing_integer (prefix name : string) (n : Z) :
  has_form prefix name n <-> trailing_integer prefix name = Some n.
Proof.
  unfold has_form, trailing_integer. split.
  - intros [p [digits [-> [Hp [Hne [Hd ->]]]]]].
    rewrite (strip_prefix_app prefix p digits Hp), Hd.
    destruct (String.eqb_spec digits ""); [contradiction | reflexivity].
  - destruct (strip_prefix prefix name) as [digits |] eqn:E; [| discriminate].
    destruct (String.eqb_spec digits "") as [| Hne]; [discriminate |].
    cbn [negb andb]. destruct (all_digits digits) eqn:Hd; [| discriminate].
    intros H. injection H as <-.
    destruct (strip_prefix_split prefix name digits E) as [p [Hn Hp]].
    exists p, digits. repeat split; assumption.
Qed.

Lemma max_trailing_bounds (prefix : string) (names : list string) (start : Z) :
  let N := max_trailing prefix names start in
  (start <= N)%Z /\
  (forall name n,
      In name names -> trailing_integer prefix name = Some n -> (n <= N)%Z) /\
  (N = start \/
   exists name, In name names /\ trailing_integer prefix name = Some N).
Proof.
  revert start. induction names as [| name rest IH]; intros start.
  - cbn. repeat split; [lia | contradiction | now left].
  - cbn [max_trailing].
    set (start' := match trailing_integer prefix name with
                   | Some n => if (start <? n)%Z then n else start
                   | None => start
                   end).
    destruct (IH start') as [Hle [Hub Hwit]].
    assert (Hs : (start <= start')%Z).
    { subst start'. destruct (trailing_integer prefix name) as [n |]; [| lia].
      destruct (Z.ltb_spec start n); lia. }
    cbn zeta. repeat split.
    + lia.
    + intros name' n [<- | Hin] Hn.
      * assert (n <= start')%Z; [| lia].
        subst start'. rewrite Hn. destruct (Z.ltb_spec start n); lia.
      * now apply (Hub name').
    + destruct Hwit as [Heq | [name' [Hin Hn]]].
      * rewrite Heq. subst start'.
        destruct (trailing_integer prefix name) as [n |] eqn:E; [| now left].
        destruct (Z.ltb_spec start n); [| now left].
        right. exists name. split; [now left | exact E].
      * right. exists name'. split; [now right | exact Hn].
Qed.

Lemma max_trailing_maximal (prefix : string) (names : list string) :
  maximal_suffix prefix names (max_trailing prefix names 0).
Proof.
  destruct (max_trailing_bounds prefix names 0) as [_ [Hub Hwit]].
  split.
  - intros name n Hin Hf. apply (Hub name n Hin).
    now apply has_form_trailing_integer.
  - destruct Hwit as [Heq | [name [Hin Hn]]]; [now left |].
    right. exists name. split; [exact Hin |].
    now apply has_form_trailing_integer.
Qed.

(** Among the non-negative integers the maximal suffix is determined. *)
Lemma maximal_suffix_unique (prefix : string) (names : list string) (N M : Z) :
  (0 <= N)%Z -> (0 <= M)%Z ->
  maximal_suffix prefix names N -> maximal_suffix prefix names M -> N = M.
Proof.
  intros HN HM [Hub1 Hw1] [Hub2 Hw2].
  assert (N <= M)%Z.
  { destruct Hw1 as [-> | [name [Hin Hf]]]; [lia | now apply (Hub2 name)]. }
  assert (M <= N)%Z.
  { destruct Hw2 as [-> | [name [Hin Hf]]]; [lia | now apply (Hub1 name)]. }
  lia.
Qed.

Lemma max_trailing_small (prefix : string) (names : list string) :
  safe_names names = true ->
  (0 <= max_trailing prefix names 0)%Z /\
  (max_trailing prefix names 0 + 3 < 2 ^ 53)%Z.
Proof.
  intros Hs. destruct (max_trailing_bounds prefix names 0) as [H0 [_ Hw]].
  cbn zeta in H0, Hw. split; [exact H0 |].
  destruct Hw as [-> | [name [Hin Hn]]]; [reflexivity |].
  apply has_form_trailing_integer in Hn.
  destruct Hn as [p [digits [Hname [_ [_ [Hall ->]]]]]]. subst name.
  apply (safe_suffix p digits); [| exact Hall].
  now apply (safe_names_In names).
Qed.

(** The suggestion block, for a non-empty prefix of ordinary characters
    and dots, numbers from the specification's maximum, as long as the
    numbers that end the names are below 2^53. *)
Lemma suggest_literal (engine : Regex.Engine) (hosts : list Host)
      (prefix : string) :
  prefix <> "" -> dotted prefix = true ->
  safe_names (map name hosts) = true ->
  suggest engine (map vm_of hosts) (Some (JStr prefix))
  = Ok (candidates prefix (max_trailing prefix (map name hosts) 0)).
Proof.
  intros Hne Hd Hsafe. unfold suggest. rewrite (truthy_string prefix Hne).
  cbn [call_toLowerCase rbind template toString].
  rewrite existingPrefixNames_inventory. cbn [rbind].
  rewrite (highest_literal engine prefix _ 0 Hd).
  - cbn [rbind]. rewrite max_trailing_filter.
    destruct (max_trailing_small prefix (map name hosts) Hsafe).
    now rewrite numbered_small.
  - apply Forall_forall. intros n Hin. now apply filter_In in Hin as [_ Hs].
  - now apply safe_names_filter.
Qed.

(** ** Suggestions *)

Lemma check_hostname_taken (engine : Regex.Engine) (hosts : list Host)
      (body : list (string * json)) (h : string) :
  lookup "hostname" body = Some (JStr h) -> h <> "" -> taken hosts h ->
  check_hostname engine (inventory hosts) body = taken_response (Some (JStr h)).
Proof.
  intros Hh Hne Ht. rewrite (check_hostname_inventory engine hosts body h Hh Hne).
  apply existsb_taken in Ht. now rewrite Ht.
Qed.

Lemma check_hostname_free (engine : Regex.Engine) (hosts : list Host)
      (body : list (string * json)) (h : string) :
  lookup "hostname" body = Some (JStr h) -> h <> "" -> ~ taken hosts h ->
  check_hostname engine (inventory hosts) body
  = match suggest engine (map vm_of hosts) (lookup "prefix" body) with
    | Ok suggestions => free_response suggestions
    | Throw _ =>
        error_response 500 "Internal Server Error" "Failed to check hostname"
    end.
Proof.
  intros Hh Hne Ht. rewrite (check_hostname_inventory engine hosts body h Hh Hne).
  destruct (existsb _ hosts) eqn:E; [| reflexivity].
  exfalso. apply Ht. now apply existsb_taken.
Qed.


(** C2.  The specification's numbering example, evaluated: with the
    names web3, web7 and webX the maximal suffix for the prefix web is 7,
    yet the check of the taken name web3 with that prefix answers
    [available: false] with a message and no suggestions at all, not
    web8, web9, web10. *)
Theorem taken_name_gets_no_suggestions :
  let hosts := HostExamples.web3_web7_webX in
  let response :=
    check_hostname HostExamples.no_engine (inventory hosts)
                   (HostExamples.check_body "web3" "web") in
  taken hosts "web3" /\
  maximal_suffix "web" (map name hosts) 7 /\
  response = taken_response (Some (JStr "web3")) /\
  field response "available" = Some (JBool false) /\
  field response "suggestions" = None /\
  field response "suggestions"
  <> Some (JArr (map JStr (candidates "web" 7))).
Proof.
  intros hosts response.
  assert (Ht : taken hosts "web3") by (apply existsb_taken; reflexivity).
  assert (Hr : response = taken_response (Some (JStr "web3"))).
  { apply check_hostname_taken; [reflexivity | discriminate | exact Ht]. }
  split; [exact Ht |].
  split; [apply (max_trailing_maximal "web" (map name hosts)) |].
  split; [exact Hr |].
  rewrite Hr. split; [reflexivity |]. split; [reflexivity | discriminate].
Qed.




(** ** Calls made and records produced by the IPAM handlers *)

Import Ipam Trace.
Local Open Scope ipam_scope.

Ltac break_match :=
  match goal with
  | |- context [match ?x with _ => _ end] =>
      lazymatch x with
      | context [match _ with _ => _ end] => fail
      | _ => destruct x eqn:?
      end
  end.

Lemma authenticateIpam_effect (env : Env) (st : State) :
  exists logins,
    (logins = [] \/ logins = [login env]) /\
    calls (snd (authenticateIpam env st)) = (calls st ++ logins)%list /\
    produced (snd (authenticateIpam env st)) = produced st.
Proof.
  unfold authenticateIpam, try_catch, bind, cache_get, set_header, cache_set,
    request, lift, ret, throw.
  repeat (break_match; cbn [fst snd calls produced] in *);
    first [ exists []; rewrite app_nil_r; auto; fail
          | exists [login env]; auto ].
Qed.

Lemma skipn_app_length {A} (l news : list A) :
  skipn (List.length l) (l ++ news) = news.
Proof. induction l as [| x l IH]; [reflexivity | exact IH]. Qed.

(** The handlers follow their step-by-step readings. *)
Lemma eachMessage_steps_eq (env : Env) (message : Message) (st : State) :
  Ipam.eachMessage env message st = Run.eachMessage_steps env message st.
Proof.
  unfold Ipam.eachMessage, Run.eachMessage_steps, try_catch, bind, lift,
    JSON_parse, phpIpamApi_get, request, producer_send, ret.
  destruct (value message) as [request |]; [| reflexivity].
  destruct (prop request "subnetId") as [subnetId | e]; [| reflexivity].
  destruct (authenticateIpam env st) as [[tok | e] st0]; [| reflexivity].
  fold (Run.first_free_url env subnetId).
  destruct (axios _) as [response | e]; [| reflexivity].
  destruct (prop response "data") as [ip | e]; [| reflexivity].
  destruct (prop request "requestId") as [requestId | e]; reflexivity.
Qed.

Lemma next_available_steps_eq (env : Env) (body : list (string * json))
      (st : State) :
  truthy (lookup "subnetId" body) = true ->
  next_available env body st
  = Run.next_available_steps env (lookup "subnetId" body) st.
Proof.
  intros Hs.
  unfold next_available, Run.next_available_steps, try_catch, bind, lift,
    phpIpamApi_get, request, ret.
  rewrite Hs. cbn [negb].
  destruct (authenticateIpam env st) as [[tok | e] st0]; [| reflexivity].
  fold (Run.first_free_url env (lookup "subnetId" body)).
  destruct (axios _) as [response | e]; [| reflexivity].
  destruct (prop response "data") as [ip | e]; reflexivity.
Qed.

Lemma check_ip_steps_eq (env : Env) (body : list (string * json))
      (st : State) :
  truthy (lookup "subnetId" body) = true ->
  check_ip env body st = Run.check_ip_steps env (lookup "ip" body) st.
Proof.
  intros Hs.
  unfold check_ip, Run.check_ip_steps, try_catch, bind, lift,
    phpIpamApi_get, request, ret.
  rewrite Hs. cbn [negb].
  destruct (authenticateIpam env st) as [[tok | e] st0]; [| reflexivity].
  destruct (truthy (lookup "ip" body)); [| reflexivity].
  fold (Run.search_url env (lookup "ip" body)).
  destruct (axios _) as [response | e]; [| reflexivity].
  destruct (prop response "data") as [data | e]; [| reflexivity].
  destruct (found data); reflexivity.
Qed.

Lemma without_subnet (env : Env) (body : list (string * json)) (st : State) :
  truthy (lookup "subnetId" body) = false ->
  next_available env body st
  = (Ok (error_response 400 "Bad Request" "Subnet ID is required"), st) /\
  check_ip env body st
  = (Ok (error_response 400 "Bad Request" "Subnet ID is required"), st).
Proof.
  intros Hs. unfold next_available, check_ip, try_catch, ret.
  rewrite Hs. split; reflexivity.
Qed.

Lemma authenticateIpam_produced (env : Env) (st : State) :
  produced (snd (authenticateIpam env st)) = produced st.
Proof. destruct (authenticateIpam_effect env st) as [_ [_ [_ H]]]. exact H. Qed.


Lemma lookup_object_absent (k : string) (fields : list (string * Js.value)) :
  ~ In k (map fst fields) -> lookup k (object fields) = None.
Proof.
  induction fields as [| [k' v] rest IH]; [reflexivity |].
  cbn [map fst In]. intros H.
  assert (Hrest : lookup k (object rest) = None) by (apply IH; tauto).
  destruct v as [v |]; cbn [object lookup]; [| exact Hrest].
  destruct (String.eqb_spec k k') as [-> | _]; [| exact Hrest].
  exfalso. apply H. now left.
Qed.

Lemma lookup_object_head (k : string) (v : Js.value)
      (rest : list (string * Js.value)) :
  ~ In k (map fst rest) -> lookup k (object ((k, v) :: rest)) = v.
Proof.
  intros H. destruct v as [v |]; cbn [object].
  - apply lookup_head.
  - now apply lookup_object_absent.
Qed.

Ltac absent_key :=
  cbn [map fst In]; intros Hk;
  repeat match goal with
         | H : _ \/ _ |- _ => destruct H as [H | H]
         end;
  first [discriminate | contradiction].

(** What the consumers send for one message: nothing, or one record built
    from the request. *)
Lemma proxmox_eachMessage_records (env_topic : option string) (now : string)
      (upstream : Reply) (message : Message) (r : ProducerRecord) :
  In r (Proxmox.eachMessage env_topic now upstream message) ->
  exists request requestId hostname available,
    value message = Some request /\
    prop request "requestId" = Ok requestId /\
    prop request "hostname" = Ok hostname /\
    Proxmox.eachMessage env_topic now upstream message = [r] /\
    r = mkRecord (env_or env_topic "hostname-responses") (key message)
          (object [("requestId", requestId); ("hostname", hostname);
                   ("available", Some (JBool available));
                   ("timestamp", Some (JStr now))]).
Proof.
  unfold Proxmox.eachMessage, eachMessage_try, JSON_parse, rbind.
  destruct (value message) as [request |] eqn:Hv; [| contradiction].
  destruct (prop request "hostname") as [hostname | e] eqn:Hh; [| contradiction].
  destruct (axios upstream) as [hostsResponse | e]; [| contradiction].
  destruct (prop hostsResponse "data") as [vms | e]; [| contradiction].
  destruct (call_toLowerCase hostname) as [l | e]; [| contradiction].
  destruct (as_array vms) as [items | e]; [| contradiction].
  destruct (some_named items l) as [exists_ | e]; [| contradiction].
  destruct (prop request "requestId") as [requestId | e] eqn:Hid; [| contradiction].
  intros [<- | []]. exists request, requestId, hostname, (negb exists_).
  repeat (split; [first [reflexivity | assumption] |]). reflexivity.
Qed.



(** ** The kafka-consumer never gets an answer from the services *)

Lemma proxmox_service_rejects (engine : Regex.Engine) (upstream : Reply)
      (data : list (string * json)) :
  KafkaConsumer.axios_post (KafkaConsumer.proxmox_service engine upstream) data
  = Throw (AxiosError (Some 401%Z)).
Proof. reflexivity. Qed.

Lemma ipam_services_reject (env : Env) (st : State)
      (data : list (string * json)) :
  KafkaConsumer.axios_post (KafkaConsumer.ipam_check_ip_service env st) data
  = Throw (AxiosError (Some 401%Z)) /\
  KafkaConsumer.axios_post (KafkaConsumer.ipam_next_available_service env st)
                           data
  = Throw (AxiosError (Some 401%Z)).
Proof. split; reflexivity. Qed.

Lemma relay_hostname_silent (engine : Regex.Engine) (upstream : Reply)
      (env_topic : option string) (now : string) (message : Message) :
  KafkaConsumer.processHostnameRequest env_topic now
    (KafkaConsumer.proxmox_service engine upstream) message = [].
Proof.
  unfold KafkaConsumer.processHostnameRequest,
    KafkaConsumer.processHostnameRequest_try, JSON_parse, rbind.
  destruct (value message) as [request |]; [| reflexivity].
  destruct (prop request "hostname") as [hostname | e]; [| reflexivity].
  destruct (truthy hostname); cbn [negb]; [| reflexivity].
  destruct (prop request "prefix") as [prefix | e]; [| reflexivity].
  now rewrite proxmox_service_rejects.
Qed.

Lemma relay_ip_silent (env : Env) (st st' : State)
      (env_topic : option string) (now : string) (message : Message) :
  KafkaConsumer.processIpRequest env_topic now
    (KafkaConsumer.ipam_check_ip_service env st)
    (KafkaConsumer.ipam_next_available_service env st') message = [].
Proof.
  unfold KafkaConsumer.processIpRequest,
    KafkaConsumer.processIpRequest_try, JSON_parse, rbind.
  destruct (value message) as [request |]; [| reflexivity].
  destruct (prop request "subnetId") as [subnetId | e]; [| reflexivity].
  destruct (truthy subnetId); cbn [negb]; [| reflexivity].
  destruct (prop request "ip") as [ip | e]; [| reflexivity].
  destruct (truthy ip).
  - now rewrite (proj1 (ipam_services_reject env st _)).
  - now rewrite (proj2 (ipam_services_reject env st' _)).
Qed.

(** ** Responses on the hostname topic *)

Lemma own_consumer_never_suggests (env_topic : option string) (now : string)
      (upstream : Reply) (message : Message) (r : ProducerRecord) :
  In r (Proxmox.eachMessage env_topic now upstream message) ->
  lookup "suggestions" (payload r) = None.
Proof.
  intros Hin.
  destruct (proxmox_eachMessage_records _ _ _ _ _ Hin)
    as [request [requestId [hostname [available [_ [_ [_ [_ ->]]]]]]]].
  cbn [payload]. apply lookup_object_absent. absent_key.
Qed.

(** C4.  The specification's end-to-end example, evaluated: for the
    request r1 for web5 with the prefix web, against web1 .. web7, the
    ProxMox service publishes the response with the request's identifier
    and key and [available: false], but without any [suggestions] field;
    the kafka-consumer, whose call to the service carries no
    authorization, publishes nothing. *)
Theorem taken_request_answered_without_suggestions
        (engine : Regex.Engine) (now : string) :
  let upstream := inventory HostExamples.web1_to_web7 in
  Proxmox.eachMessage None now upstream HostExamples.r1_web5
  = [mkRecord "hostname-responses" (Some "client-7")
       [("requestId", JStr "r1"); ("hostname", JStr "web5");
        ("available", JBool false); ("timestamp", JStr now)]] /\
  (forall r, In r (Proxmox.eachMessage None now upstream HostExamples.r1_web5) ->
             lookup "suggestions" (payload r)
             <> Some (JArr [JStr "web8"; JStr "web9"; JStr "web10"])) /\
  KafkaConsumer.processHostnameRequest None now
    (KafkaConsumer.proxmox_service engine upstream) HostExamples.r1_web5 = [].
Proof.
  intros upstream. split; [reflexivity |]. split.
  - intros r Hin. now rewrite (own_consumer_never_suggests _ _ _ _ r Hin).
  - apply relay_hostname_silent.
Qed.

(** ** Correlation of responses with requests *)









(** ** Requests that get no response *)

Lemma proxmox_drops_non_string_hostname (env_topic : option string)
      (now : string) (upstream : Reply) (message : Message) :
  (forall request h,
      value message = Some request ->
      prop request "hostname" <> Ok (Some (JStr h))) ->
  Proxmox.eachMessage env_topic now upstream message = [].
Proof.
  intros H. unfold Proxmox.eachMessage, eachMessage_try, JSON_parse, rbind.
  destruct (value message) as [request |] eqn:Hv; [| reflexivity].
  destruct (prop request "hostname") as [hostname | e] eqn:Hh; [| reflexivity].
  destruct (axios upstream) as [hostsResponse | e]; [| reflexivity].
  destruct (prop hostsResponse "data") as [vms | e]; [| reflexivity].
  destruct hostname as [[| | | h | |] |]; try reflexivity.
  exfalso. exact (H request h eq_refl Hh).
Qed.

Lemma proxmox_drops_on_upstream_failure (env_topic : option string)
      (now : string) (upstream : Reply) (message : Message) (e : Exn) :
  axios upstream = Throw e ->
  Proxmox.eachMessage env_topic now upstream message = [].
Proof.
  intros H. unfold Proxmox.eachMessage, eachMessage_try, JSON_parse, rbind.
  destruct (value message) as [request |]; [| reflexivity].
  destruct (prop request "hostname") as [hostname | e']; [| reflexivity].
  now rewrite H.
Qed.

Lemma ipam_drops (env : Env) (message : Message) (st : State) :
  value message = None \/
  (exists e, fst (authenticateIpam env st) = Throw e) \/
  (forall url token, exists e,
        axios (Ipam.upstream env (Get url token)) = Throw e) ->
  new_records (Ipam.eachMessage env message) st = [].
Proof.
  intros H. unfold new_records. rewrite eachMessage_steps_eq.
  unfold Run.eachMessage_steps.
  assert (Hnil : skipn (List.length (produced st)) (produced st) = []).
  { rewrite <- (app_nil_r (produced st)) at 2. apply skipn_app_length. }
  destruct (value message) as [request |]; [| exact Hnil].
  destruct (prop request "subnetId") as [subnetId | e]; [| exact Hnil].
  pose proof (authenticateIpam_produced env st) as Hp.
  destruct (authenticateIpam env st) as [[tok | e] st0]; cbn [fst snd] in H, Hp;
    [| cbn [snd]; now rewrite Hp].
  cbv zeta.
  destruct (axios _) as [response | e] eqn:Ha;
    [| cbn [snd Run.with_call produced]; now rewrite Hp].
  exfalso. destruct H as [Hnone | [[e He] | Hfail]];
    [discriminate Hnone | discriminate He |].
  destruct (Hfail (Run.first_free_url env subnetId) (header_token st0))
    as [e He].
  rewrite He in Ha. discriminate Ha.
Qed.

(** C6, as the code has it.  A request message is dropped, nothing being
    published for it, when its value is no JSON text, when its hostname
    (on the kafka-consumer also its subnet) is missing, and when the
    authentication or the upstream call fails; a hostname request that
    lacks only its [requestId] is answered all the same. *)
Theorem undeliverable_requests_are_dropped :
  (forall env_topic now upstream message,
      value message = None \/ lacks message "hostname" \/
      (exists e, axios upstream = Throw e) ->
      Proxmox.eachMessage env_topic now upstream message = []) /\
  (forall env message st,
      value message = None \/
      (exists e, fst (authenticateIpam env st) = Throw e) \/
      (forall url token, exists e,
            axios (Ipam.upstream env (Get url token)) = Throw e) ->
      new_records (Ipam.eachMessage env message) st = []) /\
  (forall env_topic now service message,
      value message = None \/ lacks message "hostname" \/
      (forall data, exists e, axios (service None data) = Throw e) ->
      KafkaConsumer.processHostnameRequest env_topic now service message = []) /\
  (forall env_topic now check next message,
      value message = None \/ lacks message "subnetId" \/
      (forall data, exists e e',
            axios (check None data) = Throw e /\
            axios (next None data) = Throw e') ->
      KafkaConsumer.processIpRequest env_topic now check next message = []) /\
  (forall env_topic now hosts k fields h,
      lookup "hostname" fields = Some (JStr h) ->
      lookup "requestId" fields = None ->
      exists r,
        Proxmox.eachMessage env_topic now (inventory hosts)
                            (mkMessage k (Some (JObj fields))) = [r] /\
        lookup "requestId" (payload r) = None).
Proof.
  split; [| split; [| split; [| split]]].
  - intros env_topic now upstream message [Hv | [[request [Hv Hh]] | [e He]]].
    + apply proxmox_drops_non_string_hostname. intros request h Hv'.
      rewrite Hv in Hv'. discriminate Hv'.
    + apply proxmox_drops_non_string_hostname. intros request' h Hv'.
      rewrite Hv in Hv'. injection Hv' as <-. rewrite Hh. discriminate.
    + now apply (proxmox_drops_on_upstream_failure _ _ _ _ e).
  - exact ipam_drops.
  - intros env_topic now service message H.
    destruct (KafkaConsumer.processHostnameRequest env_topic now service message)
      as [| r rest] eqn:E; [reflexivity | exfalso].
    assert (Hin : In r (KafkaConsumer.processHostnameRequest env_topic now
                          service message)) by (rewrite E; now left).
    clear E. revert Hin.
    unfold KafkaConsumer.processHostnameRequest,
      KafkaConsumer.processHostnameRequest_try, JSON_parse, rbind,
      KafkaConsumer.axios_post.
    destruct (value message) as [request |] eqn:Hv; [| contradiction].
    destruct (prop request "hostname") as [hostname | e] eqn:Hh;
      [| contradiction].
    destruct (truthy hostname) eqn:Ht; cbn [negb]; [| contradiction].
    destruct (prop request "prefix") as [prefix | e]; [| contradiction].
    destruct H as [Hnone | [[request' [Hv' Hl]] | Hfail]].
    + congruence.
    + assert (request' = request) by congruence. subst request'.
      rewrite Hl in Hh. injection Hh as <-. discriminate Ht.
    + destruct (Hfail (wire_fields
                         (object [("hostname", hostname); ("prefix", prefix)])))
        as [e He].
      rewrite He. contradiction.
  - intros env_topic now check next message H.
    destruct (KafkaConsumer.processIpRequest env_topic now check next message)
      as [| r rest] eqn:E; [reflexivity | exfalso].
    assert (Hin : In r (KafkaConsumer.processIpRequest env_topic now check next
                          message)) by (rewrite E; now left).
    clear E. revert Hin.
    unfold KafkaConsumer.processIpRequest,
      KafkaConsumer.processIpRequest_try, JSON_parse, rbind,
      KafkaConsumer.axios_post.
    destruct (value message) as [request |] eqn:Hv; [| contradiction].
    destruct (prop request "subnetId") as [subnetId | e] eqn:Hs;
      [| contradiction].
    destruct (truthy subnetId) eqn:Ht; cbn [negb]; [| contradiction].
    destruct (prop request "ip") as [ip | e]; [| contradiction].
    destruct H as [Hnone | [[request' [Hv' Hl]] | Hfail]].
    + congruence.
    + assert (request' = request) by congruence. subst request'.
      rewrite Hl in Hs. injection Hs as <-. discriminate Ht.
    + destruct (truthy ip).
      * destruct (Hfail (wire_fields
                           (object [("ip", ip); ("subnetId", subnetId)])))
          as [e [e' [He _]]].
        rewrite He. contradiction.
      * destruct (Hfail (wire_fields (object [("subnetId", subnetId)])))
          as [e [e' [_ He]]].
        rewrite He. contradiction.
  - intros env_topic now hosts k fields h Hh Hid.
    destruct (eachMessage_inventory env_topic now hosts k (JObj fields) h)
      as [requestId [Hr He]]; [cbn [prop]; now rewrite Hh |].
    cbn [prop] in Hr. rewrite Hid in Hr. injection Hr as <-.
    eexists. split; [exact He |].
    cbn [payload]. apply lookup_object_head. absent_key.
Qed.

Lemma undeliverable_requests_are_dropped_witness :
  lacks HostExamples.nameless_r9 "hostname" /\
  Proxmox.eachMessage None "12:00" (inventory HostExamples.web1_to_web7)
                      HostExamples.nameless_r9 = [].
Proof.
  assert (H : lacks HostExamples.nameless_r9 "hostname").
  { eexists. split; reflexivity. }
  split; [exact H |].
  exact (proj1 undeliverable_requests_are_dropped None "12:00"
               (inventory HostExamples.web1_to_web7) HostExamples.nameless_r9
               (or_intror (or_introl H))).
Defined.

(** C6, as stated, fails: a hostname request without its required
    [requestId] is malformed, and is answered. *)
Lemma request_without_requestId_is_answered :
  malformed_hostname_request HostExamples.anonymous_web9 /\
  Proxmox.eachMessage None "12:00" (inventory HostExamples.web1_to_web7)
                      HostExamples.anonymous_web9
  = [mkRecord "hostname-responses" (Some "client-7")
       [("hostname", JStr "web9"); ("available", JBool true);
        ("timestamp", JStr "12:00")]].
Proof.
  split; [| reflexivity].
  right. left. eexists. split; reflexivity.
Qed.

(** The IPAM consumer does not look at [subnetId] before it asks phpIPAM:
    for a request without it, the subnet asked for is "undefined", and
    whatever phpIPAM answers is published. *)
Lemma ip_request_without_subnetId_is_forwarded :
  let env := IpamExamples.env_with (Some "secret")
               (IpamExamples.answering (JStr "10.0.0.5")) in
  let out := Ipam.eachMessage env IpamExamples.subnetless_r2 Ipam.initial in
  malformed_ip_request IpamExamples.subnetless_r2 /\
  calls (snd out)
  = [Get (IpamExamples.api ++ "/subnets/undefined/first_free/")
         (Some (JStr "secret"))] /\
  produced (snd out)
  = [mkRecord "ip-responses" (Some "client-7")
       [("requestId", JStr "r2"); ("ip", JStr "10.0.0.5");
        ("timestamp", JStr "2023-11-14T22:13:20.000Z")]].
Proof.
  intros env out. split; [| split; reflexivity].
  right. right. eexists. split; reflexivity.
Qed.

(** ** Requests for a specific address *)

(** C7.  A request on [ip-requests] that names the allocated address
    10.0.0.7 in subnet 10, evaluated: [POST /ipam/check-ip] decides that
    the address is not available, but the IPAM service's consumer never
    searches for it; it asks for the first free address of the subnet
    and publishes that one, 10.0.0.5, under [ip], without any
    [available] field.  The kafka-consumer, which would ask
    [/ipam/check-ip], is refused by the service and publishes nothing. *)
Theorem ip_request_with_address_gets_first_free :
  let env := IpamExamples.env_with (Some "secret") IpamExamples.phpipam in
  let out := Ipam.eachMessage env IpamExamples.r1_10_0_0_7 Ipam.initial in
  IpamExamples.checked_available env = Some (JBool false) /\
  calls (snd out)
  = [Get (IpamExamples.api ++ "/subnets/10/first_free/") (Some (JStr "secret"))] /\
  produced (snd out)
  = [mkRecord "ip-responses" (Some "client-7")
       [("requestId", JStr "r1"); ("subnetId", JStr "10");
        ("ip", JStr "10.0.0.5");
        ("timestamp", JStr "2023-11-14T22:13:20.000Z")]] /\
  (forall r, In r (produced (snd out)) -> lookup "available" (payload r) = None) /\
  (forall st st' now,
      KafkaConsumer.processIpRequest None now
        (KafkaConsumer.ipam_check_ip_service env st)
        (KafkaConsumer.ipam_next_available_service env st')
        IpamExamples.r1_10_0_0_7 = []).
Proof.
  intros env out. split; [reflexivity |]. split; [reflexivity |].
  split; [reflexivity |]. split.
  - intros r [<- | []]. reflexivity.
  - intros st st' now. apply relay_ip_silent.
Qed.

(** ** Calls to phpIPAM: one attempt, no retry *)

Lemma new_calls_proper {A} (m : M A) (st : State) (out : Result A * State) :
  m st = out -> new_calls m st = skipn (List.length (calls st)) (calls (snd out)).
Proof. intros <-. reflexivity. Qed.

Lemma single_attempt_get (env : Env) (logins : list Call) (url : string)
      (token : Js.value) :
  logins = [] \/ logins = [login env] ->
  single_attempt env (logins ++ [Get url token]).
Proof.
  intros [-> | ->]; right; right; exists url, token; [left | right];
    reflexivity.
Qed.

Lemma single_attempt_logins (env : Env) (logins : list Call) :
  logins = [] \/ logins = [login env] -> single_attempt env logins.
Proof. intros [-> | ->]; [left | right; left]; reflexivity. Qed.

(** The calls of a handler that authenticates and then issues one [GET],
    and its result in terms of the reply to that [GET]. *)
Lemma next_available_attempt (env : Env) (body : list (string * json))
      (st : State) :
  let out := next_available env body st in
  let failed := internal_error "Failed to get next available IP address" in
  single_attempt env (new_calls (next_available env body) st) /\
  forall url token,
    In (Get url token) (new_calls (next_available env body) st) ->
    url = Run.first_free_url env (lookup "subnetId" body) /\
    fst out
    = Ok match axios (upstream env (Get url token)) with
         | Throw _ => failed
         | Ok response =>
             match prop response "data" with
             | Throw _ => failed
             | Ok ip =>
                 mkResponse 200
                   (object [("ip", ip); ("subnetId", lookup "subnetId" body)])
             end
         end.
Proof.
  intros out failed. subst out.
  destruct (truthy (lookup "subnetId" body)) eqn:Hs.
  - rewrite (new_calls_proper _ _ _ (next_available_steps_eq env body st Hs)).
    rewrite (next_available_steps_eq env body st Hs).
    unfold Run.next_available_steps.
    destruct (authenticateIpam_effect env st) as [logins [Hl [Hc _]]].
    destruct (authenticateIpam env st) as [[tok | e] st0]; cbn [snd] in Hc.
    + cbv zeta. cbn [fst snd Run.with_call calls]. rewrite Hc, <- app_assoc.
      rewrite skipn_app_length. split; [now apply single_attempt_get |].
      intros url token Hin. apply in_app_or in Hin as [Hin | [Hin | []]].
      * destruct Hl as [-> | ->]; [contradiction |].
        destruct Hin as [Hin | []]. discriminate Hin.
      * injection Hin as <- <-. split; reflexivity.
    + cbn [fst snd]. rewrite Hc, skipn_app_length.
      split; [now apply single_attempt_logins |].
      intros url token Hin. destruct Hl as [-> | ->]; [contradiction |].
      destruct Hin as [Hin | []]. discriminate Hin.
  - rewrite (new_calls_proper _ _ _ (proj1 (without_subnet env body st Hs))).
    cbn [snd]. rewrite skipn_all. split; [now left | contradiction].
Qed.

Lemma check_ip_attempt (env : Env) (body : list (string * json)) (st : State) :
  single_attempt env (new_calls (check_ip env body) st) /\
  forall url token e,
    In (Get url token) (new_calls (check_ip env body) st) ->
    axios (upstream env (Get url token)) = Throw e ->
    fst (check_ip env body st)
    = Ok (internal_error "Failed to check IP address availability").
Proof.
  destruct (truthy (lookup "subnetId" body)) eqn:Hs.
  - rewrite (new_calls_proper _ _ _ (check_ip_steps_eq env body st Hs)).
    rewrite (check_ip_steps_eq env body st Hs).
    unfold Run.check_ip_steps.
    destruct (authenticateIpam_effect env st) as [logins [Hl [Hc _]]].
    destruct (authenticateIpam env st) as [[tok | e] st0]; cbn [snd] in Hc.
    + destruct (truthy (lookup "ip" body)).
      * cbv zeta. cbn [fst snd Run.with_call calls]. rewrite Hc, <- app_assoc.
        rewrite skipn_app_length. split; [now apply single_attempt_get |].
        intros url token e Hin Ha.
        apply in_app_or in Hin as [Hin | [Hin | []]].
        -- destruct Hl as [-> | ->]; [contradiction |].
           destruct Hin as [Hin | []]. discriminate Hin.
        -- injection Hin as <- <-. now rewrite Ha.
      * cbn [fst snd]. rewrite Hc, skipn_app_length.
        split; [now apply single_attempt_logins |].
        intros url token e Hin. destruct Hl as [-> | ->]; [contradiction |].
        destruct Hin as [Hin | []]. discriminate Hin.
    + cbn [fst snd]. rewrite Hc, skipn_app_length.
      split; [now apply single_attempt_logins |]. reflexivity.
  - rewrite (new_calls_proper _ _ _ (proj2 (without_subnet env body st Hs))).
    cbn [snd]. rewrite skipn_all. split; [now left | contradiction].
Qed.

Lemma eachMessage_attempt (env : Env) (message : Message) (st : State) :
  single_attempt env (new_calls (Ipam.eachMessage env message) st) /\
  forall url token e,
    In (Get url token) (new_calls (Ipam.eachMessage env message) st) ->
    axios (upstream env (Get url token)) = Throw e ->
    new_records (Ipam.eachMessage env message) st = [].
Proof.
  unfold new_records.
  rewrite (new_calls_proper _ _ _ (eachMessage_steps_eq env message st)).
  rewrite (eachMessage_steps_eq env message st).
  unfold Run.eachMessage_steps.
  destruct (value message) as [request |];
    [| cbn [snd]; rewrite skipn_all; split; [now left | contradiction]].
  destruct (prop request "subnetId") as [subnetId | e];
    [| cbn [snd]; rewrite skipn_all; split; [now left | contradiction]].
  destruct (authenticateIpam_effect env st) as [logins [Hl [Hc Hp]]].
  destruct (authenticateIpam env st) as [[tok | e] st0]; cbn [snd] in Hc, Hp.
  - cbv zeta.
    set (c := Get (Run.first_free_url env subnetId) (header_token st0)).
    assert (Hin : forall url token,
               In (Get url token) (logins ++ [c]) -> Get url token = c).
    { intros url token H. apply in_app_or in H as [H | [H | []]]; [| now symmetry].
      destruct Hl as [-> | ->]; [contradiction |].
      destruct H as [H | []]. discriminate H. }
    destruct (axios (upstream env c)) as [response | e] eqn:Ha.
    + destruct (prop response "data") as [ip | e];
        [destruct (prop request "requestId") as [requestId | e] |];
        cbn [snd Run.with_record Run.with_call calls produced];
        rewrite Hc, <- app_assoc, skipn_app_length;
        (split; [now apply single_attempt_get |]);
        intros url token e' H Ha'; apply Hin in H; rewrite H in Ha';
        rewrite Ha in Ha'; discriminate Ha'.
    + cbn [snd Run.with_call calls produced].
      rewrite Hc, <- app_assoc, skipn_app_length, Hp, skipn_all.
      split; [now apply single_attempt_get | reflexivity].
  - cbn [snd]. rewrite Hc, Hp, skipn_app_length, skipn_all.
    split; [now apply single_attempt_logins | reflexivity].
Qed.

Lemma axios_rejects (r : Reply) (code : Z) (data : json) :
  r = Status code data -> validateStatus code = false ->
  axios r = Throw (AxiosError (Some code)).
Proof. intros -> Hv. cbn [axios]. now rewrite Hv. Qed.

Lemma next_available_rejected (env : Env) (body : list (string * json))
      (st : State) (url : string) (token : Js.value) (code : Z) (data : json) :
  In (Get url token) (new_calls (next_available env body) st) ->
  upstream env (Get url token) = Status code data ->
  validateStatus code = false ->
  fst (next_available env body st)
  = Ok (internal_error "Failed to get next available IP address").
Proof.
  intros Hin Hu Hv.
  destruct (next_available_attempt env body st) as [_ Hget].
  destruct (Hget url token Hin) as [_ ->].
  now rewrite (axios_rejects _ code data Hu Hv).
Qed.

(** C8, as the code has it.  A handler of the IPAM service makes at most
    one login, before its call, and at most one [GET]; when phpIPAM
    rejects that [GET], with 401 or any other status outside 2xx,
    nothing follows it: the HTTP handler answers with its internal
    error, the consumer publishes nothing. *)
Theorem rejected_call_is_not_retried (env : Env) (st : State) :
  (forall body,
      single_attempt env (new_calls (next_available env body) st) /\
      forall url token code data,
        In (Get url token) (new_calls (next_available env body) st) ->
        upstream env (Get url token) = Status code data ->
        validateStatus code = false ->
        fst (next_available env body st)
        = Ok (internal_error "Failed to get next available IP address")) /\
  (forall body,
      single_attempt env (new_calls (check_ip env body) st) /\
      forall url token code data,
        In (Get url token) (new_calls (check_ip env body) st) ->
        upstream env (Get url token) = Status code data ->
        validateStatus code = false ->
        fst (check_ip env body st)
        = Ok (internal_error "Failed to check IP address availability")) /\
  (forall message,
      single_attempt env (new_calls (Ipam.eachMessage env message) st) /\
      forall url token code data,
        In (Get url token) (new_calls (Ipam.eachMessage env message) st) ->
        upstream env (Get url token) = Status code data ->
        validateStatus code = false ->
        new_records (Ipam.eachMessage env message) st = []).
Proof.
  split; [| split].
  - intros body. split; [apply next_available_attempt |].
    intros url token code data. apply next_available_rejected.
  - intros body. destruct (check_ip_attempt env body st) as [Hs Hget].
    split; [exact Hs |]. intros url token code data Hin Hu Hv.
    exact (Hget url token _ Hin (axios_rejects _ code data Hu Hv)).
  - intros message. destruct (eachMessage_attempt env message st) as [Hs Hget].
    split; [exact Hs |]. intros url token code data Hin Hu Hv.
    exact (Hget url token _ Hin (axios_rejects _ code data Hu Hv)).
Qed.

Lemma rejected_call_is_not_retried_witness :
  let env := IpamExamples.env_with None IpamExamples.expiring in
  let data := JObj [("code", JNum 401); ("message", JStr "Unauthorized")] in
  (In IpamExamples.first_free_10
      (new_calls (next_available env IpamExamples.subnet10) IpamExamples.stale) /\
   upstream env IpamExamples.first_free_10 = Status 401 data /\
   validateStatus 401 = false) /\
  fst (next_available env IpamExamples.subnet10 IpamExamples.stale)
  = Ok (internal_error "Failed to get next available IP address").
Proof.
  intros env data.
  assert (H1 : In IpamExamples.first_free_10
                  (new_calls (next_available env IpamExamples.subnet10)
                             IpamExamples.stale)) by (left; reflexivity).
  assert (H2 : upstream env IpamExamples.first_free_10 = Status 401 data)
    by reflexivity.
  assert (H3 : validateStatus 401 = false) by reflexivity.
  split; [repeat split; assumption |].
  exact (proj2 (proj1 (rejected_call_is_not_retried env IpamExamples.stale)
                      IpamExamples.subnet10)
               _ _ 401%Z data H1 H2 H3).
Defined.

(** C8, as stated, fails: the cached token has expired at phpIPAM, which
    answers 401 to the call and would give a fresh token and serve the
    retry; the handler makes that one call and nothing else, and answers
    with its internal error. *)
Lemma rejected_call_gets_no_second_attempt :
  let env := IpamExamples.env_with None IpamExamples.expiring in
  let out := next_available env IpamExamples.subnet10 IpamExamples.stale in
  (exists data, upstream env IpamExamples.first_free_10 = Status 401 data) /\
  upstream env (login env)
  = Status 200 (JObj [("data", JObj [("token", JStr "fresh")])]) /\
  calls (snd out) = [IpamExamples.first_free_10] /\
  ~ retried_once (calls (snd out)) /\
  fst out = Ok (internal_error "Failed to get next available IP address").
Proof.
  intros env out. split; [eexists; reflexivity |].
  split; [reflexivity |]. split; [reflexivity |]. split; [| reflexivity].
  intros [before [url [token [l [credentials [token' H]]]]]].
  apply (f_equal (@List.length Call)) in H.
  rewrite length_app in H. cbn in H. lia.
Qed.

(** ** A subnet without a free address *)

(** C9, as the code has it.  When phpIPAM rejects the request for the
    first free address, as it does for a subnet that has none, the answer
    of [POST /ipam/next-available] is the internal error, the same as for
    every other failure; and whatever phpIPAM does, the answer is that
    error, the bad request for a missing subnet, or a success. *)
Theorem exhausted_subnet_is_internal_error
        (env : Env) (body : list (string * json)) (st : State) :
  let failed := internal_error "Failed to get next available IP address" in
  (forall url token code data,
      In (Get url token) (new_calls (next_available env body) st) ->
      upstream env (Get url token) = Status code data ->
      validateStatus code = false ->
      fst (next_available env body st) = Ok failed /\
      kind_of failed = Some InternalError) /\
  exists r,
    fst (next_available env body st) = Ok r /\
    (r = error_response 400 "Bad Request" "Subnet ID is required" \/
     r = failed \/
     exists ip,
       r = mkResponse 200 (object [("ip", ip);
                                   ("subnetId", lookup "subnetId" body)])).
Proof.
  intros failed. split.
  - intros url token code data Hin Hu Hv. split; [| reflexivity].
    exact (next_available_rejected env body st url token code data Hin Hu Hv).
  - destruct (truthy (lookup "subnetId" body)) eqn:Hs.
    + rewrite (next_available_steps_eq env body st Hs).
      unfold Run.next_available_steps.
      destruct (authenticateIpam env st) as [[tok | e] st0]; cbn [fst].
      * cbv zeta. eexists. split; [reflexivity |].
        destruct (axios _) as [response | e]; [| now right; left].
        destruct (prop response "data") as [ip | e]; [| now right; left].
        right. right. now exists ip.
      * eexists. split; [reflexivity | now right; left].
    + rewrite (proj1 (without_subnet env body st Hs)).
      eexists. split; [reflexivity | now left].
Qed.

Lemma exhausted_subnet_is_internal_error_witness :
  let env := IpamExamples.env_with (Some "secret") IpamExamples.exhausted in
  let c := Get (IpamExamples.api ++ "/subnets/10/first_free/")
               (Some (JStr "secret")) in
  let data := JObj [("code", JNum 404); ("success", JBool false);
                    ("message", JStr "No free addresses found")] in
  (In c (new_calls (next_available env IpamExamples.subnet10) Ipam.initial) /\
   upstream env c = Status 404 data /\ validateStatus 404 = false) /\
  fst (next_available env IpamExamples.subnet10 Ipam.initial)
  = Ok (internal_error "Failed to get next available IP address").
Proof.
  intros env c data.
  assert (H1 : In c (new_calls (next_available env IpamExamples.subnet10)
                               Ipam.initial)) by (left; reflexivity).
  assert (H2 : upstream env c = Status 404 data) by reflexivity.
  assert (H3 : validateStatus 404 = false) by reflexivity.
  split; [repeat split; assumption |].
  exact (proj1 (proj1 (exhausted_subnet_is_internal_error
                         env IpamExamples.subnet10 Ipam.initial)
                      _ _ 404%Z data H1 H2 H3)).
Defined.

(** C9, as stated, fails: for a subnet that phpIPAM reports to have no
    free address the answer is the internal error, indistinguishable from
    the answer given when phpIPAM cannot be reached at all. *)
Lemma exhausted_subnet_answer_is_not_distinct :
  let answer upstream :=
    fst (next_available (IpamExamples.env_with (Some "secret") upstream)
                        IpamExamples.subnet10 Ipam.initial) in
  answer IpamExamples.exhausted
  = Ok (mkResponse 500
          [("error", JStr "Internal Server Error");
           ("message", JStr "Failed to get next available IP address")]) /\
  answer IpamExamples.exhausted = answer IpamExamples.unreachable /\
  (forall r, answer IpamExamples.exhausted = Ok r ->
             kind_of r = Some InternalError /\ kind_of r <> Some NoCapacity).
Proof.
  intros answer. split; [reflexivity |]. split; [reflexivity |].
  intros r H. injection H as <-. split; [reflexivity | discriminate].
Qed.

(** ** The unescaped prefix *)

(** C10, as the code has it.  The prefix goes into the pattern unescaped,
    but only names that have passed [startsWith(prefixLower)] are matched
    against it: every name that is numbered begins with the prefix,
    compared case-insensitively.  For a prefix of ordinary characters and
    dots, such as "web.", the suggestions are therefore the ones of the
    literal reading, as long as the numbers that end the names stay
    below 2^53 - 3, where the doubles of the code are exact.  They can
    differ when a name itself holds the
    pattern characters of the prefix: with the prefix "x.*" and the host
    "x.*12" the code numbers from 2, the literal reading from 12. *)
Theorem unescaped_prefix_is_guarded (engine : Regex.Engine) :
  (forall hosts prefix names n,
      existingPrefixNames (map vm_of hosts) (toLowerCase prefix) = Ok names ->
      In n names ->
      startsWith (toLowerCase n) (toLowerCase prefix) = true) /\
  (forall hosts prefix,
      prefix <> "" -> dotted prefix = true ->
      safe_names (map name hosts) = true ->
      exists N,
        (0 <= N)%Z /\
        maximal_suffix prefix (map name hosts) N /\
        suggest engine (map vm_of hosts) (Some (JStr prefix))
        = Ok (candidates prefix N)) /\
  (let hosts := [HostExamples.vm "x.*12"] in
   suggest engine (map vm_of hosts) (Some (JStr "x.*"))
   = Ok (candidates "x.*" 2) /\
   maximal_suffix "x.*" (map name hosts) 12 /\
   candidates "x.*" 2 <> candidates "x.*" 12).
Proof.
  split; [| split].
  - intros hosts prefix names n H Hin.
    exact (proj1 (scanned_names_start_with_prefix hosts prefix names n H Hin)).
  - intros hosts prefix Hne Hd Hsafe.
    exists (max_trailing prefix (map name hosts) 0).
    split; [apply max_trailing_bounds |].
    split; [apply max_trailing_maximal | now apply suggest_literal].
  - intros hosts. split; [reflexivity |]. split; [| discriminate].
    apply (max_trailing_maximal "x.*" (map name hosts)).
Qed.

Lemma unescaped_prefix_is_guarded_witness :
  let hosts := [HostExamples.vm "web.3"; HostExamples.vm "webx9"; HostExamples.vm "WEB.7"] in
  ("web." <> "" /\ dotted "web." = true /\
   safe_names (map name hosts) = true) /\
  exists N,
    (0 <= N)%Z /\
    maximal_suffix "web." (map name hosts) N /\
    suggest HostExamples.no_engine (map vm_of hosts) (Some (JStr "web."))
    = Ok (candidates "web." N).
Proof.
  intros hosts.
  assert (H1 : "web." <> "") by discriminate.
  assert (H2 : dotted "web." = true) by reflexivity.
  assert (H3 : safe_names (map name hosts) = true) by reflexivity.
  split; [repeat split; assumption |].
  exact (proj1 (proj2 (unescaped_prefix_is_guarded HostExamples.no_engine))
               hosts "web." H1 H2 H3).
Defined.

(** C10, as stated, fails: there is no prefix, host list and name such
    that the name is among those the pattern is applied to, and so could
    determine the maximal suffix, without beginning with the prefix. *)
Lemma no_name_outside_the_prefix_is_numbered :
  ~ exists hosts prefix names n,
      existingPrefixNames (map vm_of hosts) (toLowerCase prefix) = Ok names /\
      In n names /\
      startsWith (toLowerCase n) (toLowerCase prefix) = false.
Proof.
  intros [hosts [prefix [names [n [H [Hin Hout]]]]]].
  destruct (scanned_names_start_with_prefix hosts prefix names n H Hin)
    as [Hs _].
  rewrite Hs in Hout. discriminate Hout.
Qed.

(** * Further properties of the code *)

(** ** The group captured by the pattern *)

Lemma star_continues {T} (a : Regex.atom) (k : string -> option T)
      (s : string) (v : T) :
  Regex.star a k s = Some v -> exists p rest, s = p ++ rest /\ k rest = Some v.
Proof.
  induction s as [| c r IH]; cbn [Regex.star]; intros H.
  - exists "", "". now split.
  - destruct (Regex.atom_matches a c).
    + destruct (Regex.star a k r) as [w |] eqn:E.
      * injection H as ->. destruct (IH eq_refl) as [p [rest [-> Hk]]].
        exists (String c p), rest. now split.
      * exists "", (String c r). now split.
    + exists "", (String c r). now split.
Qed.

Lemma match_items_continues {T} (items : list Regex.item)
      (k : string -> option T) (s : string) (v : T) :
  Regex.match_items items k s = Some v ->
  exists p rest, s = p ++ rest /\ k rest = Some v.
Proof.
  revert s. induction items as [| [a q] more IH]; intros s H.
  - exists "", s. now split.
  - cbn [Regex.match_items] in H.
    assert (Hskip : Regex.match_items more k s = Some v ->
                    exists p rest, s = p ++ rest /\ k rest = Some v)
      by apply IH.
    assert (Htake : forall c r, s = String c r ->
                                Regex.match_items more k r = Some v ->
                                exists p rest, s = p ++ rest /\ k rest = Some v).
    { intros c r -> Hr. destruct (IH r Hr) as [p [rest [-> Hk]]].
      exists (String c p), rest. now split. }
    assert (Hstar : forall r, Regex.star a (Regex.match_items more k) r = Some v ->
                              exists p rest, r = p ++ rest /\ k rest = Some v).
    { intros r Hr. destruct (star_continues _ _ _ _ Hr) as [p [mid [-> Hm]]].
      destruct (IH mid Hm) as [p' [rest [-> Hk]]].
      exists (p ++ p'), rest. split; [| exact Hk].
      clear. induction p as [| c p IHp]; [reflexivity |].
      cbn [append]. now rewrite IHp. }
    destruct q, s as [| c r]; try discriminate H; auto.
    + destruct (Regex.atom_matches a c); [eauto | discriminate H].
    + destruct (Regex.atom_matches a c); [| auto].
      destruct (Regex.match_items more k r) eqn:E; [| auto].
      injection H as ->. eauto.
    + destruct (Regex.atom_matches a c); [| discriminate H].
      destruct (Hstar r H) as [p [rest [-> Hk]]].
      exists (String c p), rest. now split.
Qed.

(** Whatever the items of the prefix, group 1 of a match is a non-empty
    run of digits that ends the name. *)
Lemma exec_group (items : list Regex.item) (name group1 : string) :
  Regex.exec items name = Some group1 ->
  group1 <> "" /\ all_digits group1 = true /\ exists p, name = p ++ group1.
Proof.
  unfold Regex.exec. intros H.
  destruct (match_items_continues _ _ _ _ H) as [p [gs [-> Hg]]].
  change (Regex.match_items [(Regex.ADigit, Regex.Plus)] (Aux.group_k gs) gs
          = Some group1) in Hg.
  rewrite match_group in Hg.
  destruct (String.eqb_spec gs "") as [| Hne]; [discriminate Hg |].
  cbn [negb andb] in Hg. destruct (all_digits gs) eqn:Hd; [| discriminate Hg].
  injection Hg as <-. split; [exact Hne |]. split; [exact Hd | now exists p].
Qed.

Lemma highest_in_fragment (engine : Regex.Engine) (prefix : string)
      (items : list Regex.item) (names : list string) (start : Z) :
  Regex.parse prefix = Some items ->
  safe_names names = true ->
  exists N,
    highest engine prefix names (Number.Finite start) = Ok (Number.Finite N) /\
    (start <= N)%Z /\
    (N = start \/
     exists name p digits,
       In name names /\ name = p ++ digits /\ digits <> "" /\
       all_digits digits = true /\ N = digits_value 0 digits).
Proof.
  intros Hp. revert start.
  induction names as [| name rest IH]; intros start Hsafe.
  - exists start. cbn. split; [reflexivity |]. split; [lia | now left].
  - apply safe_names_cons in Hsafe as [Hs Hrest].
    cbn [highest]. unfold highest_step, Regex.js_match. rewrite Hp.
    destruct (Regex.exec items name) as [g |] eqn:E; cbn [option_map rbind].
    + destruct (exec_group items name g E) as [Hne [Hd [p Hn]]].
      assert (Hform : negb (String.eqb g "") && all_digits g = true).
      { rewrite Hd. destruct (String.eqb_spec g ""); [contradiction | reflexivity]. }
      rewrite (parseInt_digits g Hform).
      apply andb_prop in Hform as [Hne' _]. rewrite Hne'.
      rewrite Hn in Hs. destruct (safe_suffix p g Hs Hd) as [H0 H3].
      rewrite of_Z_small by lia. cbn [Number.ltb rbind].
      assert (Hif : (if (start <? digits_value 0 g)%Z
                     then Number.Finite (digits_value 0 g)
                     else Number.Finite start)
                    = Number.Finite (if (start <? digits_value 0 g)%Z
                                     then digits_value 0 g else start))
        by now destruct (start <? digits_value 0 g)%Z.
      rewrite Hif.
      destruct (IH (if (start <? digits_value 0 g)%Z
                    then digits_value 0 g else start) Hrest)
        as [N [HN [Hle Hwit]]].
      exists N. split; [exact HN |].
      destruct (Z.ltb_spec start (digits_value 0 g)) as [Hlt | Hge].
      * split; [lia |]. right.
        destruct Hwit as [-> | [n [p' [d [Hin H]]]]].
        -- exists name, p, g. repeat split; [now left | assumption ..].
        -- exists n, p', d. split; [now right | exact H].
      * split; [exact Hle |].
        destruct Hwit as [-> | [n [p' [d [Hin H]]]]]; [now left |].
        right. exists n, p', d. split; [now right | exact H].
    + destruct (IH start Hrest) as [N [HN [Hle Hwit]]].
      exists N. split; [exact HN |]. split; [exact Hle |].
      destruct Hwit as [-> | [n [p' [d [Hin H]]]]]; [now left |].
      right. exists n, p', d. split; [now right | exact H].
Qed.

(** X1.  For a free hostname, a non-empty prefix whose pattern is in the
    executed fragment (ordinary characters and [.], each with at most
    one of [*], [+], [?]) and names whose trailing numbers stay below
    2^53 - 3, the check never fails on the pattern: it answers three
    suggestions numbered after [N], where [N] is 0 or the number written
    by the digits that end the name of some host that begins with the
    prefix. *)
Theorem suggestions_number_after_a_digit_suffix
        (engine : Regex.Engine) (hosts : list Host)
        (body : list (string * json)) (h prefix : string)
        (items : list Regex.item) :
  lookup "hostname" body = Some (JStr h) -> h <> "" -> ~ taken hosts h ->
  lookup "prefix" body = Some (JStr prefix) -> prefix <> "" ->
  Regex.parse prefix = Some items ->
  safe_names (map name hosts) = true ->
  exists N,
    check_hostname engine (inventory hosts) body
    = free_response (candidates prefix N) /\
    (0 <= N)%Z /\
    (N = 0%Z \/
     exists host p digits,
       In host hosts /\
       startsWith (toLowerCase (name host)) (toLowerCase prefix) = true /\
       name host = p ++ digits /\ digits <> "" /\ all_digits digits = true /\
       N = digits_value 0 digits).
Proof.
  intros Hh Hne Ht Hp Hpne Hparse Hsafe.
  rewrite (check_hostname_free engine hosts body h Hh Hne Ht), Hp.
  unfold suggest. rewrite (truthy_string prefix Hpne).
  cbn [call_toLowerCase rbind template toString].
  rewrite existingPrefixNames_inventory. cbn [rbind].
  destruct (highest_in_fragment engine prefix items
              (filter (fun n => startsWith (toLowerCase n) (toLowerCase prefix))
                      (map name hosts)) 0 Hparse
              (safe_names_filter _ _ Hsafe))
    as [N [HN [Hle Hwit]]].
  rewrite HN. cbn [rbind]. exists N.
  assert (Hsmall : (N + 3 < 2 ^ 53)%Z).
  { destruct Hwit as [-> | [n [p [d [Hin [Hn [_ [Hd ->]]]]]]]]; [reflexivity |].
    apply filter_In in Hin as [Hin _]. subst n.
    apply (safe_suffix p d); [| exact Hd].
    now apply (safe_names_In (map name hosts)). }
  rewrite (numbered_small prefix N Hle Hsmall).
  split; [reflexivity |]. split; [exact Hle |].
  destruct Hwit as [-> | [n [p [d [Hin [Hn H]]]]]]; [now left |].
  right. apply filter_In in Hin as [Hin Hs].
  apply in_map_iff in Hin as [host [Hname Hhost]]. subst n.
  exists host, p, d. repeat split; tauto.
Qed.

Lemma suggestions_number_after_a_digit_suffix_witness :
  existingPrefixNames (map vm_of HostExamples.srv_hosts) (toLowerCase "srv.+")
  = Ok ["srv.+12"; "srv.+3"] /\
  exists N,
    check_hostname HostExamples.no_engine (inventory HostExamples.srv_hosts)
      (HostExamples.check_body "new" "srv.+")
    = free_response (candidates "srv.+" N) /\
    (0 <= N)%Z /\
    (N = 0%Z \/
     exists host p digits,
       In host HostExamples.srv_hosts /\
       startsWith (toLowerCase (name host)) (toLowerCase "srv.+") = true /\
       name host = p ++ digits /\ digits <> "" /\ all_digits digits = true /\
       N = digits_value 0 digits).
Proof.
  assert (H1 : lookup "hostname" (HostExamples.check_body "new" "srv.+")
               = Some (JStr "new")) by reflexivity.
  assert (H2 : "new" <> "") by discriminate.
  assert (H3 : ~ taken HostExamples.srv_hosts "new").
  { intros Ht. apply existsb_taken in Ht. discriminate Ht. }
  assert (H4 : lookup "prefix" (HostExamples.check_body "new" "srv.+")
               = Some (JStr "srv.+")) by reflexivity.
  assert (H5 : "srv.+" <> "") by discriminate.
  assert (H6 : Regex.parse "srv.+"
               = Some [(Regex.AChar "s", Regex.One); (Regex.AChar "r", Regex.One);
                       (Regex.AChar "v", Regex.One); (Regex.ADot, Regex.Plus)])
    by reflexivity.
  assert (H7 : safe_names (map name HostExamples.srv_hosts) = true)
    by reflexivity.
  split; [reflexivity |].
  exact (suggestions_number_after_a_digit_suffix
           HostExamples.no_engine HostExamples.srv_hosts _ "new" "srv.+" _
           H1 H2 H3 H4 H5 H6 H7).
Defined.

(** The pattern is executed in that example: [.+] gives digits back to
    the group, and the suggestions number from 3, not from 12. *)
Lemma pattern_with_quantifier_is_executed :
  check_hostname HostExamples.no_engine (inventory HostExamples.srv_hosts)
    (HostExamples.check_body "new" "srv.+")
  = free_response ["srv.+4"; "srv.+5"; "srv.+6"].
Proof. reflexivity. Qed.

(** ** Decimal numerals *)

Ltac ascii_code :=
  match goal with
  | |- context [Z.of_N (N_of_ascii ?c)] =>
      let v := eval vm_compute in (Z.of_N (N_of_ascii c)) in
      change (Z.of_N (N_of_ascii c)) with v
  end.

Lemma all_digits_string_of_uint (d : Decimal.uint) :
  all_digits (NilEmpty.string_of_uint d) = true.
Proof. induction d; cbn; auto. Qed.

Lemma digits_value_of_uint_acc (d : Decimal.uint) (acc : positive) :
  digits_value (Zpos acc) (NilEmpty.string_of_uint d)
  = Zpos (Pos.of_uint_acc d acc).
Proof.
  revert acc. induction d; intros acc;
    cbn [NilEmpty.string_of_uint digits_value Pos.of_uint_acc];
    [reflexivity | ..];
    match goal with
    | |- digits_value ?z _ = Zpos (Pos.of_uint_acc _ ?p) =>
        replace z with (Zpos p) by (ascii_code; lia)
    end; apply IHd.
Qed.

Lemma digits_value_of_uint (d : Decimal.uint) :
  digits_value 0 (NilEmpty.string_of_uint d) = Z.of_N (Pos.of_uint d).
Proof.
  induction d; cbn [NilEmpty.string_of_uint digits_value Pos.of_uint];
    [reflexivity | exact IHd | ..];
    match goal with
    | |- digits_value ?z _ = Z.of_N (Npos (Pos.of_uint_acc _ ?p)) =>
        replace z with (Zpos p) by (ascii_code; lia)
    end; apply digits_value_of_uint_acc.
Qed.

(** The numeral of a non-negative number is a non-empty run of digits
    that writes it. *)
Lemma decimalZ_digits (n : Z) :
  (0 <= n)%Z ->
  decimalZ n <> "" /\ all_digits (decimalZ n) = true /\
  digits_value 0 (decimalZ n) = n.
Proof.
  intros Hn. destruct n as [| p | p]; [| | lia].
  - repeat split. discriminate.
  - unfold decimalZ. cbn [Z.to_int NilZero.string_of_int].
    assert (Hs : NilZero.string_of_uint (Pos.to_uint p)
                 = NilEmpty.string_of_uint (Pos.to_uint p)).
    { pose proof (DecimalPos.Unsigned.to_uint_nonnil p).
      destruct (Pos.to_uint p); [contradiction | reflexivity ..]. }
    rewrite Hs. split.
    + pose proof (DecimalPos.Unsigned.to_uint_nonnil p).
      destruct (Pos.to_uint p); [contradiction | discriminate ..].
    + split; [apply all_digits_string_of_uint |].
      rewrite digits_value_of_uint, DecimalPos.Unsigned.of_to. reflexivity.
Qed.

Lemma decimalZ_inj (n m : Z) :
  (0 <= n)%Z -> (0 <= m)%Z -> decimalZ n = decimalZ m -> n = m.
Proof.
  intros Hn Hm H.
  destruct (decimalZ_digits n Hn) as [_ [_ <-]].
  destruct (decimalZ_digits m Hm) as [_ [_ <-]].
  now rewrite H.
Qed.

Lemma append_inj_l (p a b : string) : p ++ a = p ++ b -> a = b.
Proof.
  induction p as [| c p IH]; cbn [append]; intros H; [exact H |].
  injection H as H. now apply IH.
Qed.

Lemma digit_is_lower (c : ascii) :
  is_digit (lower_ascii c) = true -> lower_ascii c = c.
Proof.
  destruct c as [[] [] [] [] [] [] [] []]; intros H;
    first [reflexivity | discriminate H].
Qed.

Lemma toLowerCase_digits (s digits : string) :
  all_digits digits = true -> toLowerCase s = digits -> s = digits.
Proof.
  revert digits. induction s as [| c r IH]; intros digits Hd H.
  - exact H.
  - cbn [toLowerCase] in H. subst digits. cbn [all_digits] in Hd.
    apply andb_prop in Hd as [Hc Hr].
    rewrite (digit_is_lower c Hc). f_equal. now apply IH.
Qed.

(** A name that equals [<prefix><digits>] case-insensitively has the form
    [<prefix><digits>]. *)
Lemma lowered_name_has_form (prefix name digits : string) :
  digits <> "" -> all_digits digits = true ->
  toLowerCase name = toLowerCase (prefix ++ digits) ->
  has_form prefix name (digits_value 0 digits).
Proof.
  intros Hne Hd H. rewrite toLowerCase_app in H.
  assert (Hs : exists rest, strip_prefix prefix name = Some rest /\
                            toLowerCase rest = toLowerCase digits).
  { clear Hne Hd. revert name H.
    induction prefix as [| a p IH]; intros name H.
    - exists name. now split.
    - destruct name as [| b n]; [discriminate H |].
      cbn [toLowerCase append] in H. injection H as Hc Hr.
      cbn [strip_prefix]. rewrite Hc, Ascii.eqb_refl. now apply IH. }
  destruct Hs as [rest [Hs Hl]].
  assert (Hld : toLowerCase digits = digits).
  { clear - Hd. induction digits as [| c r IH]; [reflexivity |].
    cbn [all_digits] in Hd. apply andb_prop in Hd as [Hc Hr].
    cbn [toLowerCase]. rewrite (IH Hr). f_equal.
    destruct c as [[] [] [] [] [] [] [] []];
      first [reflexivity | discriminate Hc]. }
  rewrite Hld in Hl. apply (toLowerCase_digits rest digits Hd) in Hl.
  subst rest. destruct (strip_prefix_split prefix name digits Hs) as [p [Hn Hp]].
  exists p, digits. repeat split; assumption.
Qed.

(** X2.  For a free hostname, a non-empty prefix of ordinary characters
    and dots and names whose trailing numbers stay below 2^53 - 3, the
    three suggestions are pairwise different and none of them is the
    name of a listed host, compared case-insensitively. *)
Theorem suggestions_are_fresh
        (engine : Regex.Engine) (hosts : list Host)
        (body : list (string * json)) (h prefix : string) :
  lookup "hostname" body = Some (JStr h) -> h <> "" -> ~ taken hosts h ->
  lookup "prefix" body = Some (JStr prefix) -> prefix <> "" ->
  dotted prefix = true ->
  safe_names (map name hosts) = true ->
  exists suggestions,
    check_hostname engine (inventory hosts) body = free_response suggestions /\
    List.length suggestions = 3 /\ NoDup suggestions /\
    forall s, In s suggestions -> ~ taken hosts s.
Proof.
  intros Hh Hne Ht Hp Hpne Hd Hsafe.
  rewrite (check_hostname_free engine hosts body h Hh Hne Ht), Hp.
  rewrite (suggest_literal engine hosts prefix Hpne Hd Hsafe).
  set (N := max_trailing prefix (map name hosts) 0).
  assert (HN : (0 <= N)%Z) by apply max_trailing_bounds.
  destruct (max_trailing_maximal prefix (map name hosts)) as [Hub _].
  fold N in Hub.
  exists (candidates prefix N). split; [reflexivity |].
  split; [reflexivity |]. split.
  - unfold candidates.
    assert (Hdiff : forall i j, (0 < i)%Z -> (0 < j)%Z -> i <> j ->
                prefix ++ decimalZ (N + i) <> prefix ++ decimalZ (N + j)).
    { intros i j Hi Hj Hij H. apply append_inj_l, decimalZ_inj in H; lia. }
    repeat constructor; cbn [In]; intros H;
      repeat match goal with
             | H : _ \/ _ |- _ => destruct H as [H | H]
             | H : False |- _ => contradiction
             end;
      revert H; apply Hdiff; lia.
  - intros s Hin [host [Hhost Hs]].
    assert (Hi : exists i, (0 < i)%Z /\ s = prefix ++ decimalZ (N + i)).
    { unfold candidates in Hin. cbn [In] in Hin.
      destruct Hin as [<- | [<- | [<- | []]]];
        [exists 1%Z | exists 2%Z | exists 3%Z]; split; first [lia | reflexivity]. }
    destruct Hi as [i [Hi ->]].
    destruct (decimalZ_digits (N + i)) as [Hdne [Hdd Hdv]]; [lia |].
    pose proof (lowered_name_has_form prefix (name host) _ Hdne Hdd Hs) as Hf.
    rewrite Hdv in Hf.
    assert (N + i <= N)%Z; [| lia].
    apply (Hub (name host)); [now apply in_map | exact Hf].
Qed.

Lemma suggestions_are_fresh_witness :
  let hosts := HostExamples.web3_web7_webX in
  let body := HostExamples.check_body "web9" "WEB" in
  (lookup "hostname" body = Some (JStr "web9") /\ "web9" <> "" /\
   ~ taken hosts "web9" /\ lookup "prefix" body = Some (JStr "WEB") /\
   "WEB" <> "" /\ dotted "WEB" = true /\
   safe_names (map name hosts) = true) /\
  exists suggestions,
    check_hostname HostExamples.no_engine (inventory hosts) body
    = free_response suggestions /\
    List.length suggestions = 3 /\ NoDup suggestions /\
    forall s, In s suggestions -> ~ taken hosts s.
Proof.
  intros hosts body.
  assert (H1 : lookup "hostname" body = Some (JStr "web9")) by reflexivity.
  assert (H2 : "web9" <> "") by discriminate.
  assert (H3 : ~ taken hosts "web9").
  { intros Ht. apply existsb_taken in Ht. discriminate Ht. }
  assert (H4 : lookup "prefix" body = Some (JStr "WEB")) by reflexivity.
  assert (H5 : "WEB" <> "") by discriminate.
  assert (H6 : dotted "WEB" = true) by reflexivity.
  assert (H7 : safe_names (map name hosts) = true) by reflexivity.
  split; [repeat split; assumption |].
  exact (suggestions_are_fresh HostExamples.no_engine hosts body "web9" "WEB"
                               H1 H2 H3 H4 H5 H6 H7).
Defined.

(** Without the bound the suggestions need not be fresh: the number that
    ends web9007199254740992 is 2^53, the double of 2^53 + 1 is 2^53
    again, and the first suggestion is the name of the host itself. *)
Lemma suggestion_repeats_a_name_from_2_53 :
  safe_names ["web9007199254740992"] = false /\
  check_hostname HostExamples.no_engine
    (inventory [HostExamples.vm "web9007199254740992"])
    (HostExamples.check_body "new" "web")
  = free_response ["web9007199254740992"; "web9007199254740994";
                   "web9007199254740996"] /\
  check_hostname HostExamples.no_engine
    (inventory [HostExamples.vm "web1000000000000000000000"])
    (HostExamples.check_body "new" "web")
  = free_response ["web1e+21"; "web1e+21"; "web1e+21"].
Proof. split; [reflexivity |]. split; reflexivity. Qed.

(** ** The bearer token of a request *)

Import Words.

Lemma split_no_space (s : string) :
  no_space s = true -> split " " s = [s].
Proof.
  induction s as [| c r IH]; [reflexivity |].
  cbn [no_space split]. intros H. apply andb_prop in H as [Hc Hr].
  destruct (Ascii.eqb c " "); [discriminate Hc |]. now rewrite (IH Hr).
Qed.

Lemma split_word (word rest : string) :
  no_space word = true ->
  split " " (word ++ String " " rest) = word :: split " " rest.
Proof.
  induction word as [| c r IH]; [reflexivity |].
  cbn [no_space append split]. intros H. apply andb_prop in H as [Hc Hr].
  destruct (Ascii.eqb c " "); [discriminate Hc |]. now rewrite (IH Hr).
Qed.

Lemma split_pieces_no_space (s piece : string) :
  In piece (split " " s) -> no_space piece = true.
Proof.
  revert piece. induction s as [| c r IH]; intros piece.
  - intros [<- | []]. reflexivity.
  - cbn [split]. destruct (Ascii.eqb c " ") eqn:Hc.
    + intros [<- | Hin]; [reflexivity | now apply IH].
    + destruct (split " " r) as [| p ps].
      * intros [<- | []]. cbn [no_space]. now rewrite Hc.
      * intros [<- | Hin].
        -- cbn [no_space]. rewrite Hc. apply IH. now left.
        -- apply IH. now right.
Qed.

Lemma bearer_no_space (authorization : option string) (token : string) :
  bearer authorization = Some token -> no_space token = true.
Proof.
  destruct authorization as [h |]; [| discriminate].
  cbn [bearer]. intros H. apply nth_error_In in H.
  now apply (split_pieces_no_space h).
Qed.

Lemma bearer_of_bearer (token : string) :
  no_space token = true -> bearer (Some ("Bearer " ++ token)) = Some token.
Proof.
  intros H. cbn [bearer].
  change ("Bearer " ++ token) with ("Bearer" ++ String " " token).
  rewrite split_word by reflexivity. now rewrite (split_no_space token H).
Qed.

(** X3.  [verifyToken] looks only at the shape of the [Authorization]
    header: it lets a request pass exactly when the header has a second
    word, whatever the scheme and whatever the token.  A missing header,
    a header of one word, and a header whose first space is followed by
    another space or by nothing are answered 401. *)
Theorem verifyToken_passes_any_second_word {A} (reject : Response -> A) (next : A) :
  verifyToken None reject next = reject unauthorized /\
  (forall word,
      no_space word = true ->
      verifyToken (Some word) reject next = reject unauthorized) /\
  (forall scheme rest,
      no_space scheme = true ->
      verifyToken (Some (scheme ++ String " " rest)) reject next
      = match rest with
        | String c _ => if Ascii.eqb c " " then reject unauthorized else next
        | EmptyString => reject unauthorized
        end).
Proof.
  split; [reflexivity |]. split.
  - intros word H. unfold verifyToken, bearer.
    now rewrite (split_no_space word H).
  - intros scheme rest H. unfold verifyToken, bearer.
    rewrite (split_word scheme rest H). cbn [nth_error].
    destruct rest as [| c r]; [reflexivity |].
    cbn [split]. destruct (Ascii.eqb c " "); [reflexivity |].
    destruct (split " " r); reflexivity.
Qed.

Lemma verifyToken_passes_any_second_word_witness :
  no_space "Basic" = true /\
  verifyToken (Some "Basic anything at all")
              (fun r => status r) 200%Z = 200%Z.
Proof.
  assert (H : no_space "Basic" = true) by reflexivity.
  split; [exact H |].
  exact (proj2 (proj2 (verifyToken_passes_any_second_word
                         (fun r => status r) 200%Z))
               "Basic" "anything at all" H).
Defined.

(** ** Through the gateway *)

Lemma check_hostname_reads_two_fields (engine : Regex.Engine) (upstream : Reply)
      (body body' : list (string * json)) :
  lookup "hostname" body' = lookup "hostname" body ->
  lookup "prefix" body' = lookup "prefix" body ->
  Proxmox.check_hostname engine upstream body'
  = Proxmox.check_hostname engine upstream body.
Proof.
  intros Hh Hp. unfold Proxmox.check_hostname, check_hostname_try.
  now rewrite Hh, Hp.
Qed.

Lemma check_hostname_status (engine : Regex.Engine) (upstream : Reply)
      (body : list (string * json)) :
  let r := Proxmox.check_hostname engine upstream body in
  status r = 200%Z \/ status r = 400%Z \/ status r = 500%Z.
Proof.
  unfold Proxmox.check_hostname, check_hostname_try, rbind.
  destruct (truthy (lookup "hostname" body)); cbn [negb]; [| auto].
  destruct (axios upstream) as [d |]; [| auto].
  destruct (prop d "data") as [vms |]; [| auto].
  destruct (call_toLowerCase (lookup "hostname" body)) as [l |]; [| auto].
  destruct (as_array vms) as [items |]; [| auto].
  destruct (some_named items l) as [[] |]; [auto | | auto].
  destruct (suggest engine items (lookup "prefix" body)); auto.
Qed.

Lemma relay_reply_of (NODE_ENV : option string) (err_message : string)
      (r : Response) :
  status r = 200%Z \/ validateStatus (status r) = false ->
  Gateway.relay NODE_ENV err_message (reply_of r) = Gateway.seen_by_client r.
Proof.
  unfold Gateway.relay, reply_of, Gateway.seen_by_client.
  intros [H | H]; rewrite H; reflexivity.
Qed.

Lemma lookup_wire_fields (k : string) (fields : list (string * json)) :
  lookup k (wire_fields fields) = wire_value (lookup k fields).
Proof.
  induction fields as [| [k' v] rest IH]; [reflexivity |].
  cbn [wire_fields map fst snd lookup].
  destruct (String.eqb k k'); [reflexivity | exact IH].
Qed.

Lemma lookup_object_second (k1 k2 : string) (v1 v2 : Js.value) :
  k1 <> k2 -> lookup k2 (object [(k1, v1); (k2, v2)]) = v2.
Proof.
  intros Hk.
  assert (H : lookup k2 (object [(k2, v2)]) = v2)
    by (apply lookup_object_head; intros []).
  destruct v1 as [v1 |]; [| exact H].
  change (object [(k1, Some v1); (k2, v2)])
    with ((k1, v1) :: object [(k2, v2)]).
  cbn [lookup]. destruct (String.eqb_spec k2 k1) as [E | _];
    [now subst | exact H].
Qed.

Lemma forwarded_authorization_passes {A} (authorization : option string)
      (token : string) (reject : Response -> A) (next : A) :
  bearer authorization = Some token -> token <> "" ->
  verifyToken (Gateway.forwarded_authorization authorization) reject next = next.
Proof.
  intros Hb Hne. unfold Gateway.forwarded_authorization. rewrite Hb.
  apply (verifyToken_pass _ token); [| exact Hne].
  apply bearer_of_bearer. now apply (bearer_no_space authorization).
Qed.

(** X4.  The gateway route [POST /api/proxmox/check-hostname] in front of
    the ProxMox service is transparent for a body whose [hostname] and
    [prefix] travel unchanged as JSON text (anything but a number too
    large for a double, which is sent on as [null]): for every
    [Authorization] header the client gets the status and body that a
    client of the service's own route reads for that header and body,
    the gateway's refusals (401, 400) being the service's. *)
Theorem gateway_check_hostname_is_transparent
        (NODE_ENV : option string) (err_message : string)
        (engine : Regex.Engine) (upstream : Reply)
        (authorization : option string) (body : list (string * json)) :
  wire_value (lookup "hostname" body) = lookup "hostname" body ->
  wire_value (lookup "prefix" body) = lookup "prefix" body ->
  Gateway.check_hostname NODE_ENV err_message
    (KafkaConsumer.proxmox_service engine upstream) authorization body
  = Gateway.seen_by_client
      (Proxmox.route_check_hostname engine upstream authorization body).
Proof.
  intros Hwh Hwp.
  unfold Gateway.check_hostname, Proxmox.route_check_hostname.
  unfold verifyToken.
  destruct (bearer authorization) as [[| c token] |] eqn:Hb; try reflexivity.
  cbv zeta. destruct (truthy (lookup "hostname" body)) eqn:Ht; cbn [negb].
  - unfold KafkaConsumer.proxmox_service, Proxmox.route_check_hostname.
    rewrite (forwarded_authorization_passes authorization (String c token))
      by (assumption || discriminate).
    rewrite (check_hostname_reads_two_fields engine upstream body).
    + apply relay_reply_of.
      destruct (check_hostname_status engine upstream body) as [H | [H | H]];
        [now left | right; now rewrite H ..].
    + rewrite lookup_wire_fields, lookup_object_head by absent_key.
      exact Hwh.
    + rewrite lookup_wire_fields, lookup_object_second by discriminate.
      exact Hwp.
  - unfold Proxmox.check_hostname, check_hostname_try. now rewrite Ht.
Qed.

Lemma gateway_check_hostname_is_transparent_witness :
  Gateway.check_hostname None "connect ECONNREFUSED"
    (KafkaConsumer.proxmox_service HostExamples.no_engine
       (inventory HostExamples.web3_web7_webX))
    (Some "Bearer t0k3n") (HostExamples.check_body "web9" "web")
  = Gateway.seen_by_client
      (Proxmox.route_check_hostname HostExamples.no_engine
         (inventory HostExamples.web3_web7_webX)
         (Some "Bearer t0k3n") (HostExamples.check_body "web9" "web")).
Proof.
  assert (Hwh : wire_value (lookup "hostname"
                              (HostExamples.check_body "web9" "web"))
                = lookup "hostname" (HostExamples.check_body "web9" "web"))
    by reflexivity.
  assert (Hwp : wire_value (lookup "prefix"
                              (HostExamples.check_body "web9" "web"))
                = lookup "prefix" (HostExamples.check_body "web9" "web"))
    by reflexivity.
  exact (gateway_check_hostname_is_transparent None "connect ECONNREFUSED"
           HostExamples.no_engine (inventory HostExamples.web3_web7_webX)
           (Some "Bearer t0k3n") _ Hwh Hwp).
Defined.

(** A hostname that does not travel unchanged: the number 1e400 is
    [Infinity] for the gateway, which lets it pass as truthy, and [null]
    in the body it sends on; the gateway answers with the service's
    400, a client that sends the same body to the service itself gets
    500. *)
Lemma gateway_nulls_an_overflowing_number :
  Gateway.check_hostname None "connect ECONNREFUSED"
    (KafkaConsumer.proxmox_service HostExamples.no_engine
       (inventory HostExamples.web3_web7_webX))
    (Some "Bearer t0k3n") [("hostname", JNum (10 ^ 400))]
  = Gateway.seen_by_client
      (error_response 400 "Bad Request" "Hostname is required") /\
  Proxmox.route_check_hostname HostExamples.no_engine
    (inventory HostExamples.web3_web7_webX)
    (Some "Bearer t0k3n") [("hostname", JNum (10 ^ 400))]
  = error_response 500 "Internal Server Error" "Failed to check hostname".
Proof. split; reflexivity. Qed.

Lemma check_ip_answer (env : Env) (body : list (string * json)) (st : State) :
  exists r, fst (check_ip env body st) = Ok r /\
            (status r = 200%Z \/ validateStatus (status r) = false).
Proof.
  destruct (truthy (lookup "subnetId" body)) eqn:Hs.
  - rewrite (check_ip_steps_eq env body st Hs). unfold Run.check_ip_steps.
    destruct (authenticateIpam env st) as [[tok | e] st0]; cbn [fst];
      [| eexists; split; [reflexivity | now right]].
    destruct (truthy (lookup "ip" body)); cbn [fst];
      [| eexists; split; [reflexivity | now right]].
    eexists. split; [reflexivity |].
    destruct (axios _) as [response | e]; [| now right].
    destruct (prop response "data") as [data | e]; [| now right].
    destruct (found data); now left.
  - rewrite (proj2 (without_subnet env body st Hs)).
    eexists. split; [reflexivity | now right].
Qed.

Lemma next_available_answer (env : Env) (body : list (string * json))
      (st : State) :
  exists r, fst (next_available env body st) = Ok r /\
            (status r = 200%Z \/ validateStatus (status r) = false).
Proof.
  destruct (truthy (lookup "subnetId" body)) eqn:Hs.
  - rewrite (next_available_steps_eq env body st Hs).
    unfold Run.next_available_steps.
    destruct (authenticateIpam env st) as [[tok | e] st0]; cbn [fst];
      [| eexists; split; [reflexivity | now right]].
    eexists. split; [reflexivity |].
    destruct (axios _) as [response | e]; [| now right].
    destruct (prop response "data") as [ip | e]; [now left | now right].
  - rewrite (proj1 (without_subnet env body st Hs)).
    eexists. split; [reflexivity | now right].
Qed.

Lemma ipam_handlers_read_their_fields (env : Env)
      (body body' : list (string * json)) (st : State) :
  lookup "subnetId" body' = lookup "subnetId" body ->
  (lookup "ip" body' = lookup "ip" body ->
   check_ip env body' st = check_ip env body st) /\
  next_available env body' st = next_available env body st.
Proof.
  intros Hs. split.
  - intros Hi. unfold check_ip. now rewrite Hs, Hi.
  - unfold next_available. now rewrite Hs.
Qed.

(** X5.  The gateway routes [POST /api/ipam/check-ip] and
    [POST /api/ipam/next-available] in front of the IPAM service are
    transparent for a body whose [subnetId] (and, for check-ip, [ip])
    travels unchanged as JSON text: the client gets the status and body
    that a client of the service's own route reads for the same header
    and body, from the same process state. *)
Theorem gateway_ipam_routes_are_transparent
        (NODE_ENV : option string) (err_message : string)
        (env : Env) (st : State)
        (authorization : option string) (body : list (string * json)) :
  wire_value (lookup "subnetId" body) = lookup "subnetId" body ->
  (wire_value (lookup "ip" body) = lookup "ip" body ->
   exists r,
     fst (route_check_ip env authorization body st) = Ok r /\
     Gateway.check_ip NODE_ENV err_message
       (KafkaConsumer.ipam_check_ip_service env st) authorization body
     = Gateway.seen_by_client r) /\
  (exists r,
      fst (route_next_available env authorization body st) = Ok r /\
      Gateway.next_available NODE_ENV err_message
        (KafkaConsumer.ipam_next_available_service env st) authorization body
      = Gateway.seen_by_client r).
Proof.
  intros Hws.
  unfold Gateway.check_ip, Gateway.next_available, route_check_ip,
    route_next_available.
  unfold verifyToken.
  destruct (bearer authorization) as [[| c token] |] eqn:Hb;
    try (split; [intros _ |]; eexists; split; reflexivity).
  cbv zeta. split.
  - intros Hwi.
    destruct (truthy (lookup "subnetId" body)) eqn:Hs; cbn [negb].
    + unfold KafkaConsumer.ipam_check_ip_service, route_check_ip.
      rewrite (forwarded_authorization_passes authorization (String c token))
        by (assumption || discriminate).
      rewrite (proj1 (ipam_handlers_read_their_fields env body
                        (wire_fields
                           (object [("ip", lookup "ip" body);
                                    ("subnetId", lookup "subnetId" body)]))
                        st
                        ltac:(rewrite lookup_wire_fields,
                                lookup_object_second by discriminate;
                              exact Hws)))
        by (rewrite lookup_wire_fields, lookup_object_head by absent_key;
            exact Hwi).
      destruct (check_ip_answer env body st) as [r [Hr Hst]].
      exists r. split; [exact Hr |].
      destruct (check_ip env body st) as [res st']. cbn [fst] in Hr. subst res.
      now apply relay_reply_of.
    + rewrite (proj2 (without_subnet env body st Hs)).
      eexists. split; reflexivity.
  - destruct (truthy (lookup "subnetId" body)) eqn:Hs; cbn [negb].
    + unfold KafkaConsumer.ipam_next_available_service, route_next_available.
      rewrite (forwarded_authorization_passes authorization (String c token))
        by (assumption || discriminate).
      rewrite (proj2 (ipam_handlers_read_their_fields env body
                        (wire_fields
                           (object [("subnetId", lookup "subnetId" body)])) st
                        ltac:(rewrite lookup_wire_fields, lookup_object_head
                                by (intros []);
                              exact Hws))).
      destruct (next_available_answer env body st) as [r [Hr Hst]].
      exists r. split; [exact Hr |].
      destruct (next_available env body st) as [res st']. cbn [fst] in Hr.
      subst res. now apply relay_reply_of.
    + rewrite (proj1 (without_subnet env body st Hs)).
      eexists. split; reflexivity.
Qed.

Lemma gateway_ipam_routes_are_transparent_witness :
  (exists r,
      fst (route_check_ip
             (IpamExamples.env_with (Some "secret") IpamExamples.phpipam)
             (Some "Bearer t0k3n")
             [("ip", JStr "10.0.0.7"); ("subnetId", JStr "10")] initial)
      = Ok r /\
      Gateway.check_ip None "connect ECONNREFUSED"
        (KafkaConsumer.ipam_check_ip_service
           (IpamExamples.env_with (Some "secret") IpamExamples.phpipam)
           initial)
        (Some "Bearer t0k3n")
        [("ip", JStr "10.0.0.7"); ("subnetId", JStr "10")]
      = Gateway.seen_by_client r) /\
  (exists r,
      fst (route_next_available
             (IpamExamples.env_with (Some "secret") IpamExamples.phpipam)
             (Some "Bearer t0k3n")
             [("ip", JStr "10.0.0.7"); ("subnetId", JStr "10")] initial)
      = Ok r /\
      Gateway.next_available None "connect ECONNREFUSED"
        (KafkaConsumer.ipam_next_available_service
           (IpamExamples.env_with (Some "secret") IpamExamples.phpipam)
           initial)
        (Some "Bearer t0k3n")
        [("ip", JStr "10.0.0.7"); ("subnetId", JStr "10")]
      = Gateway.seen_by_client r).
Proof.
  assert (Hws : wire_value (lookup "subnetId"
                              [("ip", JStr "10.0.0.7"); ("subnetId", JStr "10")])
                = lookup "subnetId"
                    [("ip", JStr "10.0.0.7"); ("subnetId", JStr "10")])
    by reflexivity.
  assert (Hwi : wire_value (lookup "ip"
                              [("ip", JStr "10.0.0.7"); ("subnetId", JStr "10")])
                = lookup "ip"
                    [("ip", JStr "10.0.0.7"); ("subnetId", JStr "10")])
    by reflexivity.
  destruct (gateway_ipam_routes_are_transparent None "connect ECONNREFUSED"
              (IpamExamples.env_with (Some "secret") IpamExamples.phpipam)
              initial (Some "Bearer t0k3n")
              [("ip", JStr "10.0.0.7"); ("subnetId", JStr "10")] Hws)
    as [Hcheck Hnext].
  split; [exact (Hcheck Hwi) | exact Hnext].
Defined.

(** ** Edge behaviour of the hostname check *)

Lemma toLowerCase_empty (s : string) : toLowerCase s = "" -> s = "".
Proof. destruct s; [reflexivity | discriminate]. Qed.

(** X6.  [POST /proxmox/check-hostname] decides on the lower-cased
    hostname only: two requests whose hostnames differ in letter case
    alone (same prefix, same reply of ProxMox, well formed or not) get
    the same response, except that the message of the "already in use"
    answer quotes each hostname as it was sent. *)
Theorem availability_ignores_case
        (engine : Regex.Engine) (upstream : Reply)
        (body1 body2 : list (string * json)) (h1 h2 : string) :
  lookup "hostname" body1 = Some (JStr h1) ->
  lookup "hostname" body2 = Some (JStr h2) ->
  lookup "prefix" body1 = lookup "prefix" body2 ->
  toLowerCase h1 = toLowerCase h2 ->
  Proxmox.check_hostname engine upstream body1
  = Proxmox.check_hostname engine upstream body2
  \/ (Proxmox.check_hostname engine upstream body1
      = taken_response (Some (JStr h1)) /\
      Proxmox.check_hostname engine upstream body2
      = taken_response (Some (JStr h2))).
Proof.
  intros H1 H2 Hp Hl.
  unfold Proxmox.check_hostname, check_hostname_try, rbind.
  rewrite H1, H2, Hp. cbn [truthy call_toLowerCase].
  assert (He : String.eqb h1 "" = String.eqb h2 "").
  { destruct (String.eqb_spec h1 "") as [-> | N1];
      destruct (String.eqb_spec h2 "") as [-> | N2]; trivial.
    - cbn in Hl. symmetry in Hl. now apply toLowerCase_empty in Hl.
    - cbn in Hl. now apply toLowerCase_empty in Hl. }
  rewrite He, Hl.
  destruct (String.eqb h2 ""); cbn [negb]; [now left |].
  destruct (axios upstream) as [d |]; [| now left].
  destruct (prop d "data") as [vms |]; [| now left].
  destruct (as_array vms) as [items |]; [| now left].
  destruct (some_named items (toLowerCase h2)) as [[] |];
    [right; split; reflexivity | now left | now left].
Qed.

Lemma availability_ignores_case_witness :
  Proxmox.check_hostname HostExamples.no_engine
    (inventory HostExamples.web3_web7_webX) [("hostname", JStr "WEB3")]
  = Proxmox.check_hostname HostExamples.no_engine
      (inventory HostExamples.web3_web7_webX) [("hostname", JStr "web3")]
  \/ (Proxmox.check_hostname HostExamples.no_engine
        (inventory HostExamples.web3_web7_webX) [("hostname", JStr "WEB3")]
      = taken_response (Some (JStr "WEB3")) /\
      Proxmox.check_hostname HostExamples.no_engine
        (inventory HostExamples.web3_web7_webX) [("hostname", JStr "web3")]
      = taken_response (Some (JStr "web3"))).
Proof.
  assert (H1 : lookup "hostname" [("hostname", JStr "WEB3")]
               = Some (JStr "WEB3")) by reflexivity.
  assert (H2 : lookup "hostname" [("hostname", JStr "web3")]
               = Some (JStr "web3")) by reflexivity.
  assert (Hp : lookup "prefix" [("hostname", JStr "WEB3")]
               = lookup "prefix" [("hostname", JStr "web3")]) by reflexivity.
  assert (Hl : toLowerCase "WEB3" = toLowerCase "web3") by reflexivity.
  exact (availability_ignores_case HostExamples.no_engine
           (inventory HostExamples.web3_web7_webX) _ _ _ _ H1 H2 Hp Hl).
Defined.

(** X7.  A hostname that is truthy but not a string (a number, [true],
    an array, an object) passes the "Hostname is required" test and then
    breaks [hostname.toLowerCase()]: the HTTP endpoint answers
    500 Internal Server Error instead of 400, whatever ProxMox replies,
    and the service's consumer of [hostname-requests] publishes
    nothing. *)
Theorem non_string_hostname_is_internal_error
        (engine : Regex.Engine) (upstream : Reply)
        (body : list (string * json))
        (env_topic : option string) (now : string) (k : option string) :
  truthy (lookup "hostname" body) = true ->
  (forall s, lookup "hostname" body <> Some (JStr s)) ->
  Proxmox.check_hostname engine upstream body
  = error_response 500 "Internal Server Error" "Failed to check hostname" /\
  Proxmox.eachMessage env_topic now upstream (mkMessage k (Some (JObj body)))
  = [].
Proof.
  intros Ht Hs.
  assert (Hl : exists e, call_toLowerCase (lookup "hostname" body) = Throw e).
  { destruct (lookup "hostname" body) as [[| b | n | s | items | fields] |];
      try (eexists; reflexivity).
    now destruct (Hs s). }
  destruct Hl as [e Hl].
  split.
  - unfold Proxmox.check_hostname, check_hostname_try, rbind.
    rewrite Ht, Hl. cbn [negb].
    destruct (axios upstream) as [d |]; [| reflexivity].
    destruct (prop d "data"); reflexivity.
  - unfold Proxmox.eachMessage, eachMessage_try, JSON_parse, rbind.
    cbn [value prop]. rewrite Hl.
    destruct (axios upstream) as [d |]; [| reflexivity].
    destruct (prop d "data"); reflexivity.
Qed.

Lemma non_string_hostname_is_internal_error_witness :
  Proxmox.check_hostname HostExamples.no_engine
    (inventory HostExamples.web3_web7_webX) [("hostname", JNum 42)]
  = error_response 500 "Internal Server Error" "Failed to check hostname" /\
  Proxmox.eachMessage None "2023-11-14T22:13:20.000Z"
    (inventory HostExamples.web3_web7_webX)
    (mkMessage (Some "client-7") (Some (JObj [("hostname", JNum 42)])))
  = [].
Proof.
  assert (Ht : truthy (lookup "hostname" [("hostname", JNum 42)]) = true)
    by reflexivity.
  assert (Hs : forall s, lookup "hostname" [("hostname", JNum 42)]
                         <> Some (JStr s)) by (intros s; discriminate).
  exact (non_string_hostname_is_internal_error HostExamples.no_engine
           (inventory HostExamples.web3_web7_webX) _ None
           "2023-11-14T22:13:20.000Z" (Some "client-7") Ht Hs).
Defined.

Lemma some_named_app (before rest : list json) (l : string) :
  some_named (before ++ rest) l
  = match some_named before l with
    | Ok false => some_named rest l
    | r => r
    end.
Proof.
  induction before as [| vm before IH]; cbn [app some_named].
  - now destruct (some_named rest l) as [[] |].
  - unfold rbind. destruct (name_toLowerCase vm) as [n |]; [| reflexivity].
    destruct (String.eqb n l); [reflexivity | exact IH].
Qed.

(** X8.  One VM without a string name in the reply of ProxMox breaks the
    check for every hostname that is not matched before it: [some] stops
    at the first match, so a hostname equal to the name of an earlier VM
    is still answered "already in use"; any other hostname reaches
    [vm.name.toLowerCase()] of the nameless VM and gets
    500 Internal Server Error, also when a later VM has that name. *)
Theorem nameless_vm_breaks_the_check
        (engine : Regex.Engine) (before : list Host) (vm : json)
        (rest : list json) (body : list (string * json)) (h : string) :
  lookup "hostname" body = Some (JStr h) -> h <> "" ->
  (forall s, prop vm "name" <> Ok (Some (JStr s))) ->
  let upstream :=
    Status 200 (JObj [("data", JArr (map vm_of before ++ vm :: rest))]) in
  (taken before h ->
   Proxmox.check_hostname engine upstream body
   = taken_response (Some (JStr h))) /\
  (~ taken before h ->
   Proxmox.check_hostname engine upstream body
   = error_response 500 "Internal Server Error" "Failed to check hostname").
Proof.
  intros Hh Hne Hvm upstream.
  assert (Hn : exists e, name_toLowerCase vm = Throw e).
  { unfold name_toLowerCase, rbind.
    destruct (prop vm "name") as [[[| b | n | s | items | fields] |] | e] eqn:Hp;
      try (eexists; reflexivity).
    now destruct (Hvm s). }
  destruct Hn as [e Hn].
  assert (Hc : Proxmox.check_hostname engine upstream body
               = if existsb (fun host => String.eqb (toLowerCase (name host))
                                           (toLowerCase h)) before
                 then taken_response (Some (JStr h))
                 else error_response 500 "Internal Server Error"
                        "Failed to check hostname").
  { unfold Proxmox.check_hostname, check_hostname_try, upstream.
    rewrite Hh, (truthy_string h Hne).
    cbn -[suggest some_named].
    rewrite some_named_app, some_named_inventory.
    destruct (existsb _ before); [reflexivity |].
    cbn [some_named]. rewrite Hn. reflexivity. }
  rewrite Hc. split.
  - intros Ht. apply existsb_taken in Ht. now rewrite Ht.
  - intros Ht. destruct (existsb _ before) eqn:E; [| reflexivity].
    exfalso. apply Ht. now apply existsb_taken.
Qed.

Lemma nameless_vm_breaks_the_check_witness :
  ~ taken (map HostExamples.vm ["web3"]) "web7" /\
  Proxmox.check_hostname HostExamples.no_engine
    (Status 200
       (JObj [("data",
               JArr (map vm_of (map HostExamples.vm ["web3"])
                       ++ JObj [("vmid", JNum 105)]
                       :: map vm_of (map HostExamples.vm ["web7"]))%list)]))
    [("hostname", JStr "web7")]
  = error_response 500 "Internal Server Error" "Failed to check hostname".
Proof.
  assert (Hh : lookup "hostname" [("hostname", JStr "web7")]
               = Some (JStr "web7")) by reflexivity.
  assert (Hne : "web7" <> "") by discriminate.
  assert (Hvm : forall s, prop (JObj [("vmid", JNum 105)]) "name"
                          <> Ok (Some (JStr s))) by (intros s; discriminate).
  assert (Hf : ~ taken (map HostExamples.vm ["web3"]) "web7").
  { intros [host [[<- | []] Heq]]. discriminate. }
  split; [exact Hf |].
  exact (proj2 (nameless_vm_breaks_the_check HostExamples.no_engine
                  (map HostExamples.vm ["web3"]) (JObj [("vmid", JNum 105)])
                  (map vm_of (map HostExamples.vm ["web7"]))
                  [("hostname", JStr "web7")] "web7" Hh Hne Hvm) Hf).
Defined.

(** ** Edge behaviour of the address check *)

(** X9.  [POST /ipam/check-ip] requires a subnet but never uses it: the
    address is searched in all of phpIPAM.  Two requests for the same
    address with any two (truthy) subnets get the same answer and leave
    the process in the same state. *)
Theorem check_ip_ignores_the_subnet
        (env : Env) (body body' : list (string * json)) (st : State) :
  lookup "ip" body = lookup "ip" body' ->
  truthy (lookup "subnetId" body) = true ->
  truthy (lookup "subnetId" body') = true ->
  check_ip env body st = check_ip env body' st.
Proof.
  intros Hi Hs Hs'. unfold check_ip. now rewrite Hi, Hs, Hs'.
Qed.

Lemma check_ip_ignores_the_subnet_witness :
  check_ip (IpamExamples.env_with (Some "t0k3n") IpamExamples.phpipam)
    [("ip", JStr "10.0.0.7"); ("subnetId", JStr "10")] initial
  = check_ip (IpamExamples.env_with (Some "t0k3n") IpamExamples.phpipam)
      [("ip", JStr "10.0.0.7"); ("subnetId", JStr "no such subnet")] initial.
Proof.
  apply check_ip_ignores_the_subnet; reflexivity.
Defined.

(** ** The phpIPAM token *)

Lemma authenticateIpam_login (env : Env) (st st1 : State) (token : Js.value) :
  authenticateIpam env st = (Ok token, st1) ->
  calls st1 <> calls st ->
  st1 = mkState (("phpipam_token", (token, clock env + 21000 * 1000)%Z)
                   :: cache st)
                token (calls st ++ [login env]) (produced st).
Proof.
  unfold authenticateIpam, try_catch, bind, cache_get, set_header, cache_set,
    request, lift, ret, throw.
  destruct st as [entries header made sent].
  change (21000 =? 0)%Z with false.
  cbn [cache header_token calls produced].
  repeat (break_match; cbn [fst snd cache header_token calls produced] in * );
    intros H Hc; inversion H; subst; cbn [calls] in Hc;
    try congruence; try reflexivity.
Qed.

Lemma authenticateIpam_cached (env : Env) (st : State) (token : Js.value)
      (expiry : Z) :
  cache_find "phpipam_token" (cache st) = Some (token, expiry) ->
  truthy token = true ->
  expiry = 0%Z \/ (clock env <= expiry)%Z ->
  authenticateIpam env st
  = (Ok token, mkState (cache st) token (calls st) (produced st)).
Proof.
  intros Hf Ht Hl.
  unfold authenticateIpam, try_catch, bind, cache_get, set_header, ret.
  rewrite Hf.
  assert (Hlive : (Z.eqb expiry 0 || (clock env <=? expiry)%Z) = true).
  { apply orb_true_iff. destruct Hl as [-> | Hl]; [now left | right; lia]. }
  rewrite Hlive, Ht. reflexivity.
Qed.

(** X10.  A token obtained by logging in to phpIPAM is reused: for
    21000 seconds from the login, [authenticateIpam] returns the same
    token without any call to phpIPAM and leaves the process state as it
    is, whatever the environment has become.  (A token that is falsy, as
    when phpIPAM answers without one, is not covered: it is looked up
    and found wanting.) *)
Theorem login_token_is_reused
        (env env' : Env) (st st1 : State) (token : Js.value) :
  authenticateIpam env st = (Ok token, st1) ->
  calls st1 <> calls st ->
  truthy token = true ->
  (clock env' <= clock env + 21000 * 1000)%Z ->
  authenticateIpam env' st1 = (Ok token, st1).
Proof.
  intros Ha Hc Ht Hw.
  pose proof (authenticateIpam_login env st st1 token Ha Hc) as ->.
  rewrite (authenticateIpam_cached env' _ token (clock env + 21000 * 1000)%Z);
    [reflexivity | reflexivity | exact Ht | now right].
Qed.

Lemma login_token_is_reused_witness :
  calls ListExamples.logged_in = [login ListExamples.login_env] /\
  authenticateIpam ListExamples.an_hour_later ListExamples.logged_in
  = (Ok (Some (JStr "fresh")), ListExamples.logged_in).
Proof.
  assert (Ha : authenticateIpam ListExamples.login_env initial
               = (Ok (Some (JStr "fresh")), ListExamples.logged_in))
    by reflexivity.
  assert (Hc : calls ListExamples.logged_in <> calls initial)
    by discriminate.
  assert (Ht : truthy (Some (JStr "fresh")) = true) by reflexivity.
  assert (Hw : (clock ListExamples.an_hour_later
                <= clock ListExamples.login_env + 21000 * 1000)%Z)
    by (vm_compute; discriminate).
  split; [reflexivity |].
  exact (login_token_is_reused ListExamples.login_env
           ListExamples.an_hour_later initial ListExamples.logged_in _
           Ha Hc Ht Hw).
Defined.

(** X11.  Once the 21000 seconds are over, the token of a login is no
    longer used: with no API token configured, the next
    [authenticateIpam] logs in again, and that login is its only call. *)
Theorem login_token_expires
        (env env' : Env) (st st1 : State) (token : Js.value) :
  authenticateIpam env st = (Ok token, st1) ->
  calls st1 <> calls st ->
  (clock env + 21000 * 1000 < clock env')%Z ->
  (clock env + 21000 * 1000 <> 0)%Z ->
  env_truthy (PHPIPAM_API_TOKEN env') = false ->
  calls (snd (authenticateIpam env' st1))
  = (calls st1 ++ [login env'])%list.
Proof.
  intros Ha Hc Hw Hz Hn.
  pose proof (authenticateIpam_login env st st1 token Ha Hc) as ->.
  unfold authenticateIpam, try_catch, bind, cache_get, set_header, cache_set,
    request, lift, ret, throw.
  cbn [cache cache_find String.eqb Ascii.eqb Bool.eqb].
  assert (Hdead : (Z.eqb (clock env + 21000 * 1000) 0
                   || (clock env' <=? clock env + 21000 * 1000)%Z) = false).
  { apply orb_false_iff. split; lia. }
  rewrite Hdead. cbn [truthy]. rewrite Hn.
  repeat (break_match; cbn [fst snd calls] in * ); reflexivity.
Qed.

Lemma login_token_expires_witness :
  calls (snd (authenticateIpam ListExamples.six_hours_later
                ListExamples.logged_in))
  = [login ListExamples.login_env; login ListExamples.six_hours_later].
Proof.
  assert (Ha : authenticateIpam ListExamples.login_env initial
               = (Ok (Some (JStr "fresh")), ListExamples.logged_in))
    by reflexivity.
  assert (Hc : calls ListExamples.logged_in <> calls initial)
    by discriminate.
  assert (Hw : (clock ListExamples.login_env + 21000 * 1000
                < clock ListExamples.six_hours_later)%Z) by reflexivity.
  assert (Hz : (clock ListExamples.login_env + 21000 * 1000 <> 0)%Z)
    by discriminate.
  assert (Hn : env_truthy (PHPIPAM_API_TOKEN ListExamples.six_hours_later)
               = false) by reflexivity.
  exact (login_token_expires ListExamples.login_env
           ListExamples.six_hours_later initial ListExamples.logged_in _
           Ha Hc Hw Hz Hn).
Defined.

(** ** The cached list endpoints of ipam-service *)

Lemma get_subnets_shape (env : Env) (st : State) :
  IpamLists.get_subnets env st
  = Shape.cached env "ipam_subnets"
      (Shape.fetch_data env ("/" ++ appId env ++ "/subnets/"))
      "Failed to get subnets from IPAM" st.
Proof.
  unfold IpamLists.get_subnets, Shape.cached, Shape.fetch_data, try_catch,
    bind, lift, ret.
  repeat (break_match; try reflexivity).
Qed.

Lemma get_addresses_shape (env : Env) (st : State) :
  IpamLists.get_addresses env st
  = Shape.cached env "ipam_addresses"
      (Shape.fetch_data env ("/" ++ appId env ++ "/addresses/"))
      "Failed to get addresses from IPAM" st.
Proof.
  unfold IpamLists.get_addresses, Shape.cached, Shape.fetch_data, try_catch,
    bind, lift, ret.
  repeat (break_match; try reflexivity).
Qed.

Lemma get_subnet_shape (env : Env) (id : string) (st : State) :
  IpamLists.get_subnet env id st
  = Shape.cached env ("ipam_subnet_" ++ id) (Shape.fetch_subnet env id)
      "Failed to get subnet information from IPAM" st.
Proof.
  unfold IpamLists.get_subnet, Shape.cached, Shape.fetch_subnet,
    Shape.fetch_data, try_catch, bind, lift, ret.
  repeat (break_match; try reflexivity).
Qed.

Lemma stdTTL_nonzero (env : Env) : stdTTL env <> 0%Z.
Proof.
  unfold stdTTL.
  destruct (CACHE_TTL env) as [s |]; [| discriminate].
  destruct (ParseInt.parseInt s) as [n |]; [| discriminate].
  destruct (Z.eqb_spec n 0); [discriminate | assumption].
Qed.

Lemma app_cons_neq {A} (l mid : list A) (x : A) (more : list A) :
  (l ++ mid ++ x :: more)%list <> l.
Proof.
  intros H. apply (f_equal (@List.length A)) in H.
  rewrite !List.length_app in H. cbn [List.length] in H. lia.
Qed.

Lemma authenticateIpam_cache (env : Env) (st : State) (k : string) :
  k <> "phpipam_token" ->
  cache_find k (cache (snd (authenticateIpam env st)))
  = cache_find k (cache st).
Proof.
  intros Hk. apply String.eqb_neq in Hk.
  unfold authenticateIpam, try_catch, bind, cache_get, set_header, cache_set,
    request, lift, ret, throw.
  repeat (break_match; cbn [fst snd cache] in * );
    cbn [cache_find]; rewrite ?Hk; reflexivity.
Qed.

Lemma authenticateIpam_throws (env : Env) (st st0 : State) (e : Exn) :
  authenticateIpam env st = (Throw e, st0) ->
  calls st0 = (calls st ++ [login env])%list.
Proof.
  unfold authenticateIpam, try_catch, bind, cache_get, set_header, cache_set,
    request, lift, ret, throw.
  repeat (break_match; cbn [fst snd calls] in * );
    intros H; inversion H; subst; reflexivity.
Qed.

(** A miss stays a miss while the entry is untouched and time goes on. *)
Lemma miss_later (env env' : Env) (key : string) (st st1 : State) :
  (exists v, cache_get env key st = (Ok v, st) /\ truthy v = false) ->
  cache_find key (cache st1) = cache_find key (cache st) ->
  (clock env <= clock env')%Z ->
  exists v, cache_get env' key st1 = (Ok v, st1) /\ truthy v = false.
Proof.
  unfold cache_get. intros [u [Hg Hm]] Hf Hc. rewrite Hf.
  destruct (cache_find key (cache st)) as [[v expiry] |];
    [| now exists None].
  destruct (Z.eqb expiry 0) eqn:Hz; cbn [orb] in *.
  - exists v. split; [reflexivity | congruence].
  - destruct (Z.leb_spec (clock env) expiry) as [Hl | Hl].
    + destruct (clock env' <=? expiry)%Z; [| now exists None].
      exists v. split; [reflexivity | congruence].
    + destruct (Z.leb_spec (clock env') expiry); [lia | now exists None].
Qed.

Lemma cache_get_total (env : Env) (key : string) (st : State) :
  exists v, cache_get env key st = (Ok v, st).
Proof.
  unfold cache_get. repeat break_match; eexists; reflexivity.
Qed.

Section Cached.

Variables (key message : string) (fetch : Env -> M Js.value).
Hypothesis key_not_token : key <> "phpipam_token".
Hypothesis fetch_cache :
  forall env st, cache (snd (fetch env st)) = cache st.
Hypothesis fetch_calls :
  forall env st, exists c more,
      calls (snd (fetch env st)) = (calls st ++ c :: more)%list.

Let handler (env : Env) : M Gateway.Answer :=
  Shape.cached env key (fetch env) message.

Lemma cached_served : ListSpec.ipam_served_from_cache handler.
Proof.
  intros env env' st st1 c H Hc Ht Hw.
  assert (Hst : exists rest,
             cache st1
             = (key, (c, (clock env + stdTTL env * 1000)%Z)) :: rest).
  { revert H Hc.
    unfold handler, Shape.cached, try_catch, bind, cache_get, cache_set, ret.
    rewrite (proj2 (Z.eqb_neq _ _) (stdTTL_nonzero env)).
    unfold Gateway.answer_of, error_response. cbn [status].
    repeat break_match; intros H Hc; inversion H; subst;
      cbn [calls cache] in *; try congruence; eexists; reflexivity. }
  destruct Hst as [rest Hst].
  unfold handler, Shape.cached, try_catch, bind, cache_get, ret.
  rewrite Hst. cbn [cache_find]. rewrite String.eqb_refl.
  assert (Hlive : (Z.eqb (clock env + stdTTL env * 1000) 0
                   || (clock env' <=? clock env + stdTTL env * 1000)%Z)
                  = true).
  { apply orb_true_iff. right. lia. }
  rewrite Hlive, Ht. reflexivity.
Qed.

Lemma cached_failure (env : Env) (st st1 : State) (a : Gateway.Answer) :
  handler env st = (Ok a, st1) ->
  Gateway.code a <> 200%Z ->
  (exists v, cache_get env key st = (Ok v, st) /\ truthy v = false) /\
  cache_find key (cache st1) = cache_find key (cache st).
Proof.
  unfold handler, Shape.cached, try_catch, bind, ret.
  destruct (cache_get_total env key st) as [found ->].
  destruct (truthy found) eqn:Ht.
  { intros H Hcode. inversion H; subst. now destruct Hcode. }
  pose proof (authenticateIpam_cache env st key key_not_token) as Ha.
  destruct (authenticateIpam env st) as [[tok | e] st0]; cbn [snd] in Ha.
  - pose proof (fetch_cache env st0) as Hf.
    destruct (fetch env st0) as [[result | e] st2]; cbn [snd] in Hf.
    + unfold cache_set. intros H Hcode. inversion H; subst.
      now destruct Hcode.
    + intros H _. inversion H; subst.
      split; [now exists found | congruence].
  - intros H _. inversion H; subst. split; [now exists found | exact Ha].
Qed.

Lemma cached_miss_calls (env : Env) (st : State) :
  (exists v, cache_get env key st = (Ok v, st) /\ truthy v = false) ->
  Ipam.calls (snd (handler env st)) <> Ipam.calls st.
Proof.
  unfold handler, Shape.cached, try_catch, bind, ret.
  intros [found [-> Ht]]. rewrite Ht.
  destruct (authenticateIpam_effect env st) as [logins [_ [Hl _]]].
  destruct (authenticateIpam env st) as [[tok | e] st0] eqn:Ha;
    cbn [snd] in Hl.
  - destruct (fetch_calls env st0) as [c [more Hf]].
    destruct (fetch env st0) as [[result | e] st2]; cbn [snd] in Hf;
      unfold cache_set; cbn [snd calls]; rewrite Hf, Hl, <- app_assoc;
      apply app_cons_neq.
  - cbn [snd]. rewrite (authenticateIpam_throws env st st0 e Ha).
    apply (app_cons_neq (calls st) [] (login env) []).
Qed.

Lemma cached_asks_again : ListSpec.ipam_asks_again_after_failure handler.
Proof.
  intros env env' st st1 a H Hcode Hclock.
  destruct (cached_failure env st st1 a H Hcode) as [Hm Hf].
  apply cached_miss_calls.
  exact (miss_later env env' key st st1 Hm Hf Hclock).
Qed.

End Cached.

Lemma fetch_data_cache (env : Env) (path : string) (st : State) :
  cache (snd (Shape.fetch_data env path st)) = cache st.
Proof.
  unfold Shape.fetch_data, bind, phpIpamApi_get, request, lift.
  destruct (axios _) as [response | e]; reflexivity.
Qed.

Lemma fetch_data_calls (env : Env) (path : string) (st : State) :
  exists c, calls (snd (Shape.fetch_data env path st)) = (calls st ++ [c])%list.
Proof.
  unfold Shape.fetch_data, bind, phpIpamApi_get, request, lift.
  destruct (axios _) as [response | e]; eexists; reflexivity.
Qed.

Lemma fetch_subnet_cache (env : Env) (id : string) (st : State) :
  cache (snd (Shape.fetch_subnet env id st)) = cache st.
Proof.
  unfold Shape.fetch_subnet, bind, ret.
  pose proof (fetch_data_cache env ("/" ++ appId env ++ "/subnets/" ++ id ++ "/")
                st) as H1.
  destruct (Shape.fetch_data env _ st) as [[subnet | e] st0]; cbn [snd] in *;
    [| exact H1].
  pose proof (fetch_data_cache env
                ("/" ++ appId env ++ "/subnets/" ++ id ++ "/addresses/") st0)
    as H2.
  destruct (Shape.fetch_data env _ st0) as [[data | e] st2]; cbn [snd] in *;
    congruence.
Qed.

Lemma fetch_subnet_calls (env : Env) (id : string) (st : State) :
  exists c more,
    calls (snd (Shape.fetch_subnet env id st)) = (calls st ++ c :: more)%list.
Proof.
  unfold Shape.fetch_subnet, bind, ret.
  destruct (fetch_data_calls env ("/" ++ appId env ++ "/subnets/" ++ id ++ "/")
              st) as [c1 H1].
  destruct (Shape.fetch_data env _ st) as [[subnet | e] st0]; cbn [snd] in *;
    [| now exists c1, []].
  destruct (fetch_data_calls env
              ("/" ++ appId env ++ "/subnets/" ++ id ++ "/addresses/") st0)
    as [c2 H2].
  destruct (Shape.fetch_data env _ st0) as [[data | e] st2]; cbn [snd] in *;
    exists c1, [c2]; rewrite H2, H1, <- app_assoc; reflexivity.
Qed.

Lemma subnet_key_not_token (id : string) :
  "ipam_subnet_" ++ id <> "phpipam_token".
Proof. discriminate. Qed.

(** X12.  The three list endpoints of ipam-service ([GET /ipam/subnets],
    [GET /ipam/addresses], [GET /ipam/subnet/:id]) serve what they have
    fetched: a truthy 200 answer obtained from phpIPAM is given again,
    without any call to phpIPAM and without a change of state, to every
    request that comes up to [stdTTL] seconds later, whatever phpIPAM
    holds by then. *)
Theorem lists_are_served_from_the_cache :
  ListSpec.ipam_served_from_cache IpamLists.get_subnets /\
  ListSpec.ipam_served_from_cache IpamLists.get_addresses /\
  forall id, ListSpec.ipam_served_from_cache
               (fun env => IpamLists.get_subnet env id).
Proof.
  split; [| split; [| intros id]];
    intros env env' st st1 c H Hc Ht Hw.
  - rewrite get_subnets_shape in H |- *.
    exact (cached_served "ipam_subnets" _
             (fun env => Shape.fetch_data env ("/" ++ appId env ++ "/subnets/"))
             env env' st st1 c H Hc Ht Hw).
  - rewrite get_addresses_shape in H |- *.
    exact (cached_served "ipam_addresses" _
             (fun env => Shape.fetch_data env ("/" ++ appId env ++ "/addresses/"))
             env env' st st1 c H Hc Ht Hw).
  - cbv beta in H |- *. rewrite get_subnet_shape in H |- *.
    exact (cached_served ("ipam_subnet_" ++ id) _
             (fun env => Shape.fetch_subnet env id)
             env env' st st1 c H Hc Ht Hw).
Qed.

Lemma lists_are_served_from_the_cache_witness :
  calls ListExamples.listed <> calls initial /\
  IpamLists.get_subnets ListExamples.a_minute_later ListExamples.listed
  = (Ok (Gateway.mkAnswer 200 (Some ListExamples.one_subnet)),
     ListExamples.listed).
Proof.
  assert (H : IpamLists.get_subnets ListExamples.listing_env initial
              = (Ok (Gateway.mkAnswer 200 (Some ListExamples.one_subnet)),
                 ListExamples.listed)) by reflexivity.
  assert (Hc : calls ListExamples.listed <> calls initial) by discriminate.
  assert (Ht : truthy (Some ListExamples.one_subnet) = true) by reflexivity.
  assert (Hw : (clock ListExamples.a_minute_later
                <= clock ListExamples.listing_env
                   + stdTTL ListExamples.listing_env * 1000)%Z)
    by (vm_compute; discriminate).
  split; [exact Hc |].
  exact (proj1 lists_are_served_from_the_cache ListExamples.listing_env
           ListExamples.a_minute_later initial ListExamples.listed _
           H Hc Ht Hw).
Defined.

(** X13.  The three list endpoints store no failure: after an answer
    other than 200 (the 500 of a failed login or a failed call), the
    next request, at the same instant or later, calls phpIPAM again. *)
Theorem list_failures_are_not_cached :
  ListSpec.ipam_asks_again_after_failure IpamLists.get_subnets /\
  ListSpec.ipam_asks_again_after_failure IpamLists.get_addresses /\
  forall id, ListSpec.ipam_asks_again_after_failure
               (fun env => IpamLists.get_subnet env id).
Proof.
  split; [| split; [| intros id]];
    intros env env' st st1 a H Hcode Hclock.
  - rewrite get_subnets_shape in H |- *.
    refine (cached_asks_again "ipam_subnets" _
              (fun env => Shape.fetch_data env ("/" ++ appId env ++ "/subnets/"))
              _ _ _ env env' st st1 a H Hcode Hclock).
    + discriminate.
    + intros e s. apply fetch_data_cache.
    + intros e s.
      destruct (fetch_data_calls e ("/" ++ appId e ++ "/subnets/") s)
        as [c Hf].
      now exists c, [].
  - rewrite get_addresses_shape in H |- *.
    refine (cached_asks_again "ipam_addresses" _
              (fun env => Shape.fetch_data env ("/" ++ appId env ++ "/addresses/"))
              _ _ _ env env' st st1 a H Hcode Hclock).
    + discriminate.
    + intros e s. apply fetch_data_cache.
    + intros e s.
      destruct (fetch_data_calls e ("/" ++ appId e ++ "/addresses/") s)
        as [c Hf].
      now exists c, [].
  - cbv beta in H |- *. rewrite get_subnet_shape in H |- *.
    refine (cached_asks_again ("ipam_subnet_" ++ id) _
              (fun env => Shape.fetch_subnet env id)
              _ _ _ env env' st st1 a H Hcode Hclock).
    + apply subnet_key_not_token.
    + intros e s. apply fetch_subnet_cache.
    + intros e s. apply fetch_subnet_calls.
Qed.

Lemma list_failures_are_not_cached_witness :
  calls (snd (IpamLists.get_subnets ListExamples.listing_env
                ListExamples.failed))
  <> calls ListExamples.failed.
Proof.
  assert (H : IpamLists.get_subnets ListExamples.unreachable_env initial
              = (Ok (Gateway.answer_of
                       (error_response 500 "Internal Server Error"
                          "Failed to get subnets from IPAM")),
                 ListExamples.failed)) by reflexivity.
  assert (Hcode : Gateway.code
                    (Gateway.answer_of
                       (error_response 500 "Internal Server Error"
                          "Failed to get subnets from IPAM")) <> 200%Z)
    by discriminate.
  assert (Hclock : (clock ListExamples.unreachable_env
                    <= clock ListExamples.listing_env)%Z)
    by (vm_compute; discriminate).
  exact (proj1 list_failures_are_not_cached ListExamples.unreachable_env
           ListExamples.listing_env initial ListExamples.failed _
           H Hcode Hclock).
Defined.

Lemma lookup_assign (fields : list (string * json)) (k : string) (v : json) :
  lookup k (IpamLists.assign fields k v) = Some v /\
  forall k', k' <> k ->
             lookup k' (IpamLists.assign fields k v) = lookup k' fields.
Proof.
  induction fields as [| [k0 v0] rest [IH1 IH2]]; cbn [IpamLists.assign lookup].
  - rewrite String.eqb_refl. split; [reflexivity |].
    intros k' Hk. apply String.eqb_neq in Hk. now rewrite Hk.
  - destruct (String.eqb_spec k k0) as [<- | Hk0]; cbn [lookup].
    + rewrite String.eqb_refl. split; [reflexivity |].
      intros k' Hk. apply String.eqb_neq in Hk. now rewrite Hk.
    + apply String.eqb_neq in Hk0. rewrite Hk0. split; [exact IH1 |].
      intros k' Hk. destruct (String.eqb k' k0); [reflexivity | now apply IH2].
Qed.

(** X14.  [GET /ipam/subnet/:id], when nothing is cached for the subnet,
    authentication succeeds and phpIPAM serves the subnet and its
    addresses: the answer is 200 with an object that has every property
    of phpIPAM's subnet and, as [addresses], the address list of
    phpIPAM, or the empty array when phpIPAM sends none (as it does for
    a subnet without addresses); a property [addresses] of the subnet
    itself is overwritten. *)
Theorem subnet_details_carry_the_addresses
        (env : Env) (id : string) (st st0 : State) (tok : Js.value)
        (subnet : list (string * json)) (data : Js.value) :
  cache_find ("ipam_subnet_" ++ id) (cache st) = None ->
  authenticateIpam env st = (Ok tok, st0) ->
  ListSpec.ipam_answers env ("/" ++ appId env ++ "/subnets/" ++ id ++ "/")
    (Some (JObj subnet)) ->
  ListSpec.ipam_answers env
    ("/" ++ appId env ++ "/subnets/" ++ id ++ "/addresses/") data ->
  exists fields st1,
    IpamLists.get_subnet env id st
    = (Ok (Gateway.mkAnswer 200 (Some (JObj fields))), st1) /\
    lookup "addresses" fields = or_else data (Some (JArr [])) /\
    forall k, k <> "addresses" -> lookup k fields = lookup k subnet.
Proof.
  intros Hmiss Ha H1 H2.
  unfold IpamLists.get_subnet, try_catch, bind, cache_get.
  rewrite Hmiss. cbn [truthy]. rewrite Ha.
  unfold phpIpamApi_get, request, lift. cbn [header_token].
  destruct (H1 (header_token st0)) as [r1 [Hr1 Hp1]]. rewrite Hr1, Hp1.
  destruct (H2 (header_token st0)) as [r2 [Hr2 Hp2]]. rewrite Hr2, Hp2.
  unfold cache_set, ret, IpamLists.with_addresses. cbn [IpamLists.spread].
  eexists. eexists. split; [reflexivity |].
  split.
  - rewrite (proj1 (lookup_assign subnet "addresses" _)).
    unfold or_else. destruct data as [d |]; [| reflexivity].
    destruct (truthy (Some d)); reflexivity.
  - intros k Hk. now apply lookup_assign.
Qed.

Lemma subnet_details_carry_the_addresses_witness :
  exists fields st1,
    IpamLists.get_subnet ListExamples.empty_subnet_env "10" initial
    = (Ok (Gateway.mkAnswer 200 (Some (JObj fields))), st1) /\
    lookup "addresses" fields = or_else None (Some (JArr [])) /\
    forall k, k <> "addresses" ->
              lookup k fields = lookup k ListExamples.subnet10.
Proof.
  assert (Hmiss : cache_find ("ipam_subnet_" ++ "10") (cache initial) = None)
    by reflexivity.
  assert (Ha : authenticateIpam ListExamples.empty_subnet_env initial
               = (Ok (Some (JStr "t0k3n")),
                  snd (authenticateIpam ListExamples.empty_subnet_env initial)))
    by reflexivity.
  assert (H1 : ListSpec.ipam_answers ListExamples.empty_subnet_env
                 ("/" ++ appId ListExamples.empty_subnet_env ++ "/subnets/"
                      ++ "10" ++ "/")
                 (Some (JObj ListExamples.subnet10)))
    by (intros token; eexists; split; reflexivity).
  assert (H2 : ListSpec.ipam_answers ListExamples.empty_subnet_env
                 ("/" ++ appId ListExamples.empty_subnet_env ++ "/subnets/"
                      ++ "10" ++ "/addresses/") None)
    by (intros token; eexists; split; reflexivity).
  exact (subnet_details_carry_the_addresses ListExamples.empty_subnet_env
           "10" initial _ _ _ _ Hmiss Ha H1 H2).
Defined.

(** ** The two ways to ask for the next address *)



(** ** The cached list endpoints of proxmox-service *)

Import ProxmoxLists.

Lemma proxmox_stdTTL_nonzero (env : ProxmoxLists.Env) :
  ProxmoxLists.stdTTL env <> 0%Z.
Proof.
  unfold ProxmoxLists.stdTTL.
  destruct (ProxmoxLists.CACHE_TTL env) as [s |]; [| discriminate].
  destruct (ParseInt.parseInt s) as [n |]; [| discriminate].
  destruct (Z.eqb_spec n 0); [discriminate | assumption].
Qed.







Lemma host_entries_inventory (hosts : list Host) :
  host_entries (map vm_of hosts)
  = Ok (map (fun h => JObj [("id", JNum (vmid h)); ("name", JStr (name h));
                            ("node", JStr (node h));
                            ("status", JStr (vm_status h))]) hosts).
Proof.
  induction hosts as [| h hosts IH]; [reflexivity |].
  cbn [map host_entries]. rewrite IH. reflexivity.
Qed.

(** X18.  The host list and the hostname check agree when both are
    answered from ProxMox: with nothing cached and a well-formed
    inventory, [GET /proxmox/hosts] answers 200 with a list such that
    [POST /proxmox/check-hostname] reports a (non-empty) hostname as
    unavailable exactly when the list has a host of that name, letter
    case apart. *)
Theorem listed_hosts_are_the_taken_names
        (engine : Regex.Engine) (env : ProxmoxLists.Env)
        (st : ProxmoxLists.State) (hosts : list Host) :
  cache_find "proxmox_hosts" (ProxmoxLists.cache st) = None ->
  api env "/cluster/resources?type=vm" = inventory hosts ->
  exists entries st1,
    get_hosts env st
    = (Ok (Gateway.mkAnswer 200 (Some (JArr entries))), st1) /\
    forall body h,
      lookup "hostname" body = Some (JStr h) -> h <> "" ->
      (field (Proxmox.check_hostname engine
                (api env "/cluster/resources?type=vm") body) "available"
       = Some (JBool false)
       <-> exists n, ListSpec.lists entries n /\
                     toLowerCase n = toLowerCase h).
Proof.
  intros Hmiss Hapi.
  unfold get_hosts, ProxmoxLists.try_catch, ProxmoxLists.bind,
    ProxmoxLists.cache_get, proxmoxApi_get, ProxmoxLists.lift,
    ProxmoxLists.cache_set, ProxmoxLists.ret.
  rewrite Hmiss, Hapi. cbn [truthy].
  unfold inventory. cbn [axios validateStatus Z.leb Z.ltb Z.compare
                           Pos.compare Pos.compare_cont andb prop lookup
                           String.eqb Ascii.eqb Bool.eqb as_array].
  rewrite host_entries_inventory.
  eexists. eexists. split; [reflexivity |].
  intros body h Hh Hne.
  fold (inventory hosts).
  assert (Hl : (exists n,
                   ListSpec.lists
                     (map (fun h => JObj [("id", JNum (vmid h));
                                          ("name", JStr (name h));
                                          ("node", JStr (node h));
                                          ("status", JStr (vm_status h))])
                          hosts) n /\
                   toLowerCase n = toLowerCase h)
               <-> taken hosts h).
  { unfold ListSpec.lists, taken. split.
    - intros [n [[entry [Hin Hp]] Hn]].
      apply in_map_iff in Hin. destruct Hin as [host [<- Hin]].
      exists host. split; [exact Hin |].
      cbv [prop lookup String.eqb Ascii.eqb Bool.eqb] in Hp.
      now inversion Hp; subst.
    - intros [host [Hin Hn]]. exists (name host). split; [| exact Hn].
      eexists. split; [apply in_map_iff; exists host; split;
                       [reflexivity | exact Hin] | reflexivity]. }
  rewrite Hl. split.
  - intros Ha. destruct (existsb (fun host => String.eqb
                                     (toLowerCase (name host)) (toLowerCase h))
                                 hosts) eqn:E.
    + now apply existsb_taken.
    + exfalso. revert Ha.
      rewrite (check_hostname_inventory engine hosts body h Hh Hne), E.
      destruct (suggest engine (map vm_of hosts) (lookup "prefix" body));
        discriminate.
  - intros Ht. now rewrite (check_hostname_taken engine hosts body h Hh Hne Ht).
Qed.

Lemma listed_hosts_are_the_taken_names_witness :
  exists entries st1,
    get_hosts (ListExamples.proxmox_env ListExamples.cluster)
      ProxmoxLists.initial
    = (Ok (Gateway.mkAnswer 200 (Some (JArr entries))), st1) /\
    forall body h,
      lookup "hostname" body = Some (JStr h) -> h <> "" ->
      (field (Proxmox.check_hostname HostExamples.no_engine
                (api (ListExamples.proxmox_env ListExamples.cluster)
                   "/cluster/resources?type=vm") body) "available"
       = Some (JBool false)
       <-> exists n, ListSpec.lists entries n /\
                     toLowerCase n = toLowerCase h).
Proof.
  assert (Hmiss : cache_find "proxmox_hosts"
                    (ProxmoxLists.cache ProxmoxLists.initial) = None)
    by reflexivity.
  assert (Hapi : api (ListExamples.proxmox_env ListExamples.cluster)
                   "/cluster/resources?type=vm"
                 = inventory HostExamples.web3_web7_webX) by reflexivity.
  exact (listed_hosts_are_the_taken_names HostExamples.no_engine
           (ListExamples.proxmox_env ListExamples.cluster)
           ProxmoxLists.initial HostExamples.web3_web7_webX Hmiss Hapi).
Defined.

Ltac served_from_cache handler key :=
  let env := fresh "env" in
  let env' := fresh "env'" in
  let st := fresh "st" in
  let st1 := fresh "st1" in
  let c := fresh "c" in
  let H := fresh "H" in
  let Hc := fresh "Hc" in
  let Ht := fresh "Ht" in
  let Hw := fresh "Hw" in
  let Hst := fresh "Hst" in
  let rest := fresh "rest" in
  let Hlive := fresh "Hlive" in
  intros env env' st st1 c H Hc Ht Hw;
  assert (Hst : exists rest,
             ProxmoxLists.cache st1
             = (key, (c, (ProxmoxLists.clock env
                          + ProxmoxLists.stdTTL env * 1000)%Z)) :: rest);
  [ revert H Hc;
    unfold handler, ProxmoxLists.try_catch, ProxmoxLists.bind,
      ProxmoxLists.cache_get, ProxmoxLists.cache_set, proxmoxApi_get,
      ProxmoxLists.lift, ProxmoxLists.ret;
    rewrite (proj2 (Z.eqb_neq _ _) (proxmox_stdTTL_nonzero env));
    unfold Gateway.answer_of, error_response; cbn [status];
    repeat break_match; intros H Hc; inversion H; subst;
    cbn [ProxmoxLists.calls ProxmoxLists.cache] in *;
    try congruence; eexists; reflexivity
  | destruct Hst as [rest Hst];
    unfold handler, ProxmoxLists.try_catch, ProxmoxLists.bind,
      ProxmoxLists.cache_get, ProxmoxLists.ret;
    rewrite Hst; cbn [cache_find]; rewrite String.eqb_refl;
    assert (Hlive : (Z.eqb (ProxmoxLists.clock env
                            + ProxmoxLists.stdTTL env * 1000) 0
                     || (ProxmoxLists.clock env'
                         <=? ProxmoxLists.clock env
                             + ProxmoxLists.stdTTL env * 1000)%Z) = true)
      by (apply orb_true_iff; right; lia);
    rewrite Hlive, Ht; reflexivity ].

(** X19.  The three list endpoints of proxmox-service
    ([GET /proxmox/nodes], [GET /proxmox/vms], [GET /proxmox/hosts])
    serve what they have fetched: a truthy 200 answer obtained from
    ProxMox is given again, without any call to ProxMox and without a
    change of state, to every request that comes up to [stdTTL] seconds
    later, whatever ProxMox holds by then; so a host created in that
    time is missing from the list although the hostname check, which
    never reads the cache, already reports it. *)
Theorem proxmox_lists_are_served_from_the_cache :
  ListSpec.proxmox_served_from_cache get_nodes /\
  ListSpec.proxmox_served_from_cache get_vms /\
  ListSpec.proxmox_served_from_cache get_hosts.
Proof.
  split; [| split].
  - served_from_cache get_nodes "proxmox_nodes".
  - served_from_cache get_vms "proxmox_vms".
  - served_from_cache get_hosts "proxmox_hosts".
Qed.

Lemma proxmox_lists_are_served_from_the_cache_witness :
  ProxmoxLists.calls ListExamples.hosts_listed
  = ["/cluster/resources?type=vm"] /\
  get_hosts ListExamples.proxmox_a_minute_later ListExamples.hosts_listed
  = (Ok (Gateway.mkAnswer 200 ListExamples.host_list),
     ListExamples.hosts_listed).
Proof.
  assert (H : get_hosts (ListExamples.proxmox_env ListExamples.cluster)
                ProxmoxLists.initial
              = (Ok (Gateway.mkAnswer 200 ListExamples.host_list),
                 ListExamples.hosts_listed)) by reflexivity.
  assert (Hc : ProxmoxLists.calls ListExamples.hosts_listed
               <> ProxmoxLists.calls ProxmoxLists.initial) by discriminate.
  assert (Ht : truthy ListExamples.host_list = true) by reflexivity.
  assert (Hw : (ProxmoxLists.clock ListExamples.proxmox_a_minute_later
                <= ProxmoxLists.clock
                     (ListExamples.proxmox_env ListExamples.cluster)
                   + ProxmoxLists.stdTTL
                       (ListExamples.proxmox_env ListExamples.cluster) * 1000)%Z)
    by (vm_compute; discriminate).
  split; [reflexivity |].
  exact (proj2 (proj2 proxmox_lists_are_served_from_the_cache)
           (ListExamples.proxmox_env ListExamples.cluster)
           ListExamples.proxmox_a_minute_later ProxmoxLists.initial
           ListExamples.hosts_listed _ H Hc Ht Hw).
Defined.
